(** * Prom.UA feed converter: the reconciliation and export pipeline

    A shallow embedding of the three revisions of the converter
    ([bot_1_0.py], [bot_1_1.py], [bot_1_2.py]): column resolution, the field
    extractors, the RU/UA merge and the two exporters (the fixed-schema sheet
    and the YML tree), together with the parts of Python, pandas and
    ElementTree that these functions rely on, and the handlers of the bot
    of revisions 1.0 and 1.1 that call them. *)

From Stdlib Require Import String Ascii NArith ZArith List Lia DecimalString
  DecimalZ DecimalPos.
From stdpp Require Import base decidable option numbers list.

Local Open Scope N_scope.

(** ** Python text

    A Python [str] is a sequence of Unicode code points. *)

Abbreviation char := N (only parsing).
Abbreviation str := (list N) (only parsing).

Module Py.

(** Source literals are written as Rocq strings holding UTF-8 and are decoded
    to code points. *)
Fixpoint utf8_decode (bs : list N) : str :=
  match bs with
  | [] => []
  | b0 :: t0 =>
    if b0 <? 128 then b0 :: utf8_decode t0
    else match t0 with
    | [] => [b0]
    | b1 :: t1 =>
      if b0 <? 224 then ((b0 - 192) * 64 + (b1 - 128)) :: utf8_decode t1
      else match t1 with
      | [] => [b0; b1]
      | b2 :: t2 =>
        if b0 <? 240
        then ((b0 - 224) * 4096 + (b1 - 128) * 64 + (b2 - 128)) :: utf8_decode t2
        else match t2 with
        | [] => [b0; b1; b2]
        | b3 :: t3 =>
          ((b0 - 240) * 262144 + (b1 - 128) * 4096 + (b2 - 128) * 64 + (b3 - 128))
            :: utf8_decode t3
        end
      end
    end
  end.

Definition lit (s : string) : str :=
  utf8_decode (map N_of_ascii (list_ascii_of_string s)).

(** The double quote, U+0022. *)
Definition dquote : str := [34].

(** [c.isspace()]: the code points Python treats as white space. *)
Definition isspace (c : char) : bool :=
  ((9 <=? c) && (c <=? 13)) || ((28 <=? c) && (c <=? 32))
  || (c =? 133) || (c =? 160) || (c =? 5760)
  || ((8192 <=? c) && (c <=? 8202))
  || (c =? 8232) || (c =? 8233) || (c =? 8239) || (c =? 8287) || (c =? 12288).

(** [s.lstrip()], [s.rstrip()], [s.strip()]. *)
Fixpoint lstrip (s : str) : str :=
  match s with
  | c :: s' => if isspace c then lstrip s' else s
  | [] => []
  end.

Fixpoint rstrip (s : str) : str :=
  match s with
  | [] => []
  | c :: s' =>
    match rstrip s' with
    | [] => if isspace c then [] else [c]
    | t => c :: t
    end
  end.

Definition strip (s : str) : str := rstrip (lstrip s).

(** [s.split(sep)] for a one-character separator: the pieces between the
    separators, always at least one piece. *)
Fixpoint split (sep : char) (s : str) : list str :=
  match s with
  | [] => [[]]
  | c :: s' =>
    if c =? sep then [] :: split sep s'
    else match split sep s' with
         | p :: ps => (c :: p) :: ps
         | [] => [[c]]
         end
  end.

(** [s.replace(old, new)] for a one-character [old]. *)
Definition replace (old : char) (new : str) (s : str) : str :=
  flat_map (fun c => if c =? old then new else [c]) s.

(** [sep.join(parts)]. *)
Fixpoint join (sep : str) (parts : list str) : str :=
  match parts with
  | [] => []
  | [p] => p
  | p :: ps => p ++ sep ++ join sep ps
  end.

(** [str(n)] for an integer. *)
Definition str_of_Z (z : Z) : str :=
  map N_of_ascii (list_ascii_of_string (NilZero.string_of_int (Z.to_int z))).

Definition str_of_nat (n : nat) : str := str_of_Z (Z.of_nat n).

(** [s.startswith(prefix)] and [sub in s]. *)
Fixpoint startswith (s prefix : str) : bool :=
  match prefix, s with
  | [], _ => true
  | a :: prefix', b :: s' => (a =? b) && startswith s' prefix'
  | _ :: _, [] => false
  end.

Fixpoint contains (sub s : str) : bool :=
  startswith s sub
  || match s with
     | [] => false
     | _ :: s' => contains sub s'
     end.

(** [list(dict.fromkeys(keys))]: a dict keeps the position of a key's first
    insertion; inserting a key already present changes nothing. *)
Definition dict_add (d : list str) (k : str) : list str :=
  if bool_decide (k ∈ d) then d else d ++ [k].

Definition dict_fromkeys (keys : list str) : list str :=
  fold_left dict_add keys [].

End Py.

Definition py (s : string) : str := Py.lit s.
Arguments py s%_string.

(** A one-character literal. *)
Definition ch (s : string) : char := hd 0 (Py.lit s).
Arguments ch s%_string.

(** ** Interface to Python's floats and case folding

    Binary floating point and the Unicode case tables stay outside the
    embedding: [float(s)], [str(x)], [bool(x)] on floats, and [s.lower()]
    are taken as an interface, and every result below holds for any
    implementation of it. *)

Class PyBuiltins := {
  pyfloat : Type;
  (** [float(s)]; [None] stands for the [ValueError] of an unparseable text. *)
  float_of_str : str -> option pyfloat;
  (** [str(x)]. *)
  str_of_float : pyfloat -> str;
  (** [bool(x)]: false for a zero, true otherwise. *)
  bool_of_float : pyfloat -> bool;
  (** [s.lower()]. *)
  str_lower : str -> str
}.

(** ** Cells, rows and frames *)

(** A scalar held in a cell: [None], the missing value [NaN], a text, an
    integer or a float. *)
Inductive cell `{PyBuiltins} :=
  | CNone
  | CNaN
  | CStr (s : str)
  | CInt (z : Z)
  | CFloat (x : pyfloat).

(** Exceptions raised by the pandas operations used here. *)
Inductive exn :=
  | KeyError (key : str).

Inductive result (A : Type) :=
  | Ok (a : A)
  | Raise (e : exn).
Arguments Ok {A} a.
Arguments Raise {A} e.

#[export] Instance result_ret : MRet result := fun A a => Ok a.
#[export] Instance result_bind : MBind result := fun A B k m =>
  match m with
  | Ok a => k a
  | Raise e => Raise e
  end.

Module Pd.
Section Pandas.
Context `{PyBuiltins}.

(** A row ([pd.Series]) pairs labels with cells, in column order; a mapping
    literal ([dict]) has the same shape, in insertion order. The labels of
    a row are pairwise distinct, as the headers that [read_excel] gives a
    frame are; access by label reads the one cell of that label. *)
Definition Series := list (str * cell).

(** A frame: its column labels and its rows (the default integer index is
    the position of a row). *)
Record DataFrame := mkDF { columns : list str; rows : list Series }.

(** A frame written out row by row. *)
Definition frame (cols : list str) (data : list (list cell)) : DataFrame :=
  mkDF cols (map (zip cols) data).

(** [str(v)] of a cell, which is also what [.astype(str)] stores. *)
Definition py_str (v : cell) : str :=
  match v with
  | CNone => py "None"
  | CNaN => py "nan"
  | CStr s => s
  | CInt z => Py.str_of_Z z
  | CFloat x => str_of_float x
  end.

(** [bool(v)]. *)
Definition truthy (v : cell) : bool :=
  match v with
  | CNone => false
  | CNaN => true
  | CStr s => negb (bool_decide (s = []))
  | CInt z => negb (z =? 0)%Z
  | CFloat x => bool_of_float x
  end.

(** [pd.notna(v)]. *)
Definition notna (v : cell) : bool :=
  match v with
  | CNone | CNaN => false
  | _ => true
  end.

(** [row[k]] when [k in row]. *)
Fixpoint lookup (k : str) (r : Series) : option cell :=
  match r with
  | [] => None
  | (k', v) :: r' => if bool_decide (k' = k) then Some v else lookup k r'
  end.

(** [row.get(k, default)]. *)
Definition get (r : Series) (k : str) (default : cell) : cell :=
  match lookup k r with
  | Some v => v
  | None => default
  end.

(** The guard [k in row and pd.notna(row[k])], giving [row[k]] when it holds. *)
Definition notna_at (r : Series) (k : str) : option cell :=
  match lookup k r with
  | Some v => if notna v then Some v else None
  | None => None
  end.

(** [d[k] = v] on a mapping: an existing key keeps its position, a new key
    goes last. *)
Fixpoint setitem (k : str) (v : cell) (r : Series) : Series :=
  match r with
  | [] => [(k, v)]
  | (k', v') :: r' =>
    if bool_decide (k' = k) then (k, v) :: r' else (k', v') :: setitem k v r'
  end.

(** [c in df.columns]. *)
Definition has_column (df : DataFrame) (c : str) : bool :=
  bool_decide (c ∈ columns df).

(** [df[c]]: the column as a list of cells, or [KeyError]. *)
Definition getcol (df : DataFrame) (c : str) : result (list cell) :=
  if has_column df c then Ok (map (fun r => get r c CNaN) (rows df))
  else Raise (KeyError c).

(** [df[c] = vals] for a column of the frame's own length. *)
Definition setcol (df : DataFrame) (c : str) (vals : list cell) : DataFrame :=
  mkDF (if has_column df c then columns df else columns df ++ [c])
       (zip_with (fun r v => setitem c v r) (rows df) vals).

(** [df[c] = series] for a series with its own default index: cells are
    aligned by position, rows beyond the series get [NaN]. *)
Definition align (n : nat) (vals : list cell) : list cell :=
  take n vals ++ replicate (n - length vals) CNaN.

(** [df.columns = [f(c) for c in df.columns]]. *)
Definition relabel (f : str -> str) (df : DataFrame) : DataFrame :=
  mkDF (map f (columns df)) (map (map (fun kv => (f kv.1, kv.2))) (rows df)).

(** [df[[c1, ..., cn]]]: the sub-frame of these columns, or [KeyError] on
    the first label that is missing. *)
Definition select (df : DataFrame) (cols : list str) : result DataFrame :=
  match List.find (fun c => negb (has_column df c)) cols with
  | Some c => Raise (KeyError c)
  | None => Ok (mkDF cols (map (fun r => map (fun c => (c, get r c CNaN)) cols) (rows df)))
  end.

(** [df.rename(columns=mapping)]. *)
Definition rename_label (mapping : list (str * str)) (c : str) : str :=
  match List.find (fun kv => bool_decide (kv.1 = c)) mapping with
  | Some kv => kv.2
  | None => c
  end.

Definition rename (mapping : list (str * str)) (df : DataFrame) : DataFrame :=
  relabel (rename_label mapping) df.

(** [series.astype(str)] and [series.astype(str).str.strip()]. *)
Definition astype_str (vals : list cell) : list cell :=
  map (fun v => CStr (py_str v)) vals.

Definition str_strip (vals : list cell) : list cell :=
  map (fun v => CStr (Py.strip (py_str v))) vals.

(** Two join keys match when both are the same text (the key column is
    text wherever a join is made here). *)
Definition key_match (a b : cell) : bool :=
  match a, b with
  | CStr x, CStr y => bool_decide (x = y)
  | _, _ => false
  end.

(** [left.merge(right, on=key, how='left')]: rows in the order of [left];
    a left row is paired with every right row of the same key, in the order
    of [right], or padded with [NaN] when there is none. A label other than
    the key that occurs on both sides gets the suffix [_x] on the left and
    [_y] on the right. *)
Definition right_columns (right : DataFrame) (key : str) : list str :=
  List.filter (fun c => negb (bool_decide (c = key))) (columns right).

Definition left_label (right : DataFrame) (key : str) (c : str) : str :=
  if bool_decide (c ∈ right_columns right key) then c ++ py "_x" else c.

Definition right_label (left : DataFrame) (c : str) : str :=
  if bool_decide (c ∈ columns left) then c ++ py "_y" else c.

(** The cells a merged row takes from the left row, and from a right row. *)
Definition left_part (right : DataFrame) (key : str) (l : Series) : Series :=
  map (fun kv => (left_label right key kv.1, kv.2)) l.

Definition right_part (left right : DataFrame) (key : str) (m : Series) : Series :=
  map (fun c => (right_label left c, get m c CNaN)) (right_columns right key).

Definition right_missing (left right : DataFrame) (key : str) : Series :=
  map (fun c => (right_label left c, CNaN)) (right_columns right key).

(** The right rows whose key is that of the left row [l]. *)
Definition matches (right : DataFrame) (key : str) (l : Series) : list Series :=
  List.filter (fun m => key_match (get l key CNaN) (get m key CNaN)) (rows right).

(** The merged rows that come from the left row [l]. *)
Definition joined (left right : DataFrame) (key : str) (l : Series) : list Series :=
  match matches right key l with
  | [] => [left_part right key l ++ right_missing left right key]
  | ms => map (fun m => left_part right key l ++ right_part left right key m) ms
  end.

Definition merge_left (left right : DataFrame) (key : str) : DataFrame :=
  mkDF (map (left_label right key) (columns left)
        ++ map (right_label left) (right_columns right key))
       (flat_map (joined left right key) (rows left)).

(** [pd.DataFrame(items)] from a list of mappings: the columns are the keys
    in order of first appearance, a key missing from an item reads [NaN]. *)
Definition from_records_cols (items : list Series) (cols : list str) : DataFrame :=
  mkDF cols (map (fun it => map (fun c => (c, get it c CNaN)) cols) items).

Definition from_records (items : list Series) : DataFrame :=
  from_records_cols items (Py.dict_fromkeys (flat_map (fun it => it.*1) items)).

End Pandas.
End Pd.

(** ** ElementTree *)

Module ET.

(** An element: tag, attributes in insertion order, text ([None] and the
    empty text serialize alike) and children. *)
#[warnings="-register-all"]
Inductive Element :=
  | Elem (tag : str) (attrib : list (str * str)) (text : str) (children : list Element).

(** [ET.SubElement(parent, tag).text = text] for a childless element. *)
Definition leaf (tag : str) (text : str) : Element := Elem tag [] text [].

(** [_escape_cdata]. *)
Definition escape_cdata (text : str) : str :=
  Py.replace (ch ">") (py "&gt;")
    (Py.replace (ch "<") (py "&lt;")
      (Py.replace (ch "&") (py "&amp;") text)).

(** [_escape_attrib]. *)
Definition escape_attrib (text : str) : str :=
  Py.replace 9 (py "&#09;")
    (Py.replace 10 (py "&#10;")
      (Py.replace 13 (py "&#13;")
        (Py.replace 34 (py "&quot;")
          (escape_cdata text)))).

(** [_serialize_xml] with [short_empty_elements=True], for tags and
    attribute names without a namespace. *)
Fixpoint serialize (e : Element) : str :=
  match e with
  | Elem tag attrib text children =>
    py "<" ++ tag
    ++ flat_map (fun kv => py " " ++ kv.1 ++ py "=" ++ Py.dquote
                             ++ escape_attrib kv.2 ++ Py.dquote) attrib
    ++ match text, children with
       | [], [] => py " />"
       | _, _ => py ">" ++ escape_cdata text ++ flat_map serialize children
                 ++ py "</" ++ tag ++ py ">"
       end
  end.

(** [ET.tostring(root, encoding='utf-8').decode('utf-8')]: for this encoding
    no declaration is written, and encoding followed by decoding gives the
    text back. *)
Definition tostring (root : Element) : str := serialize root.

End ET.

(** ** Code shared by the three revisions *)

Module Common.
Import Pd.
Section Common.
Context `{PyBuiltins}.

Definition CURRENCY : str := py "UAH".

(** [find_first_col(...) or fallback]. *)
Definition or_str (o : option str) (fallback : str) : str :=
  match o with
  | Some c => if bool_decide (c = []) then fallback else c
  | None => fallback
  end.

Definition normalize_df (df : DataFrame) : DataFrame :=
  relabel (fun c => str_lower (Py.strip c)) df.

Fixpoint find_first_col (df : DataFrame) (candidates : list str) : option str :=
  match candidates with
  | [] => None
  | c :: candidates' =>
    if has_column df c then Some c else find_first_col df candidates'
  end.

(** The pieces of one photo cell:
    [[p.strip() for p in str(v).split(",") if p.strip()]]. *)
Definition photo_parts (v : cell) : list str :=
  flat_map (fun p => match Py.strip p with [] => [] | q => [q] end)
           (Py.split (ch ",") (py_str v)).

(** The list [urls] that the loop of [build_image_list] collects, over the
    revision's photo aliases. *)
Definition urls (photos : list str) (row : Series) : list str :=
  flat_map (fun col => match notna_at row col with
                       | Some v => photo_parts v
                       | None => []
                       end) photos.

Definition build_image_list (photos : list str) (row : Series) : list str :=
  take 10 (Py.dict_fromkeys (urls photos row)).

(** The text handed to [float]: [str(v).replace(",", ".").strip()]. *)
Definition price_text (v : cell) : str :=
  Py.strip (Py.replace (ch ",") (py ".") (py_str v)).

(** The loop collecting the attribute triplets of a row, over the
    revision's [SRC["params_primary"]]. *)
Definition triplets (params : list (str * str)) (r : Series) : list (str * str * str) :=
  flat_map (fun p => match notna_at r p.1 with
                     | Some v => match Py.strip (py_str v) with
                                 | [] => []
                                 | val => [(p.2, [], val)]
                                 end
                     | None => []
                     end) params.

(** The three column names of attribute slot [i]. *)
Definition slot_name (i : nat) : str := py "Назва_Характеристики_" ++ Py.str_of_nat i.
Definition slot_unit (i : nat) : str := py "Одиниця_виміру_Характеристики_" ++ Py.str_of_nat i.
Definition slot_value (i : nat) : str := py "Значення_Характеристики_" ++ Py.str_of_nat i.

Definition slot_columns (n : nat) : list str :=
  flat_map (fun i => [slot_name i; slot_unit i; slot_value i]) (seq 1 n).

(** [for i, (nm, unit, val) in enumerate(ts, start=1): item[...] = ...]. *)
Fixpoint fill_slots (i : nat) (ts : list (str * str * str)) (item : Series) : Series :=
  match ts with
  | [] => item
  | (nm, unit, val) :: ts' =>
    fill_slots (S i) ts'
      (setitem (slot_value i) (CStr val)
        (setitem (slot_unit i) (CStr unit)
          (setitem (slot_name i) (CStr nm) item)))
  end.

(** [{c: '' for c in cols}]. *)
Definition blank_item (cols : list str) : Series :=
  map (fun c => (c, CStr [])) cols.

(** [pick_price(r) or '']. *)
Definition price_or_blank (price : option pyfloat) : cell :=
  match price with
  | Some p => if bool_of_float p then CFloat p else CStr []
  | None => CStr []
  end.

(** A run of [item[k] = v] assignments, in program order. *)
Definition assign (item : Series) (kvs : list (str * cell)) : Series :=
  fold_left (fun it kv => setitem kv.1 kv.2 it) kvs item.

(** What the upload handler produces once both files are in. *)
Inductive artifact :=
  | Sheet (df : DataFrame)
  | Document (text : str).

(** The document around the offers. *)
Definition catalog (offers : list ET.Element) : ET.Element :=
  ET.Elem (py "yml_catalog") [] []
    [ET.Elem (py "shop") [] [] [ET.Elem (py "offers") [] [] offers]].

Definition xml_declaration : str :=
  py "<?xml version=" ++ Py.dquote ++ py "1.0" ++ Py.dquote
  ++ py " encoding=" ++ Py.dquote ++ py "UTF-8" ++ Py.dquote ++ py "?>" ++ [10].

Definition SRC_id : list str := [py "product code"; py "main sku"; py "код"; py "артикул"].
Definition SRC_name : list str := [py "name"; py "назва"; py "название"].
Definition SRC_qty : list str := [py "quantity"; py "кількість"; py "количество"].
Definition SRC_price : list str := [py "special price"; py "price"; py "ціна"; py "цена"].
Definition SRC_description : list str := [py "description"; py "опис"; py "описание"].

(** The source keys of [SRC["params_primary"]], the same in every revision. *)
Definition param_keys : list str :=
  [py "size of the set"; py "size extra"; py "sheet size";
   py "size of the pillowcase"; py "dimensions of the duvet cover";
   py "fabric type"; py "composition"; py "density"; py "color";
   py "country of manufacture"; py "brand registration country";
   py "producer"; py "sheet"; py "pillowcase"; py "a feature of pillowcases";
   py "sheet with elastic band"; py "gift packaging";
   py "available layout options";
   py "fabrics " ++ Py.dquote ++ py "a" ++ Py.dquote ++ py " (top of the quilt)";
   py "fabrics " ++ Py.dquote ++ py "b" ++ Py.dquote ++ py " (bed sheet)";
   py "bonus"].

End Common.
End Common.

(** ** Revision 1.0 ([bot_1_0.py]) *)

Module V1_0.
Import Pd Common.
Section V1_0.
Context `{PyBuiltins}.

Definition SRC_photos : list str :=
  [py "main photo"; py "photo1"; py "photo2"; py "photo3"; py "photo4";
   py "photo5"; py "photo6"; py "photo7"; py "photo8"; py "photo 9";
   py "photo 10"; py "photo 11"; py "photo 12";
   py "посилання_зображення"; py "изображение"].

Definition SRC_params_primary : list (str * str) :=
  zip param_keys
    [py "Розмір комплекту"; py "Додатковий розмір"; py "Розмір простирадла";
     py "Розмір наволочки"; py "Розмір підковдри"; py "Тип тканини";
     py "Склад"; py "Щільність"; py "Колір"; py "Країна виробник";
     py "Країна реєстрації бренду"; py "Виробник"; py "Простирадло";
     py "Наволочка"; py "Особливість наволочок"; py "Простирадло на резинці";
     py "Подарункова упаковка"; py "Доступні комплектації";
     py "Тканина A (верх ковдри)"; py "Тканина B (простирадло)"; py "Бонус"].

Definition PROM_XLS_COLS : list str :=
  [py "Код_товару"; py "Назва_позиції"; py "Назва_позиції_укр"; py "Опис";
   py "Опис_укр"; py "Ціна"; py "Валюта"; py "Кількість";
   py "Посилання_зображення"; py "Вага,кг"; py "Ширина,см"; py "Висота,см";
   py "Довжина,см"]
  ++ slot_columns 15.

Definition build_image_list (row : Series) : list str :=
  Common.build_image_list SRC_photos row.

(** [pick_price]: a [ValueError] is reported and the loop goes on to the
    next alias. *)
Fixpoint pick_price_from (cols : list str) (row : Series) : option pyfloat :=
  match cols with
  | [] => None
  | c :: cols' =>
    match notna_at row c with
    | Some v =>
      let val := price_text v in
      match float_of_str val with
      | Some price => Some price
      | None => pick_price_from cols' row
      end
    | None => pick_price_from cols' row
    end
  end.

Definition pick_price (row : Series) : option pyfloat :=
  pick_price_from SRC_price row.

Definition merge_ru_ua (df_ru df_ua : DataFrame) : result DataFrame :=
  let df_ru := normalize_df df_ru in
  let df_ua := normalize_df df_ua in
  match find_first_col df_ru SRC_id, find_first_col df_ua SRC_id with
  | Some (c1 :: s1), Some (c2 :: s2) =>
    let col_id_ru := c1 :: s1 in
    let col_id_ua := c2 :: s2 in
    let col_name_ru := or_str (find_first_col df_ru SRC_name) (py "название") in
    let col_name_ua := or_str (find_first_col df_ua SRC_name) (py "назва") in
    let col_descr_ru := or_str (find_first_col df_ru SRC_description) (py "описание") in
    let col_descr_ua := or_str (find_first_col df_ua SRC_description) (py "опис") in
    ids_ru ← getcol df_ru col_id_ru;
    let df_ru := setcol df_ru (py "_id") (str_strip ids_ru) in
    ids_ua ← getcol df_ua col_id_ua;
    let df_ua := setcol df_ua (py "_id") (str_strip ids_ua) in
    ua ← select df_ua [py "_id"; col_name_ua; col_descr_ua];
    let ua := rename [(col_name_ua, py "Назва_позиції_укр");
                      (col_descr_ua, py "Опис_укр")] ua in
    let merged := merge_left df_ru ua (py "_id") in
    names ← getcol merged col_name_ru;
    let merged := setcol merged (py "Назва_позиції") (astype_str names) in
    descrs ← getcol merged col_descr_ru;
    Ok (setcol merged (py "Опис") (astype_str descrs))
  | _, _ => Ok df_ru
  end.

(** The body of the loop of [to_prom_excel]; [None] is [continue]. *)
Definition excel_item (col_id col_qty : str) (r : Series) : option Series :=
  match Py.strip (py_str (get r col_id (CStr []))) with
  | [] => None
  | pid =>
    let item := assign (blank_item PROM_XLS_COLS)
      [(py "Код_товару", CStr (take 25 pid));
       (py "Назва_позиції", get r (py "Назва_позиції") (CStr []));
       (py "Назва_позиції_укр", get r (py "Назва_позиції_укр") (CStr []));
       (py "Опис", get r (py "Опис") (CStr []));
       (py "Опис_укр", get r (py "Опис_укр") (CStr []));
       (py "Ціна", price_or_blank (pick_price r));
       (py "Валюта", CStr CURRENCY);
       (py "Кількість", get r col_qty (CStr []));
       (py "Посилання_зображення", CStr (Py.join (py ", ") (build_image_list r)))] in
    Some (fill_slots 1 (take 15 (triplets SRC_params_primary r)) item)
  end.

Definition to_prom_excel (df : DataFrame) : DataFrame :=
  let col_id := or_str (find_first_col df SRC_id) (py "код") in
  let col_qty := or_str (find_first_col df SRC_qty) (py "quantity") in
  from_records_cols (omap (excel_item col_id col_qty) (rows df)) PROM_XLS_COLS.

(** The body of the loop of [to_prom_yml]; [None] is [continue]. *)
Definition offer (col_id col_qty : str) (r : Series) : option ET.Element :=
  match Py.strip (py_str (get r col_id (CStr []))) with
  | [] => None
  | base_id =>
    let price := pick_price r in
    let qty := get r col_qty CNone in
    Some (ET.Elem (py "offer") [(py "id", base_id); (py "available", py "true")] []
      ([ET.leaf (py "name") (py_str (get r (py "Назва_позиції") (CStr [])));
        ET.leaf (py "name_ua") (py_str (get r (py "Назва_позиції_укр") (CStr [])));
        ET.leaf (py "description") (py_str (get r (py "Опис") (CStr [])));
        ET.leaf (py "description_ua") (py_str (get r (py "Опис_укр") (CStr [])))]
       ++ match price with
          | Some p => if bool_of_float p then [ET.leaf (py "price") (str_of_float p)] else []
          | None => []
          end
       ++ [ET.leaf (py "currencyId") CURRENCY]
       ++ (if notna qty then [ET.leaf (py "quantity_in_stock") (py_str qty)] else [])
       ++ map (ET.leaf (py "picture")) (build_image_list r)))
  end.

Definition offers (df : DataFrame) : list ET.Element :=
  let col_id := or_str (find_first_col df SRC_id) (py "код") in
  let col_qty := or_str (find_first_col df SRC_qty) (py "quantity") in
  omap (offer col_id col_qty) (rows df).

Definition to_prom_yml (df : DataFrame) : str :=
  xml_declaration ++ ET.tostring (catalog (offers df)).

(** The generation step of the upload handler, for each format. *)
Definition generate_xlsx (df_ru df_ua : DataFrame) : result DataFrame :=
  merged ← merge_ru_ua df_ru df_ua; mret (to_prom_excel merged).

Definition generate_yml (df_ru df_ua : DataFrame) : result str :=
  merged ← merge_ru_ua df_ru df_ua; mret (to_prom_yml merged).

End V1_0.
End V1_0.

(** ** Revision 1.1 ([bot_1_1.py]) *)

Module V1_1.
Import Pd Common.
Section V1_1.
Context `{PyBuiltins}.

Definition SRC_photos : list str :=
  [py "main photo"; py "photo1"; py "photo2"; py "photo3"; py "photo4";
   py "photo5"; py "photo6"; py "photo7"; py "photo8"; py "photo9";
   py "photo10"; py "посилання_зображення"; py "изображение"].

Definition SRC_params_primary : list (str * str) := V1_0.SRC_params_primary.

Definition PROM_XLS_COLS : list str :=
  [py "Код_товару"; py "Назва_позиції"; py "Назва_позиції_укр"; py "Опис";
   py "Опис_укр"; py "Ціна"; py "Валюта"; py "Кількість";
   py "Посилання_зображення"]
  ++ slot_columns 20.

Definition build_image_list (row : Series) : list str :=
  Common.build_image_list SRC_photos row.

(** [pick_price]: the first alias holding a value returns, parsed or not. *)
Fixpoint pick_price_from (cols : list str) (row : Series) : option pyfloat :=
  match cols with
  | [] => None
  | c :: cols' =>
    match notna_at row c with
    | Some v =>
      match float_of_str (price_text v) with
      | Some price => Some price
      | None => None
      end
    | None => pick_price_from cols' row
    end
  end.

Definition pick_price (row : Series) : option pyfloat :=
  pick_price_from SRC_price row.

Definition merge_ru_ua (df_ru df_ua : DataFrame) : result DataFrame :=
  let df_ru := normalize_df df_ru in
  let df_ua := normalize_df df_ua in
  let col_id_ru := or_str (find_first_col df_ru SRC_id) (py "код") in
  let col_id_ua := or_str (find_first_col df_ua SRC_id) (py "код") in
  let col_name_ru := or_str (find_first_col df_ru SRC_name) (py "название") in
  let col_name_ua := or_str (find_first_col df_ua SRC_name) (py "назва") in
  ids_ru ← getcol df_ru col_id_ru;
  let df_ru := setcol df_ru (py "_id") (str_strip ids_ru) in
  ids_ua ← getcol df_ua col_id_ua;
  let df_ua := setcol df_ua (py "_id") (str_strip ids_ua) in
  ua ← select df_ua [py "_id"; col_name_ua];
  let ua := rename [(col_name_ua, py "Назва_позиції_укр")] ua in
  let merged := merge_left df_ru ua (py "_id") in
  names ← getcol merged col_name_ru;
  let merged := setcol merged (py "Назва_позиції") (astype_str names) in
  ids ← getcol merged (py "_id");
  Ok (setcol merged (py "Код_товару") ids).

(** The body of the loop of [to_prom_excel]. *)
Definition excel_item (col_qty : str) (r : Series) : Series :=
  let item := assign (blank_item PROM_XLS_COLS)
    [(py "Код_товару", get r (py "Код_товару") (CStr []));
     (py "Назва_позиції", get r (py "Назва_позиції") (CStr []));
     (py "Назва_позиції_укр", get r (py "Назва_позиції_укр") (CStr []));
     (py "Ціна", price_or_blank (pick_price r));
     (py "Валюта", CStr CURRENCY);
     (py "Кількість", get r col_qty (CStr []));
     (py "Посилання_зображення", CStr (Py.join (py ", ") (build_image_list r)))] in
  fill_slots 1 (triplets SRC_params_primary r) item.

(** The list [rows] built by [to_prom_excel]. *)
Definition excel_items (df : DataFrame) : list Series :=
  let col_qty := or_str (find_first_col df SRC_qty) (py "quantity") in
  map (excel_item col_qty) (rows df).

Definition to_prom_excel (df : DataFrame) : DataFrame :=
  from_records (excel_items df).

Definition xml_safe (val : cell) : str :=
  Py.replace (ch ">") (py "&gt;")
    (Py.replace (ch "<") (py "&lt;")
      (Py.replace (ch "&") (py "&amp;") (py_str val))).

(** The [param] children of an offer. *)
Definition param_nodes (params : list (str * str)) (r : Series) : list ET.Element :=
  flat_map (fun p => match notna_at r p.1 with
                     | Some v => match Py.strip (py_str v) with
                                 | [] => []
                                 | val => [ET.Elem (py "param") [(py "name", p.2)]
                                             (xml_safe (CStr val)) []]
                                 end
                     | None => []
                     end) params.

(** The body of the loop of [to_prom_yml]; [None] is [continue]. *)
Definition offer (col_qty : str) (r : Series) : option ET.Element :=
  match Py.strip (py_str (get r (py "Код_товару") (CStr []))) with
  | [] => None
  | base_id =>
    let name := get r (py "Назва_позиції") (CStr []) in
    let name_ua := get r (py "Назва_позиції_укр") (CStr []) in
    let price := pick_price r in
    let qty := get r col_qty CNone in
    let images := build_image_list r in
    Some (ET.Elem (py "offer") [(py "id", base_id); (py "available", py "true")] []
      ((if truthy name then [ET.leaf (py "name") (xml_safe name)] else [])
       ++ (if truthy name_ua then [ET.leaf (py "name_ua") (xml_safe name_ua)] else [])
       ++ match price with
          | Some p => [ET.leaf (py "price") (str_of_float p)]
          | None => []
          end
       ++ [ET.leaf (py "currencyId") CURRENCY]
       ++ (if notna qty then [ET.leaf (py "quantity_in_stock") (py_str qty)] else [])
       ++ map (fun url => ET.leaf (py "picture") (xml_safe (CStr url))) images
       ++ param_nodes SRC_params_primary r))
  end.

Definition offers (df : DataFrame) : list ET.Element :=
  let col_qty := or_str (find_first_col df SRC_qty) (py "quantity") in
  omap (offer col_qty) (rows df).

Definition to_prom_yml (df : DataFrame) : str :=
  xml_declaration ++ ET.tostring (catalog (offers df)).

(** The generation step of the upload handler, for each format. *)
Definition generate_xlsx (df_ru df_ua : DataFrame) : result DataFrame :=
  merged ← merge_ru_ua df_ru df_ua; mret (to_prom_excel merged).

Definition generate_yml (df_ru df_ua : DataFrame) : result str :=
  merged ← merge_ru_ua df_ru df_ua; mret (to_prom_yml merged).

(** [desired_format == 'xlsx'] selects the sheet, anything else the tree. *)
Definition generate (desired_format : str) (df_ru df_ua : DataFrame) : result artifact :=
  if bool_decide (desired_format = py "xlsx")
  then out_df ← generate_xlsx df_ru df_ua; mret (Sheet out_df)
  else xml_text ← generate_yml df_ru df_ua; mret (Document xml_text).

End V1_1.
End V1_1.

(** ** Revision 1.2 ([bot_1_2.py]) *)

Module V1_2.
Import Pd Common.
Section V1_2.
Context `{PyBuiltins}.

Definition SRC_photos : list str := V1_1.SRC_photos.

Definition SRC_params_primary : list (str * str) :=
  zip param_keys
    [py "Тип комплекта"; py "Додатковий розмір"; py "Розмір простирадла";
     py "Розмір наволочки"; py "Розмір підковдри"; py "Тип тканини";
     py "Склад"; py "Щільність"; py "Цв"; py "Страна производитель";
     py "Країна реєстрації бренду"; py "Производитель"; py "Простирадло";
     py "Наволочка"; py "Особливість наволочок"; py "Простирадло на резинці";
     py "Подарункова упаковка"; py "Доступні комплектації";
     py "Тканина A (верх ковдри)"; py "Тканина B (простирадло)"; py "Бонус"].

Definition PROM_XLS_COLS : list str :=
  [py "Код_товару"; py "Назва_позиції"; py "Назва_позиції_укр"; py "Опис";
   py "Опис_укр"; py "Ціна"; py "Валюта"; py "Кількість";
   py "Посилання_зображення"; py "Ключові_фрази"]
  ++ slot_columns 20.

Definition build_image_list (row : Series) : list str :=
  Common.build_image_list SRC_photos row.

(** [pick_price] is the text of revision 1.1. *)
Definition pick_price (row : Series) : option pyfloat :=
  V1_1.pick_price_from SRC_price row.

Definition merge_ru_ua (df_ru df_ua : DataFrame) : result DataFrame :=
  let df_ru := normalize_df df_ru in
  let df_ua := normalize_df df_ua in
  let col_id_ru := or_str (find_first_col df_ru SRC_id) (py "код") in
  let col_id_ua := or_str (find_first_col df_ua SRC_id) (py "код") in
  let col_name_ru := or_str (find_first_col df_ru SRC_name) (py "название") in
  let col_name_ua := or_str (find_first_col df_ua SRC_name) (py "назва") in
  ids_ru ← getcol df_ru col_id_ru;
  let df_ru := setcol df_ru (py "_id") (str_strip ids_ru) in
  ids_ua ← getcol df_ua col_id_ua;
  let df_ua := setcol df_ua (py "_id") (str_strip ids_ua) in
  ua ← select df_ua [py "_id"; col_name_ua];
  let ua := rename [(col_name_ua, py "Назва_позиції_укр")] ua in
  let merged := merge_left df_ru ua (py "_id") in
  names ← getcol merged col_name_ru;
  let merged := setcol merged (py "Назва_позиції") (astype_str names) in
  ids ← getcol merged (py "_id");
  let merged := setcol merged (py "Код_товару") ids in
  let n := length (rows merged) in
  let col_desc_ru := or_str (find_first_col df_ru SRC_description) [] in
  let col_desc_ua := or_str (find_first_col df_ua SRC_description) [] in
  merged ←
    match col_desc_ru with
    | [] => Ok (setcol merged (py "Опис") (replicate n (CStr [])))
    | _ => descrs ← getcol df_ru col_desc_ru;
           Ok (setcol merged (py "Опис") (align n (astype_str descrs)))
    end;
  match col_desc_ua with
  | [] => Ok (setcol merged (py "Опис_укр") (replicate n (CStr [])))
  | _ => descrs ← getcol df_ua col_desc_ua;
         Ok (setcol merged (py "Опис_укр") (align n (astype_str descrs)))
  end.

(** The body of the loop of [to_prom_excel]; [key_requests] is empty when
    the argument is left out. *)
Definition excel_item (key_requests : list str) (col_qty : str) (r : Series) : Series :=
  let item := assign (blank_item PROM_XLS_COLS)
    [(py "Код_товару", get r (py "Код_товару") (CStr []));
     (py "Назва_позиції", get r (py "Назва_позиції") (CStr []));
     (py "Назва_позиції_укр", get r (py "Назва_позиції_укр") (CStr []));
     (py "Опис", get r (py "Опис") (CStr []));
     (py "Опис_укр", get r (py "Опис_укр") (CStr []));
     (py "Ціна", price_or_blank (pick_price r));
     (py "Валюта", CStr CURRENCY);
     (py "Кількість", get r col_qty (CStr []));
     (py "Посилання_зображення", CStr (Py.join (py ", ") (build_image_list r)))] in
  let item :=
    match key_requests with
    | [] => item
    | _ => setitem (py "Ключові_фрази") (CStr (Py.join (py ", ") key_requests)) item
    end in
  fill_slots 1 (triplets SRC_params_primary r) item.

Definition excel_items (key_requests : list str) (df : DataFrame) : list Series :=
  let col_qty := or_str (find_first_col df SRC_qty) (py "quantity") in
  map (excel_item key_requests col_qty) (rows df).

Definition to_prom_excel (df : DataFrame) (key_requests : list str) : DataFrame :=
  from_records (excel_items key_requests df).

Definition xml_safe (val : cell) : str := V1_1.xml_safe val.

(** The body of the loop of [to_prom_yml]; [None] is [continue]. *)
Definition offer (key_requests : list str) (col_qty : str) (r : Series)
  : option ET.Element :=
  match Py.strip (py_str (get r (py "Код_товару") (CStr []))) with
  | [] => None
  | base_id =>
    let name := get r (py "Назва_позиції") (CStr []) in
    let name_ua := get r (py "Назва_позиції_укр") (CStr []) in
    let price := pick_price r in
    let qty := get r col_qty CNone in
    let images := build_image_list r in
    Some (ET.Elem (py "offer") [(py "id", base_id); (py "available", py "true")] []
      ((if truthy name then [ET.leaf (py "name") (xml_safe name)] else [])
       ++ (if truthy name_ua then [ET.leaf (py "name_ua") (xml_safe name_ua)] else [])
       ++ match price with
          | Some p => [ET.leaf (py "price") (str_of_float p)]
          | None => []
          end
       ++ [ET.leaf (py "currencyId") CURRENCY]
       ++ (if notna qty then [ET.leaf (py "quantity_in_stock") (py_str qty)] else [])
       ++ match key_requests with
          | [] => []
          | _ => [ET.leaf (py "key_requests") (Py.join (py ", ") key_requests)]
          end
       ++ map (fun url => ET.leaf (py "picture") (xml_safe (CStr url))) images
       ++ V1_1.param_nodes SRC_params_primary r))
  end.

Definition offers (df : DataFrame) (key_requests : list str) : list ET.Element :=
  let col_qty := or_str (find_first_col df SRC_qty) (py "quantity") in
  omap (offer key_requests col_qty) (rows df).

Definition to_prom_yml (df : DataFrame) (key_requests : list str) : str :=
  xml_declaration ++ ET.tostring (catalog (offers df key_requests)).

(** The generation step of the upload handler, for each format; the
    session's key phrases go into a column of the merged frame and the
    exporters are called without them. *)
Definition with_key_requests (key_requests : list str) (merged : DataFrame) : DataFrame :=
  let n := length (rows merged) in
  match key_requests with
  | [] => setcol merged (py "Ключевые_фрази") (replicate n (CStr []))
  | _ => setcol merged (py "Ключевые_фрази")
           (replicate n (CStr (Py.join (py ", ") key_requests)))
  end.

Definition generate_xlsx (key_requests : list str) (df_ru df_ua : DataFrame)
  : result DataFrame :=
  merged ← merge_ru_ua df_ru df_ua;
  let merged := with_key_requests key_requests merged in
  let out_df := to_prom_excel merged [] in
  if has_column out_df (py "Ключевые_фрази") then mret out_df
  else
    phrases ← getcol merged (py "Ключевые_фрази");
    mret (setcol out_df (py "Ключевые_фрази") (align (length (rows out_df)) phrases)).

Definition generate_yml (key_requests : list str) (df_ru df_ua : DataFrame)
  : result str :=
  merged ← merge_ru_ua df_ru df_ua;
  let merged := with_key_requests key_requests merged in
  mret (to_prom_yml merged []).

End V1_2.
End V1_2.

(** ** Frames as shared objects

    Frames are mutable objects passed by reference. The merge of revision
    1.1 is given a second time over a store of frames, with each mutation
    written out, to settle what a run leaves behind in the frames it was
    given. *)

Module Heap.
Import Pd Common.
Section Heap.
Context `{PyBuiltins}.

Definition addr := nat.
Definition store := list DataFrame.

(** A computation over the store; an exception keeps the store as it is
    at the point of the raise. *)
Definition M (A : Type) : Type := store -> result A * store.

Definition ret {A} (a : A) : M A := fun σ => (Ok a, σ).

Definition bindM {A B} (m : M A) (k : A -> M B) : M B := fun σ =>
  match m σ with
  | (Ok a, σ') => k a σ'
  | (Raise e, σ') => (Raise e, σ')
  end.

Definition lift {A} (r : result A) : M A := fun σ => (r, σ).

Definition empty_frame : DataFrame := mkDF [] [].

(** Dereference; every address handed out by [new] is bound. *)
Definition read (a : addr) : M DataFrame := fun σ => (Ok (nth a σ empty_frame), σ).

Definition write (a : addr) (df : DataFrame) : M unit := fun σ => (Ok tt, <[a := df]> σ).

Definition new (df : DataFrame) : M addr := fun σ => (Ok (length σ), σ ++ [df]).

End Heap.

Notation "'let*' x ':=' m 'in' k" := (bindM m (fun x => k))
  (at level 10, x name, m at level 100, k at level 200).
Notation "m ';;' k" := (bindM m (fun _ => k))
  (at level 100, k at level 200, right associativity).

Section HeapCode.
Context `{PyBuiltins}.

(** [df.copy()]. *)
Definition copy (a : addr) : M addr :=
  let* df := read a in new df.

Definition normalize_df (a : addr) : M addr :=
  let* df := copy a in
  let* f := read df in
  write df (relabel (fun c => str_lower (Py.strip c)) f);;
  ret df.

(** [df[c]] and [df[c] = vals] through a reference. *)
Definition getcol (a : addr) (c : str) : M (list cell) :=
  let* f := read a in lift (Pd.getcol f c).

Definition setcol (a : addr) (c : str) (vals : list cell) : M unit :=
  let* f := read a in write a (Pd.setcol f c vals).

Definition find_first_col (a : addr) (candidates : list str) : M (option str) :=
  let* f := read a in ret (Common.find_first_col f candidates).

Definition merge_ru_ua (df_ru df_ua : addr) : M addr :=
  let* df_ru := normalize_df df_ru in
  let* df_ua := normalize_df df_ua in
  let* c := find_first_col df_ru SRC_id in
  let col_id_ru := or_str c (py "код") in
  let* c := find_first_col df_ua SRC_id in
  let col_id_ua := or_str c (py "код") in
  let* c := find_first_col df_ru SRC_name in
  let col_name_ru := or_str c (py "название") in
  let* c := find_first_col df_ua SRC_name in
  let col_name_ua := or_str c (py "назва") in
  let* ids_ru := getcol df_ru col_id_ru in
  setcol df_ru (py "_id") (str_strip ids_ru);;
  let* ids_ua := getcol df_ua col_id_ua in
  setcol df_ua (py "_id") (str_strip ids_ua);;
  let* f := read df_ua in
  let* sub := lift (select f [py "_id"; col_name_ua]) in
  let* ua := new (rename [(col_name_ua, py "Назва_позиції_укр")] sub) in
  let* l := read df_ru in
  let* r := read ua in
  let* merged := new (merge_left l r (py "_id")) in
  let* names := getcol merged col_name_ru in
  setcol merged (py "Назва_позиції") (astype_str names);;
  let* ids := getcol merged (py "_id") in
  setcol merged (py "Код_товару") ids;;
  ret merged.

(** The generation step of the upload handler, on the frames of the
    session. *)
Definition generate (desired_format : str) (df_ru df_ua : addr) : M artifact :=
  let* merged := merge_ru_ua df_ru df_ua in
  let* f := read merged in
  if bool_decide (desired_format = py "xlsx")
  then ret (Sheet (V1_1.to_prom_excel f))
  else ret (Document (V1_1.to_prom_yml f)).

End HeapCode.
End Heap.

(** ** A reference implementation of the interface, for worked examples

    Floats are identified with their [repr]. The parser covers plain decimal
    literals (an optional sign, digits, an optional fraction); on such a
    literal with at most 15 significant digits and a value that is zero or
    between 1e-4 and 1e16 in magnitude it agrees with CPython. Case folding
    covers the basic Latin and Cyrillic capitals. *)

Module Ref.

Definition is_digit (c : char) : bool := (48 <=? c) && (c <=? 57).

Fixpoint span_digits (s : str) : str * str :=
  match s with
  | [] => ([], [])
  | c :: s' =>
    if is_digit c then (c :: (span_digits s').1, (span_digits s').2) else ([], s)
  end.

Fixpoint drop_zeros (ds : str) : str :=
  match ds with
  | c :: ds' => if c =? 48 then drop_zeros ds' else ds
  | [] => []
  end.

Definition canon_int (ds : str) : str :=
  match drop_zeros ds with
  | [] => py "0"
  | d => d
  end.

Definition canon_frac (ds : str) : str :=
  match rev (drop_zeros (rev ds)) with
  | [] => py "0"
  | d => d
  end.

Definition parse_unsigned (s : str) : option str :=
  let ip := (span_digits s).1 in
  match (span_digits s).2 with
  | [] => match ip with
          | [] => None
          | _ => Some (canon_int ip ++ py ".0")
          end
  | c :: r =>
    if c =? 46 then
      let fp := (span_digits r).1 in
      match (span_digits r).2, ip ++ fp with
      | [], _ :: _ => Some (canon_int ip ++ py "." ++ canon_frac fp)
      | _, _ => None
      end
    else None
  end.

Definition parse_float (s : str) : option str :=
  match Py.strip s with
  | c :: s' =>
    if c =? 45 then option_map (cons 45) (parse_unsigned s')
    else if c =? 43 then parse_unsigned s'
    else parse_unsigned (c :: s')
  | [] => None
  end.

Definition float_nonzero (x : str) : bool :=
  negb (bool_decide (x = py "0.0")) && negb (bool_decide (x = py "-0.0")).

Definition lower_char (c : char) : char :=
  if (65 <=? c) && (c <=? 90) then c + 32
  else if (1040 <=? c) && (c <=? 1071) then c + 32
  else if (1024 <=? c) && (c <=? 1039) then c + 80
  else c.

Definition builtins : PyBuiltins :=
  {| pyfloat := str;
     float_of_str := parse_float;
     str_of_float := fun x => x;
     bool_of_float := float_nonzero;
     str_lower := map lower_char |}.

End Ref.

(** ** The statements checked below, in the words of the specification *)

Module Spec.
Import Pd.
Section Spec.
Context `{PyBuiltins}.

(** A photo list for [row]: at most ten entries, no URL twice, every entry a
    non-empty trimmed comma-separated piece of a photo cell that holds a
    value, and entries in the order in which they are first met when the
    photo columns are read in alias order. *)
Definition image_list_spec (photos : list str) (row : Series) (out : list str) : Prop :=
  (length out <= 10)%nat
  ∧ NoDup out
  ∧ (∀ url, url ∈ out →
       ∃ col v piece,
         col ∈ photos ∧ lookup col row = Some v ∧ notna v = true
         ∧ piece ∈ Py.split (ch ",") (py_str v)
         ∧ url = Py.strip piece ∧ url ≠ [])
  ∧ (∀ i j x y,
       out !! i = Some x → out !! j = Some y → (i < j)%nat →
       ∃ n, Common.urls photos row !! n = Some x
            ∧ y ∉ take (S n) (Common.urls photos row)).

(** The cell that governs the price of a row: that of the first price
    alias, in list order, that is present and holds a value. *)
Definition governing_value (cols : list str) (row : Series) : option cell :=
  head (omap (notna_at row) cols).

(** "The first column that has a value governs": the price is the parse of
    the governing cell, absent when that cell does not parse or when there
    is no such cell; no later alias is read. *)
Definition first_value_governs (pick : Series -> option pyfloat) : Prop :=
  ∀ row,
    pick row = match governing_value Common.SRC_price row with
               | Some v => float_of_str (Common.price_text v)
               | None => None
               end.

(** "The first column that parses governs": the price is the first
    successful parse among the aliases that hold a value, in list order. *)
Definition parsed_at (row : Series) (c : str) : option pyfloat :=
  match notna_at row c with
  | Some v => float_of_str (Common.price_text v)
  | None => None
  end.

Definition first_parse_governs (pick : Series -> option pyfloat) : Prop :=
  ∀ row, pick row = head (omap (parsed_at row) Common.SRC_price).

(** A price is never made up: whenever one is returned it is the parse of a
    price cell of the row. *)
Definition price_is_parsed (pick : Series -> option pyfloat) : Prop :=
  ∀ row p,
    pick row = Some p →
    ∃ c v, c ∈ Common.SRC_price ∧ lookup c row = Some v ∧ notna v = true
           ∧ float_of_str (Common.price_text v) = Some p.

(** A table whose headers stay pairwise distinct once normalised; pandas
    treats a repeated label differently from a single one, and the frame
    operations above are those of distinct labels. *)
Definition unique_headers (df : DataFrame) : Prop :=
  NoDup (columns (Common.normalize_df df)).

(** A text holds one of the three markup characters. *)
Definition has_markup (s : str) : Prop :=
  ch "&" ∈ s ∨ ch "<" ∈ s ∨ ch ">" ∈ s.

(** The identifier of a row, read from column [col_id] and trimmed, is
    empty. *)
Definition blank_identifier (col_id : str) (r : Series) : bool :=
  bool_decide (Py.strip (py_str (get r col_id (CStr []))) = []).

(** No alias of the identifier column resolves in the table. *)
Definition id_unresolved (df : DataFrame) : Prop :=
  Common.find_first_col (Common.normalize_df df) Common.SRC_id = None.

(** The operation raised instead of returning. *)
Definition aborts {A} (r : result A) : Prop := ∃ e, r = Raise e.

End Spec.
End Spec.

(** ** Worked inputs *)

Module Examples.
Import Pd.
#[local] Existing Instance Ref.builtins.

Definition text (s : string) : cell := CStr (py s).
Arguments text s%_string.

(** Two tables without any identifier column. *)
Definition no_id_ru : DataFrame :=
  frame [py "Название"; py "Цена"] [[text "Плед"; text "100"]].
Definition no_id_ua : DataFrame :=
  frame [py "Назва"] [[text "Плед"]].

(** Two tables with identifiers, the base one without a name column. *)
Definition no_name_ru : DataFrame :=
  frame [py "Код"; py "Цена"] [[text "42"; text "100"]].
Definition no_name_ua : DataFrame :=
  frame [py "Код"; py "Назва"] [[text "42"; text "Плед"]].

(** One product named [A & B <C>], in both languages. *)
Definition markup_ru : DataFrame :=
  frame [py "Код"; py "Название"; py "Описание"]
        [[text "1"; text "A & B <C>"; text "плед"]].
Definition markup_ua : DataFrame :=
  frame [py "Код"; py "Назва"; py "Опис"]
        [[text "1"; text "A & B <C>"; text "плед"]].

(** A product with identifier 42 and a row whose identifier cell holds only
    a space. *)
Definition blank_id_ru : DataFrame :=
  frame [py "Код"; py "Название"; py "Описание"]
        [[text "42"; text "Плед"; text "теплий"];
         [text " "; text "Рушник"; text "м'який"]].
Definition blank_id_ua : DataFrame :=
  frame [py "Код"; py "Назва"; py "Опис"]
        [[text "42"; text "Плед"; text "теплий"]].

(** A product that fills every one of the attribute columns. *)
Definition full_attrs_ru : DataFrame :=
  frame ([py "Код"; py "Название"; py "Описание"] ++ Common.param_keys)
        [[text "42"; text "Плед"; text "теплий"] ++ map (fun _ => text "x") Common.param_keys].
Definition full_attrs_ua : DataFrame :=
  frame [py "Код"; py "Назва"; py "Опис"]
        [[text "42"; text "Плед"; text "теплий"]].

(** A base product 42 with no translation, and a translation 7 with no
    base product. *)
Definition unmatched_ru : DataFrame :=
  frame [py "Код"; py "Название"; py "Описание"]
        [[text "42"; text "Плед"; text "теплий"]].
Definition unmatched_ua : DataFrame :=
  frame [py "Код"; py "Назва"; py "Опис"]
        [[text "7"; text "Рушник"; text "м'який"]].

(** A product whose identifier has thirty characters. *)
Definition long_id : str := py "123456789012345678901234567890".
Definition long_id_ru : DataFrame :=
  frame [py "Код"; py "Название"; py "Описание"]
        [[CStr long_id; text "Плед"; text "теплий"]].
Definition long_id_ua : DataFrame :=
  frame [py "Код"; py "Назва"; py "Опис"]
        [[CStr long_id; text "Плед"; text "теплий"]].

(** A product offered at the price 0. *)
Definition free_ru : DataFrame :=
  frame [py "Код"; py "Название"; py "Описание"; py "Цена"]
        [[text "42"; text "Плед"; text "теплий"; CInt 0]].
Definition free_ua : DataFrame :=
  frame [py "Код"; py "Назва"; py "Опис"]
        [[text "42"; text "Плед"; text "теплий"]].

(** A row whose preferred price column does not parse while a later one
    does. *)
Definition two_prices : Series :=
  [(py "special price", text "abc"); (py "price", text "5")].

(** A session holding the two uploads of the unmatched pair. *)
Definition session_files : Heap.store := [unmatched_ru; unmatched_ua].

(** The cell of a column in a row of a sheet. *)
Definition sheet_cell (r : result DataFrame) (i : nat) (c : str) : option cell :=
  match r with
  | Ok df => match rows df !! i with
             | Some row => lookup c row
             | None => None
             end
  | Raise _ => None
  end.

Definition sheet_rows (r : result DataFrame) : option nat :=
  match r with
  | Ok df => Some (length (rows df))
  | Raise _ => None
  end.

Definition sheet_columns (r : result DataFrame) : option (list str) :=
  match r with
  | Ok df => Some (columns df)
  | Raise _ => None
  end.

(** [sub in text] for the text of a generated document. *)
Definition document_has (sub : str) (r : result str) : bool :=
  match r with
  | Ok text => Py.contains sub text
  | Raise _ => false
  end.

End Examples.

(** ** The bot of revision 1.1 ([bot_1_1.py], class [PromBot])

    The handlers are functions on the bot's memory: the sessions, keyed by
    user, and the content of the log file. A handler runs from its first to
    its last statement without another one in between; sending a reply and
    writing the result file succeed; what [print] writes to the console is
    left out. The text of [s.upper()], of [str(e)] for an exception of the
    pipeline and of [str(set(names))] (whose order changes from run to run)
    is taken as an interface. *)

Class BotBuiltins := {
  (** [s.upper()]. *)
  str_upper : str -> str;
  (** [str(e)]. *)
  str_of_exn : exn -> str;
  (** [str(set(names))], for the running process. *)
  str_of_set : list str -> str
}.

Module Bot.
Import Pd Common.
Section Bot.
Context `{PyBuiltins} `{BotBuiltins}.

(** [class Session]. *)
Record Session := mkSession {
  desired_format : option str;
  files : list DataFrame
}.

(** [self.sessions], a dict in insertion order, and the log file ([None]
    while the file does not exist). *)
Record state := mkState {
  sessions : list (Z * Session);
  log_file : option str
}.

(** [uid in self.sessions] and [self.sessions[uid]]. *)
Fixpoint session_get (uid : Z) (ss : list (Z * Session)) : option Session :=
  match ss with
  | [] => None
  | (u, s) :: ss' => if bool_decide (u = uid) then Some s else session_get uid ss'
  end.

(** [self.sessions[uid] = s]; a session object changed in place is stored
    back under its key. *)
Fixpoint session_set (uid : Z) (s : Session) (ss : list (Z * Session))
  : list (Z * Session) :=
  match ss with
  | [] => [(uid, s)]
  | (u, s') :: ss' =>
    if bool_decide (u = uid) then (uid, s) :: ss' else (u, s') :: session_set uid s ss'
  end.

Definition update_session (uid : Z) (s : Session) (st : state) : state :=
  mkState (session_set uid s (sessions st)) (log_file st).

(** An exception that leaves a handler: one of the pipeline, the
    [IndexError] of a list index and the [ValueError] of an unpacking. *)
Inductive error :=
  | Pipeline (e : exn)
  | IndexError
  | ValueError.

(** What a handler sends: [message.answer], with a keyboard or without,
    [message.answer_document] with the path, the content and the caption of
    the file, and [cb.answer()]. *)
Inductive reply :=
  | Answer (text : str)
  | AnswerKeyboard (text : str) (buttons : list (str * str))
  | AnswerDocument (path : str) (content : artifact) (caption : str)
  | CallbackAnswer.

(** A handler's run: the memory it leaves, its replies in order, and the
    exception that left it, if any. *)
Record outcome := mkOutcome {
  after : state;
  replies : list reply;
  escaped : option error
}.

(** [log_error]. *)
Definition log_error (msg : str) (st : state) : state :=
  mkState (sessions st)
          (Some (match log_file st with Some old => old | None => [] end ++ msg ++ [10])).

(** The buttons of [_fmt_kb], as text and callback data. *)
Definition _fmt_kb : list (str * str) :=
  [(py "📄 XLSX", py "fmt:xlsx"); (py "🧾 YML", py "fmt:yml")].

Definition _ensure_session (uid : Z) (st : state) : Session * state :=
  match session_get uid (sessions st) with
  | Some sess => (sess, st)
  | None => (mkSession None [], update_session uid (mkSession None []) st)
  end.

Definition start (uid : Z) (st : state) : outcome :=
  let (sess, st) := _ensure_session uid st in
  let st := update_session uid (mkSession (desired_format sess) []) st in
  mkOutcome st
    [AnswerKeyboard (py "🚀 Привет! Отправь два Excel-файла (RU и UA)." ++ [10]
                     ++ py "Выбери формат результата:") _fmt_kb]
    None.

Definition clear_files (uid : Z) (st : state) : outcome :=
  let (sess, st) := _ensure_session uid st in
  let st := update_session uid (mkSession (desired_format sess) []) st in
  mkOutcome st [Answer (py "🗑️ Старые файлы очищены.")] None.

(** [not find_first_col(df, candidates)]. *)
Definition unresolved (df : DataFrame) (candidates : list str) : bool :=
  match find_first_col df candidates with
  | Some (_ :: _) => false
  | _ => true
  end.

(** The entries of [SRC] that [validate] asks for. *)
Definition required_cols : list (str * list str) :=
  [(py "id", SRC_id); (py "name", SRC_name); (py "price", SRC_price)].

Definition missing_cols (fs : list DataFrame) : list str :=
  flat_map (fun df =>
    flat_map (fun col => if unresolved df col.2 then [col.1] else []) required_cols) fs.

Definition validate (uid : Z) (st : state) : outcome :=
  let (sess, st) := _ensure_session uid st in
  match missing_cols (files sess) with
  | [] => mkOutcome st [Answer (py "✅ Все необходимые колонки присутствуют.")] None
  | missing =>
    mkOutcome st [Answer (py "⚠️ Отсутствуют колонки: " ++ str_of_set missing)] None
  end.

(** [pd.concat(frames)]: the columns in order of first appearance, the rows
    of every frame in turn, a cell that a frame does not have reading
    [NaN]. *)
Definition pd_concat (frames : list DataFrame) : DataFrame :=
  let cols := Py.dict_fromkeys (flat_map columns frames) in
  mkDF cols (flat_map (fun df => map (fun r => map (fun c => (c, get r c CNaN)) cols)
                                     (rows df)) frames).

Definition onlyphoto (uid : Z) (st : state) : outcome :=
  let (sess, st) := _ensure_session uid st in
  match files sess with
  | [] => mkOutcome st [Answer (py "⚠️ Файлы ещё не загружены.")] None
  | fs =>
    match select (pd_concat fs) (py "Код_товару" :: take 10 V1_1.SRC_photos) with
    | Ok out_df =>
      mkOutcome st
        [AnswerDocument (py "photos_" ++ Py.str_of_Z uid ++ py ".xlsx") (Sheet out_df)
                        (py "📸 Только фото")]
        None
    | Raise e => mkOutcome st [] (Some (Pipeline e))
    end
  end.

(** [sum(len(df) for df in sess.files) if sess.files else 0]. *)
Definition total_rows (fs : list DataFrame) : nat :=
  match fs with
  | [] => 0%nat
  | _ => fold_left (fun n df => (n + length (rows df))%nat) fs 0%nat
  end.

Definition infoaboutparsing (uid : Z) (st : state) : outcome :=
  let (sess, st) := _ensure_session uid st in
  mkOutcome st
    [Answer (py "📊 Всего позиций в текущих файлах: "
             ++ Py.str_of_nat (total_rows (files sess)))]
    None.

(** [content[-2000:]]. *)
Definition last_chars (n : nat) (content : str) : str :=
  drop (length content - n) content.

Definition showlog (st : state) : outcome :=
  match log_file st with
  | None => mkOutcome st [Answer (py "ℹ️ Лог-файл пуст.")] None
  | Some content =>
    mkOutcome st [Answer (py "📝 Лог:" ++ [10] ++ last_chars 2000 content)] None
  end.

(** [s.split(sep, 1)] for a one-character separator. *)
Fixpoint split_once (sep : char) (s : str) : list str :=
  match s with
  | [] => [[]]
  | c :: s' =>
    if c =? sep then [[]; s']
    else match split_once sep s' with
         | p :: ps => (c :: p) :: ps
         | [] => [[c]]
         end
  end.

Definition pick_format (uid : Z) (data : str) (st : state) : outcome :=
  match split_once (ch ":") data !! 1%nat with
  | None => mkOutcome st [] (Some IndexError)
  | Some fmt =>
    let (sess, st) := _ensure_session uid st in
    let st := update_session uid (mkSession (Some fmt) []) st in
    mkOutcome st
      [Answer (py "✅ Формат выбран: " ++ str_upper fmt
               ++ py ". Загрузи два Excel-файла (RU и UA).");
       CallbackAnswer]
      None
  end.

(** What [read_excel] makes of the document of a message: a frame, or an
    exception of text [e]; fetching the file succeeds. *)
Inductive upload :=
  | Readable (df : DataFrame)
  | Unreadable (e : str).

(** [not sess.desired_format]. *)
Definition no_format (sess : Session) : bool :=
  match desired_format sess with
  | Some (_ :: _) => false
  | _ => true
  end.

Definition receive_file (uid : Z) (doc : upload) (st : state) : outcome :=
  let (sess, st) := _ensure_session uid st in
  if no_format sess
  then mkOutcome st [Answer (py "⚠️ Сначала выбери формат (XLSX или YML).")] None
  else
    match doc with
    | Unreadable e =>
      mkOutcome
        (log_error (py "Ошибка чтения Excel для " ++ Py.str_of_Z uid ++ py ": " ++ e) st)
        [Answer (py "❌ Ошибка чтения Excel: " ++ e)]
        None
    | Readable df =>
      let fs := files sess ++ [normalize_df df] in
      let st := update_session uid (mkSession (desired_format sess) fs) st in
      let received :=
        Answer (py "📎 Файл получен. Всего файлов: " ++ Py.str_of_nat (length fs)) in
      match fs with
      | df_ru :: df_ua :: _ =>
        match V1_1.merge_ru_ua df_ru df_ua with
        | Ok merged =>
          let document :=
            if bool_decide (desired_format sess = Some (py "xlsx"))
            then AnswerDocument (py "prom_" ++ Py.str_of_Z uid ++ py ".xlsx")
                                (Sheet (V1_1.to_prom_excel merged)) (py "📄 XLSX готово")
            else AnswerDocument (py "prom_" ++ Py.str_of_Z uid ++ py ".yml")
                                (Document (V1_1.to_prom_yml merged)) (py "🧾 YML готово") in
          mkOutcome (update_session uid (mkSession (desired_format sess) []) st)
                    [received; document] None
        | Raise e =>
          mkOutcome
            (log_error (py "Ошибка генерации файла для " ++ Py.str_of_Z uid ++ py ": "
                        ++ str_of_exn e) st)
            [received; Answer (py "❌ Ошибка генерации файла: " ++ str_of_exn e)]
            None
        end
      | _ => mkOutcome st [received; Answer (py "⏳ Жду второй файл...")] None
      end
    end.

(** An update, named by the handler that the dispatcher runs for it; a
    callback reaches [pick_format] when its data starts with [fmt:]. *)
Inductive update :=
  | Start (uid : Z)
  | Clear (uid : Z)
  | Validate (uid : Z)
  | OnlyPhoto (uid : Z)
  | InfoAboutParsing (uid : Z)
  | ShowLog (uid : Z)
  | Callback (uid : Z) (data : str)
  | Upload (uid : Z) (doc : upload).

Definition sender (u : update) : Z :=
  match u with
  | Start uid | Clear uid | Validate uid | OnlyPhoto uid | InfoAboutParsing uid
  | ShowLog uid | Callback uid _ | Upload uid _ => uid
  end.

Definition handle (u : update) (st : state) : outcome :=
  match u with
  | Start uid => start uid st
  | Clear uid => clear_files uid st
  | Validate uid => validate uid st
  | OnlyPhoto uid => onlyphoto uid st
  | InfoAboutParsing uid => infoaboutparsing uid st
  | ShowLog _ => showlog st
  | Callback uid data =>
    if Py.startswith data (py "fmt:") then pick_format uid data st
    else mkOutcome st [] None
  | Upload uid doc => receive_file uid doc st
  end.

(** The memory after a sequence of updates, and all the replies. *)
Fixpoint run (us : list update) (st : state) : state * list reply :=
  match us with
  | [] => (st, [])
  | u :: us' =>
    let o := handle u st in
    let (st', rs) := run us' (after o) in
    (st', replies o ++ rs)
  end.

(** The memory of a bot that has just been created; the log file may be
    there from an earlier run. *)
Definition created (log : option str) : state := mkState [] log.

End Bot.
End Bot.

(** ** The bot of revision 1.0 ([bot_1_0.py], class [PromBot])

    The session store, [_ensure_session], [start] and [pick_format] read as
    in revision 1.1; the upload handler has its own text: it catches the
    exception of [read_excel] only and unpacks the files of the session
    into exactly two. *)

Module Bot10.
Import Pd Common Bot.
Section Bot10.
Context `{PyBuiltins} `{BotBuiltins}.

Definition receive_file (uid : Z) (doc : upload) (st : state) : outcome :=
  let (sess, st) := _ensure_session uid st in
  if no_format sess
  then mkOutcome st [Answer (py "⚠️ Сначала выбери формат (XLSX или YML).")] None
  else
    match doc with
    | Unreadable e => mkOutcome st [Answer (py "❌ Ошибка чтения Excel: " ++ e)] None
    | Readable df =>
      let fs := files sess ++ [normalize_df df] in
      let st := update_session uid (mkSession (desired_format sess) fs) st in
      match fs with
      | [df_ru; df_ua] =>
        match V1_0.merge_ru_ua df_ru df_ua with
        | Ok merged =>
          let document :=
            if bool_decide (desired_format sess = Some (py "xlsx"))
            then AnswerDocument (py "prom_" ++ Py.str_of_Z uid ++ py ".xlsx")
                                (Sheet (V1_0.to_prom_excel merged))
                                (py "📄 Готово: XLSX для Prom.ua")
            else AnswerDocument (py "prom_" ++ Py.str_of_Z uid ++ py ".yml")
                                (Document (V1_0.to_prom_yml merged))
                                (py "🧾 Готово: YML для Prom.ua") in
          mkOutcome (update_session uid (mkSession (desired_format sess) []) st)
                    [document] None
        | Raise e => mkOutcome st [] (Some (Pipeline e))
        end
      | _ :: _ :: _ :: _ => mkOutcome st [] (Some ValueError)
      | _ => mkOutcome st [Answer (py "📎 Файл получен. Жду второй Excel...")] None
      end
    end.

(** An update, named by the handler that the dispatcher runs for it. *)
Inductive update :=
  | Start (uid : Z)
  | Callback (uid : Z) (data : str)
  | Upload (uid : Z) (doc : upload).

Definition handle (u : update) (st : state) : outcome :=
  match u with
  | Start uid => start uid st
  | Callback uid data =>
    if Py.startswith data (py "fmt:") then pick_format uid data st
    else mkOutcome st [] None
  | Upload uid doc => receive_file uid doc st
  end.

Fixpoint run (us : list update) (st : state) : state * list reply :=
  match us with
  | [] => (st, [])
  | u :: us' =>
    let o := handle u st in
    let (st', rs) := run us' (after o) in
    (st', replies o ++ rs)
  end.

End Bot10.
End Bot10.

(** ** Notions for the bot *)

Module BotSpec.
Import Pd Common Bot.
Section BotSpec.
Context `{PyBuiltins} `{BotBuiltins}.


(** The files that a user's session holds, none when there is no session. *)
Definition files_of (uid : Z) (st : state) : list DataFrame :=
  match session_get uid (sessions st) with
  | Some sess => files sess
  | None => []
  end.

(** The format that a user has chosen, if any. *)
Definition format_of (uid : Z) (st : state) : option str :=
  match session_get uid (sessions st) with
  | Some sess => desired_format sess
  | None => None
  end.

(** Some reply hands a file to the user. *)
Definition is_document (r : reply) : bool :=
  match r with
  | AnswerDocument _ _ _ => true
  | _ => false
  end.

Definition delivers (rs : list reply) : bool := existsb is_document rs.




(** Every required kind of column resolves in the frame. *)
Definition has_required (df : DataFrame) : Prop :=
  ∀ col, col ∈ required_cols → find_first_col df col.2 ≠ None.

(** The same for the bot of revision 1.0: a session holds exactly two files
    only when they do not merge, and holds files only once a format is
    chosen. *)
Definition reachable_10 (st : state) : Prop :=
  ∃ us log, st = (Bot10.run us (created log)).1.

Definition well_kept_10 (sess : Session) : Prop :=
  (∀ df_ru df_ua, files sess = [df_ru; df_ua] →
                  ∃ e, V1_0.merge_ru_ua df_ru df_ua = Raise e)
  ∧ (files sess ≠ [] → no_format sess = false).

Definition invariant_10 (st : state) : Prop :=
  ∀ uid sess, session_get uid (sessions st) = Some sess → well_kept_10 sess.

End BotSpec.
End BotSpec.

(** ** A reference implementation of the bot's interface

    Upper case for the basic Latin and Cyrillic letters; [str(e)] of a
    [KeyError] is the [repr] of its key, for a key without quotes and
    backslashes; a set is printed in order of first appearance, one of the
    orders in which Python may print it. *)

Module BotRef.

Definition upper_char (c : char) : char :=
  if (97 <=? c) && (c <=? 122) then c - 32
  else if (1072 <=? c) && (c <=? 1103) then c - 32
  else if (1104 <=? c) && (c <=? 1119) then c - 80
  else c.

Definition exn_text (e : exn) : str :=
  match e with
  | KeyError key => py "'" ++ key ++ py "'"
  end.

Definition set_text (names : list str) : str :=
  py "{"
  ++ Py.join (py ", ") (map (fun n => py "'" ++ n ++ py "'") (Py.dict_fromkeys names))
  ++ py "}".

Definition builtins : BotBuiltins :=
  {| str_upper := map upper_char;
     str_of_exn := exn_text;
     str_of_set := set_text |}.

End BotRef.

(** ** More worked inputs, and worked conversations *)

Module MoreExamples.
Import Pd Examples.
#[local] Existing Instance Ref.builtins.

(** Two photo cells that share a URL. *)
Definition photo_row : Series :=
  [(py "main photo", text "a.jpg, b.jpg"); (py "photo1", text "b.jpg,c.jpg")].

(** A price written with a decimal comma. *)
Definition comma_price : Series := [(py "price", text "12,5")].

(** A product with a price, in both languages. *)
Definition priced_ru : DataFrame :=
  frame [py "код"; py "название"; py "цена"] [[text "42"; text "Плед"; text "100"]].
Definition priced_ua : DataFrame :=
  frame [py "код"; py "назва"; py "ціна"] [[text "42"; text "Плед"; text "100"]].



(** The merged table of the unmatched pair in revision 1.1. *)
Definition unmatched_merged : DataFrame :=
  match V1_1.merge_ru_ua unmatched_ru unmatched_ua with
  | Ok df => df
  | Raise _ => mkDF [] []
  end.

End MoreExamples.

Module Conversations.
Import Pd Bot Examples.
#[local] Existing Instance Ref.builtins.
#[local] Existing Instance BotRef.builtins.

Definition user : Z := 7%Z.
Definition other_user : Z := 8%Z.

(** The user has chosen XLSX and sent one file. *)
Definition waiting : state :=
  (run [Callback user (py "fmt:xlsx"); Upload user (Readable unmatched_ru)]
       (created None)).1.


(** The same in revision 1.0: one file sent, and two files sent that do not
    merge. *)
Definition waiting_10 : state :=
  (Bot10.run [Bot10.Callback user (py "fmt:xlsx");
              Bot10.Upload user (Readable markup_ru)]
             (created None)).1.

Definition blocked_10 : state :=
  (Bot10.run [Bot10.Callback user (py "fmt:yml");
              Bot10.Upload user (Readable no_name_ru);
              Bot10.Upload user (Readable no_name_ua)]
             (created None)).1.

End Conversations.

(** * Properties *)

Local Close Scope N_scope.

(** ** Python lists and dicts *)

Section PyFacts.

Lemma dict_fromkeys_snoc (keys : list str) (k : str) :
  Py.dict_fromkeys (keys ++ [k]) = Py.dict_add (Py.dict_fromkeys keys) k.
Proof. unfold Py.dict_fromkeys. by rewrite fold_left_app. Qed.

(** What [dict.fromkeys] keeps: every key once, at the place of its first
    insertion. *)
Lemma dict_fromkeys_inv (keys : list str) :
  NoDup (Py.dict_fromkeys keys)
  ∧ (∀ x, x ∈ Py.dict_fromkeys keys ↔ x ∈ keys)
  ∧ (∀ i j x y,
       Py.dict_fromkeys keys !! i = Some x →
       Py.dict_fromkeys keys !! j = Some y →
       (i < j)%nat →
       ∃ n, keys !! n = Some x ∧ y ∉ take (S n) keys).
Proof.
  induction keys as [|k keys IH] using rev_ind.
  - split; [constructor|]. split; [done|]. intros i j x y Hi; by destruct i.
  - destruct IH as (Hnd & Hin & Hord).
    rewrite dict_fromkeys_snoc. unfold Py.dict_add.
    case_bool_decide as Hk.
    + split; [done|]. split.
      * intros x. rewrite elem_of_app, list_elem_of_singleton, Hin.
        split; [tauto|]. intros [?| ->]; [done|]. by apply Hin.
      * intros i j x y Hi Hj Hij.
        destruct (Hord i j x y Hi Hj Hij) as (n & Hn & Hy).
        exists n. pose proof (lookup_lt_Some _ _ _ Hn).
        rewrite lookup_app_l, take_app_le by lia. done.
    + split.
      * apply NoDup_app. split; [done|]. split; [|apply NoDup_singleton].
        intros x Hx Hx'. apply list_elem_of_singleton in Hx' as ->. done.
      * split.
        { intros x. rewrite !elem_of_app, Hin. done. }
        intros i j x y Hi Hj Hij.
        pose proof (lookup_lt_Some _ _ _ Hj) as Hlen.
        rewrite length_app in Hlen. simpl in Hlen.
        rewrite lookup_app_l in Hi by lia.
        destruct (decide (j < length (Py.dict_fromkeys keys))%nat) as [Hlt|Hge].
        -- rewrite lookup_app_l in Hj by done.
           destruct (Hord i j x y Hi Hj Hij) as (n & Hn & Hy).
           exists n. pose proof (lookup_lt_Some _ _ _ Hn).
           rewrite lookup_app_l, take_app_le by lia. done.
        -- rewrite lookup_app_r in Hj by lia.
           apply list_lookup_singleton_Some in Hj as [_ <-].
           apply list_elem_of_lookup_2, Hin, list_elem_of_lookup_1 in Hi as [n Hn].
           exists n. pose proof (lookup_lt_Some _ _ _ Hn).
           rewrite lookup_app_l, take_app_le by lia. split; [done|].
           intros Hk'. apply Hk, Hin. apply elem_of_take in Hk' as (m & Hm & _).
           by eapply list_elem_of_lookup_2.
Qed.

Lemma replace_length_le (old : N) (new s : list N) :
  (1 <= length new)%nat → (length s <= length (Py.replace old new s))%nat.
Proof.
  intros Hn. unfold Py.replace. induction s as [|c s IH]; [done|].
  cbn [flat_map length]. rewrite length_app.
  destruct (N.eqb c old); cbn [length]; lia.
Qed.

Lemma replace_length_lt (old : N) (new s : list N) :
  (2 <= length new)%nat → old ∈ s →
  (length s < length (Py.replace old new s))%nat.
Proof.
  intros Hn Hin. unfold Py.replace. induction s as [|c s IH].
  - by apply elem_of_nil in Hin.
  - cbn [flat_map length]. rewrite length_app.
    pose proof (replace_length_le old new s ltac:(lia)) as Hle.
    unfold Py.replace in Hle.
    destruct (N.eqb_spec c old) as [->|Hne].
    + lia.
    + apply elem_of_cons in Hin as [->|Hin]; [done|].
      specialize (IH Hin). cbn [length]. lia.
Qed.

Lemma elem_of_replace_other (old c : N) (new s : list N) :
  c ≠ old → c ∈ s → c ∈ Py.replace old new s.
Proof.
  intros Hne Hin. unfold Py.replace. apply list_elem_of_In, in_flat_map.
  exists c. split; [by apply list_elem_of_In|].
  destruct (N.eqb_spec c old); [done|]. by left.
Qed.

Lemma elem_of_replace_new (old c : N) (new s : list N) :
  old ∈ s → c ∈ new → c ∈ Py.replace old new s.
Proof.
  intros Hin Hc. unfold Py.replace. apply list_elem_of_In, in_flat_map.
  exists old. split; [by apply list_elem_of_In|].
  rewrite N.eqb_refl. by apply list_elem_of_In.
Qed.

End PyFacts.

(** ** ElementTree *)

Section ETFacts.

Lemma escape_cdata_has_amp (s : list N) :
  Spec.has_markup s → ch "&" ∈ ET.escape_cdata s.
Proof.
  unfold Spec.has_markup, ET.escape_cdata. intros [Ha|[Hl|Hg]].
  - apply elem_of_replace_other; [by vm_compute|].
    apply elem_of_replace_other; [by vm_compute|].
    apply elem_of_replace_new; [done|]. by left.
  - apply elem_of_replace_other; [by vm_compute|].
    apply elem_of_replace_new; [|by left].
    apply elem_of_replace_other; [by vm_compute|done].
  - apply elem_of_replace_new; [|by left].
    apply elem_of_replace_other; [by vm_compute|].
    apply elem_of_replace_other; [by vm_compute|done].
Qed.

Lemma escape_cdata_grows (s : list N) :
  ch "&" ∈ s → (length s < length (ET.escape_cdata s))%nat.
Proof.
  intros Ha. unfold ET.escape_cdata.
  pose proof (replace_length_lt (ch "&") (py "&amp;") s ltac:(vm_compute; lia) Ha).
  pose proof (replace_length_le (ch "<") (py "&lt;")
                (Py.replace (ch "&") (py "&amp;") s) ltac:(vm_compute; lia)).
  pose proof (replace_length_le (ch ">") (py "&gt;")
                (Py.replace (ch "<") (py "&lt;") (Py.replace (ch "&") (py "&amp;") s))
                ltac:(vm_compute; lia)).
  lia.
Qed.

(** Escaping is not idempotent on a text that holds a markup character. *)
Lemma escape_twice_differs (s : list N) :
  Spec.has_markup s → ET.escape_cdata (ET.escape_cdata s) ≠ ET.escape_cdata s.
Proof.
  intros Hm Heq. apply escape_cdata_has_amp, escape_cdata_grows in Hm.
  rewrite Heq in Hm. lia.
Qed.
End ETFacts.

(** ** Field extractors *)

Section ExtractorFacts.
Import Pd Common.
Context `{PyBuiltins}.

Lemma notna_at_Some (r : Series) (k : str) (v : cell) :
  notna_at r k = Some v ↔ lookup k r = Some v ∧ notna v = true.
Proof.
  unfold notna_at. destruct (lookup k r) as [w|].
  - destruct (notna w) eqn:Hw; split.
    + intros [= ->]. done.
    + intros [[= ->] _]. done.
    + done.
    + intros [[= ->] Hv]. congruence.
  - split; [done|]. intros [? _]. done.
Qed.

Lemma elem_of_photo_parts (v : cell) (url : str) :
  url ∈ photo_parts v →
  ∃ piece, piece ∈ Py.split (ch ",") (py_str v) ∧ url = Py.strip piece ∧ url ≠ [].
Proof.
  unfold photo_parts. rewrite list_elem_of_In, in_flat_map.
  intros (piece & Hp & Hu). exists piece. rewrite list_elem_of_In. split; [done|].
  destruct (Py.strip piece) as [|c q]; [done|].
  destruct Hu as [<-|[]]. done.
Qed.

Lemma elem_of_urls (photos : list str) (row : Series) (url : str) :
  url ∈ urls photos row →
  ∃ col v, col ∈ photos ∧ notna_at row col = Some v ∧ url ∈ photo_parts v.
Proof.
  unfold urls. rewrite list_elem_of_In, in_flat_map.
  intros (col & Hc & Hu). exists col.
  destruct (notna_at row col) as [v|]; [|done].
  exists v. by rewrite !list_elem_of_In.
Qed.

Lemma build_image_list_spec (photos : list str) (row : Series) :
  Spec.image_list_spec photos row (build_image_list photos row).
Proof.
  unfold Spec.image_list_spec, build_image_list.
  destruct (dict_fromkeys_inv (urls photos row)) as (Hnd & Hin & Hord).
  repeat split.
  - rewrite length_take. lia.
  - eapply sublist_NoDup; [exact Hnd|apply sublist_take].
  - intros url Hu. apply elem_of_take in Hu as (i & Hi & _).
    apply list_elem_of_lookup_2, Hin, elem_of_urls in Hi as (col & v & Hc & Hv & Hu).
    apply notna_at_Some in Hv as [Hv Hn].
    apply elem_of_photo_parts in Hu as (piece & ? & ? & ?).
    by exists col, v, piece.
  - intros i j x y Hi Hj Hij.
    apply lookup_take_Some in Hi as [Hi _]. apply lookup_take_Some in Hj as [Hj _].
    eauto.
Qed.

(** C7: in every revision the photo list of a row has at most ten entries,
    holds no URL twice, consists of non-empty trimmed comma-separated pieces
    of the photo cells that hold a value, and keeps the order in which the
    URLs are first met across the photo aliases. *)
Theorem C7_build_image_list (row : Series) :
  Spec.image_list_spec V1_0.SRC_photos row (V1_0.build_image_list row)
  ∧ Spec.image_list_spec V1_1.SRC_photos row (V1_1.build_image_list row)
  ∧ Spec.image_list_spec V1_2.SRC_photos row (V1_2.build_image_list row).
Proof. repeat split; apply build_image_list_spec. Qed.

Lemma pick_price_from_11 (cols : list str) (row : Series) :
  V1_1.pick_price_from cols row
  = match head (omap (notna_at row) cols) with
    | Some v => float_of_str (price_text v)
    | None => None
    end.
Proof.
  induction cols as [|c cols IH]; [done|]. simpl.
  destruct (notna_at row c) as [v|]; simpl; [|done].
  by destruct (float_of_str (price_text v)).
Qed.

Lemma pick_price_from_10 (cols : list str) (row : Series) :
  V1_0.pick_price_from cols row = head (omap (Spec.parsed_at row) cols).
Proof.
  induction cols as [|c cols IH]; [done|]. simpl. unfold Spec.parsed_at at 1.
  destruct (notna_at row c) as [v|]; simpl; [|done].
  by destruct (float_of_str (price_text v)).
Qed.

Lemma head_omap_Some {A B} (f : A → option B) (l : list A) (b : B) :
  head (omap f l) = Some b → ∃ a, a ∈ l ∧ f a = Some b.
Proof.
  induction l as [|a l IH]; [done|]. simpl.
  destruct (f a) as [b'|] eqn:Hfa; simpl.
  - intros [= ->]. exists a. split; [left|done].
  - intros Hb. destruct (IH Hb) as (a' & ? & ?). exists a'. split; [by right|done].
Qed.

Lemma first_parse_is_parsed (pick : Series → option pyfloat) :
  Spec.first_parse_governs pick → Spec.price_is_parsed pick.
Proof.
  intros Hpick row p Hp. rewrite Hpick in Hp.
  apply head_omap_Some in Hp as (c & Hc & Hp). unfold Spec.parsed_at in Hp.
  destruct (notna_at row c) as [v|] eqn:Hv; [|done].
  apply notna_at_Some in Hv as [? ?]. by exists c, v.
Qed.

Lemma first_value_is_parsed (pick : Series → option pyfloat) :
  Spec.first_value_governs pick → Spec.price_is_parsed pick.
Proof.
  intros Hpick row p Hp. rewrite Hpick in Hp. unfold Spec.governing_value in Hp.
  destruct (head (omap (notna_at row) SRC_price)) as [v|] eqn:Hv; [|done].
  apply head_omap_Some in Hv as (c & Hc & Hv).
  apply notna_at_Some in Hv as [? ?]. by exists c, v.
Qed.

(** C3, as the code has it: revisions 1.1 and 1.2 let the first price alias
    that holds a value govern (its parse is the price, absent when it does
    not parse, and no later alias is read); revision 1.0 goes on to the
    later aliases and takes the first value that parses; in no revision is
    a price made up: a returned price is always the parse of a price cell. *)
Theorem C3_pick_price_policies :
  Spec.first_value_governs V1_1.pick_price
  ∧ Spec.first_value_governs V1_2.pick_price
  ∧ Spec.first_parse_governs V1_0.pick_price
  ∧ Spec.price_is_parsed V1_0.pick_price
  ∧ Spec.price_is_parsed V1_1.pick_price
  ∧ Spec.price_is_parsed V1_2.pick_price.
Proof.
  assert (H11 : Spec.first_value_governs V1_1.pick_price)
    by (intros row; apply pick_price_from_11).
  assert (H12 : Spec.first_value_governs V1_2.pick_price)
    by (intros row; apply pick_price_from_11).
  assert (H10 : Spec.first_parse_governs V1_0.pick_price)
    by (intros row; apply pick_price_from_10).
  repeat split; auto using first_parse_is_parsed, first_value_is_parsed.
Qed.

End ExtractorFacts.

(** ** Exporters *)

(** Closed equations are settled by evaluating both sides. *)
Ltac evaluate :=
  repeat lazymatch goal with |- _ ∧ _ => split end;
  lazymatch goal with
  | |- ?a = ?b => vm_cast_no_check (@eq_refl _ b)
  end.

Section ExporterFacts.
Import Pd Common.
Context `{PyBuiltins}.


Lemma lookup_setitem_ne (k k' : str) (v : cell) (r : Series) :
  k' ≠ k → lookup k (setitem k' v r) = lookup k r.
Proof.
  intros Hne. induction r as [|[k'' v''] r IH]; simpl.
  - by rewrite bool_decide_eq_false_2.
  - case_bool_decide as Hk; simpl.
    + subst k''. by rewrite !bool_decide_eq_false_2.
    + case_bool_decide; [done|apply IH].
Qed.

Lemma lookup_fill_slots_other (k : str) (ts : list (str * str * str)) :
  (∀ i, slot_name i ≠ k) → (∀ i, slot_unit i ≠ k) → (∀ i, slot_value i ≠ k) →
  ∀ i item, lookup k (fill_slots i ts item) = lookup k item.
Proof.
  intros Hn Hu Hv. induction ts as [|[[nm unit] val] ts IH]; intros i item; [done|].
  simpl. rewrite IH.
  rewrite (lookup_setitem_ne k (slot_value i)) by apply Hv.
  rewrite (lookup_setitem_ne k (slot_unit i)) by apply Hu.
  rewrite (lookup_setitem_ne k (slot_name i)) by apply Hn.
  reflexivity.
Qed.

Lemma slot_name_head (i : nat) : head (slot_name i) = Some 1053%N.
Proof. reflexivity. Qed.

Lemma slot_unit_head (i : nat) : head (slot_unit i) = Some 1054%N.
Proof. reflexivity. Qed.

Lemma slot_value_head (i : nat) : head (slot_value i) = Some 1047%N.
Proof. reflexivity. Qed.

Lemma not_slot_key (k : str) :
  head k ≠ Some 1053%N → head k ≠ Some 1054%N → head k ≠ Some 1047%N →
  (∀ i, slot_name i ≠ k) ∧ (∀ i, slot_unit i ≠ k) ∧ (∀ i, slot_value i ≠ k).
Proof.
  intros H1 H2 H3. split; [|split]; intros i Hk.
  - apply H1. rewrite <- Hk. exact (slot_name_head i).
  - apply H2. rewrite <- Hk. exact (slot_unit_head i).
  - apply H3. rewrite <- Hk. exact (slot_value_head i).
Qed.

Lemma V1_0_identifier_truncated (col_id col_qty : str) (r item : Series) :
  V1_0.excel_item col_id col_qty r = Some item →
  lookup (py "Код_товару") item
  = Some (CStr (take 25 (Py.strip (py_str (get r col_id (CStr [])))))).
Proof.
  unfold V1_0.excel_item.
  destruct (Py.strip (py_str (get r col_id (CStr [])))) as [|c pid]; [done|].
  intros Heq. apply (f_equal (fun o => match o with Some x => x | None => item end)) in Heq.
  cbv beta iota in Heq. subst item.
  destruct (not_slot_key (py "Код_товару")) as (Hn & Hu & Hv);
    [by vm_compute..|].
  rewrite (lookup_fill_slots_other _ _ Hn Hu Hv).
  evaluate.
Qed.

(** Revision 1.0 keeps to its schema whatever the rows hold. *)
Lemma V1_0_sheet_schema (df : DataFrame) :
  columns (V1_0.to_prom_excel df) = V1_0.PROM_XLS_COLS.
Proof. reflexivity. Qed.

Lemma omap_length_filter {A B} (f : A → option B) (blank : A → bool) (l : list A) :
  (∀ a, f a = None ↔ blank a = true) →
  (length (omap f l) + length (List.filter blank l) = length l)%nat.
Proof.
  intros Hf. induction l as [|a l IH]; [done|].
  cbn [omap list_omap List.filter length].
  destruct (f a) as [b|] eqn:Hfa, (blank a) eqn:Hba; cbn [length].
  - apply Hf in Hba. congruence.
  - lia.
  - lia.
  - apply Hf in Hfa. congruence.
Qed.

Lemma V1_0_excel_item_None (col_id col_qty : str) (r : Series) :
  V1_0.excel_item col_id col_qty r = None ↔ Spec.blank_identifier col_id r = true.
Proof.
  unfold V1_0.excel_item, Spec.blank_identifier.
  destruct (Py.strip (py_str (get r col_id (CStr [])))) as [|c pid]; simpl; split.
  - intros _. reflexivity.
  - intros _. reflexivity.
  - intros Hn. discriminate Hn.
  - intros Hn. discriminate Hn.
Qed.

(** The sheet of revision 1.0 has one row for each row of the merged table
    whose identifier is not blank. *)
Lemma V1_0_sheet_row_count (df : DataFrame) :
  let col_id := or_str (find_first_col df SRC_id) (py "код") in
  (length (rows (V1_0.to_prom_excel df))
   + length (List.filter (Spec.blank_identifier col_id) (rows df))
   = length (rows df))%nat.
Proof.
  intros col_id. unfold V1_0.to_prom_excel, from_records_cols.
  cbn [rows]. rewrite length_map. fold col_id.
  apply omap_length_filter. intros r. apply V1_0_excel_item_None.
Qed.

(** The sheets of revisions 1.1 and 1.2 have one row for every row of the
    merged table. *)
Lemma V1_1_sheet_keeps_every_row (df : DataFrame) :
  length (rows (V1_1.to_prom_excel df)) = length (rows df).
Proof.
  unfold V1_1.to_prom_excel, V1_1.excel_items, from_records, from_records_cols.
  cbn [rows]. by rewrite !length_map.
Qed.

Lemma V1_2_sheet_keeps_every_row (df : DataFrame) (key_requests : list str) :
  length (rows (V1_2.to_prom_excel df key_requests)) = length (rows df).
Proof.
  unfold V1_2.to_prom_excel, V1_2.excel_items, from_records, from_records_cols.
  cbn [rows]. by rewrite !length_map.
Qed.

(** The trees leave out exactly the rows whose identifier is blank. *)
Lemma V1_1_offer_None (col_qty : str) (r : Series) :
  V1_1.offer col_qty r = None ↔ Spec.blank_identifier (py "Код_товару") r = true.
Proof.
  unfold V1_1.offer, Spec.blank_identifier.
  destruct (Py.strip (py_str (get r (py "Код_товару") (CStr [])))) as [|c pid];
    simpl; split.
  - intros _. reflexivity.
  - intros _. reflexivity.
  - intros Hn. discriminate Hn.
  - intros Hn. discriminate Hn.
Qed.

Lemma V1_0_offer_None (col_id col_qty : str) (r : Series) :
  V1_0.offer col_id col_qty r = None ↔ Spec.blank_identifier col_id r = true.
Proof.
  unfold V1_0.offer, Spec.blank_identifier.
  destruct (Py.strip (py_str (get r col_id (CStr [])))) as [|c pid]; simpl; split.
  - intros _. reflexivity.
  - intros _. reflexivity.
  - intros Hn. discriminate Hn.
  - intros Hn. discriminate Hn.
Qed.

(** The identifier cell of revisions 1.1 and 1.2 is the merged table's
    identifier as it is. *)
Lemma V1_2_identifier_passthrough (key_requests : list str) (col_qty : str) (r : Series) :
  lookup (py "Код_товару") (V1_2.excel_item key_requests col_qty r)
  = Some (get r (py "Код_товару") (CStr [])).
Proof.
  unfold V1_2.excel_item.
  destruct (not_slot_key (py "Код_товару")) as (Hn & Hu & Hv);
    [by vm_compute..|].
  rewrite (lookup_fill_slots_other _ _ Hn Hu Hv).
  destruct key_requests as [|k ks].
  - evaluate.
  - rewrite lookup_setitem_ne by (by vm_compute). evaluate.
Qed.

(** The price cell of the sheets is [pick_price(r) or '']: a zero price
    leaves it empty. *)
Lemma V1_1_price_cell (col_qty : str) (r : Series) :
  lookup (py "Ціна") (V1_1.excel_item col_qty r)
  = Some (price_or_blank (V1_1.pick_price r)).
Proof.
  unfold V1_1.excel_item.
  destruct (not_slot_key (py "Ціна")) as (Hn & Hu & Hv); [by vm_compute..|].
  rewrite (lookup_fill_slots_other _ _ Hn Hu Hv).
  evaluate.
Qed.

Lemma price_or_blank_zero (p : pyfloat) :
  bool_of_float p = false → price_or_blank (Some p) = CStr [].
Proof. unfold price_or_blank. by intros ->. Qed.

(** A row yields at most one triplet for each entry of the attribute list,
    and the list has 21 entries. *)
Lemma triplets_bound (params : list (str * str)) (r : Series) :
  (length (triplets params r) <= length params)%nat.
Proof.
  induction params as [|p params IH]; [done|].
  unfold triplets in *. cbn [flat_map length]. rewrite length_app.
  destruct (notna_at r p.1) as [v|]; [|cbn [length]; lia].
  destruct (Py.strip (py_str v)); cbn [length]; lia.
Qed.

(** The triplets of a row follow the declared order of the attribute list. *)
Lemma triplets_in_declared_order (params : list (str * str)) (r : Series) :
  (triplets params r).*1.*1 `sublist_of` params.*2.
Proof.
  induction params as [|p params IH]; [done|].
  unfold triplets in *. cbn [flat_map]. rewrite !fmap_app.
  change (p :: params).*2 with ([p.2] ++ params.*2).
  apply sublist_app; [|done].
  destruct (notna_at r p.1) as [v|]; [|apply sublist_nil_l].
  destruct (Py.strip (py_str v)); [apply sublist_nil_l|]. reflexivity.
Qed.

Lemma params_primary_length :
  length V1_0.SRC_params_primary = 21%nat
  ∧ length V1_1.SRC_params_primary = 21%nat
  ∧ length V1_2.SRC_params_primary = 21%nat.
Proof. repeat split. Qed.

(** Revisions 1.1 and 1.2 hand the serializer a text that is already
    escaped, and the serializer escapes its input. *)
Lemma xml_safe_escapes (v : cell) :
  V1_1.xml_safe v = ET.escape_cdata (py_str v).
Proof. reflexivity. Qed.

Lemma serialize_leaf (tag text : str) :
  text ≠ [] →
  ET.serialize (ET.leaf tag text)
  = py "<" ++ tag ++ py ">" ++ ET.escape_cdata text ++ py "</" ++ tag ++ py ">".
Proof. intros Ht. destruct text; [done|]. reflexivity. Qed.

Lemma V1_1_text_node_escaped_twice (tag : str) (v : cell) :
  py_str v ≠ [] →
  ET.serialize (ET.leaf tag (V1_1.xml_safe v))
  = py "<" ++ tag ++ py ">" ++ ET.escape_cdata (ET.escape_cdata (py_str v))
    ++ py "</" ++ tag ++ py ">".
Proof.
  intros Hv. rewrite serialize_leaf; [by rewrite xml_safe_escapes|].
  rewrite xml_safe_escapes. unfold ET.escape_cdata, Py.replace.
  destruct (py_str v) as [|c s]; [done|]. cbn [flat_map].
  destruct (N.eqb c (ch "&")); [done|]. cbn [app flat_map].
  destruct (N.eqb c (ch "<")); [done|]. cbn [app flat_map].
  destruct (N.eqb c (ch ">")); done.
Qed.
(** In revisions 1.1 and 1.2 a text with a markup character never reaches
    the document escaped once. *)
Lemma V1_1_text_node_not_escaped_once (tag : str) (v : cell) :
  Spec.has_markup (py_str v) →
  ET.serialize (ET.leaf tag (V1_1.xml_safe v))
  ≠ py "<" ++ tag ++ py ">" ++ ET.escape_cdata (py_str v) ++ py "</" ++ tag ++ py ">".
Proof.
  intros Hm. rewrite V1_1_text_node_escaped_twice.
  - intros Heq. do 3 apply app_inv_head in Heq. apply app_inv_tail in Heq.
    by apply escape_twice_differs in Heq.
  - intros Hnil. rewrite Hnil in Hm.
    destruct Hm as [Hm|[Hm|Hm]]; by apply elem_of_nil in Hm.
Qed.

End ExporterFacts.

(** ** Record merger *)

Section MergeFacts.
Import Pd Common.
Context `{PyBuiltins}.

Lemma find_first_col_None (df : DataFrame) (candidates : list str) (c : str) :
  find_first_col df candidates = None → c ∈ candidates → has_column df c = false.
Proof.
  induction candidates as [|c' cs IH]; simpl; [by intros _ ?%elem_of_nil|].
  destruct (has_column df c') eqn:Hc'; [done|].
  intros Hnone [->|Hc]%elem_of_cons; auto.
Qed.

Lemma find_first_col_Some (df : DataFrame) (candidates : list str) (c : str) :
  find_first_col df candidates = Some c → c ∈ candidates ∧ has_column df c = true.
Proof.
  induction candidates as [|c' cs IH]; simpl; [done|].
  destruct (has_column df c') eqn:Hc'.
  - intros [= <-]. split; [left|done].
  - intros [? ?]%IH. split; [by right|done].
Qed.

Lemma SRC_id_nonempty (c : str) : c ∈ SRC_id → c ≠ [].
Proof.
  unfold SRC_id. rewrite !elem_of_cons, elem_of_nil.
  intros [->|[->|[->|[->|[]]]]]; by vm_compute.
Qed.

Lemma kod_in_SRC_id : py "код" ∈ SRC_id.
Proof. unfold SRC_id. do 2 right. left. Qed.

Lemma or_str_resolved (df : DataFrame) (c : str) (fallback : str) :
  find_first_col df SRC_id = Some c → or_str (Some c) fallback = c.
Proof.
  intros [Hc _]%find_first_col_Some. apply SRC_id_nonempty in Hc.
  unfold or_str. by case_bool_decide.
Qed.

Lemma getcol_missing (df : DataFrame) (c : str) :
  has_column df c = false → getcol df c = Raise (KeyError c).
Proof. unfold getcol. by intros ->. Qed.

Lemma getcol_present (df : DataFrame) (c : str) :
  has_column df c = true →
  getcol df c = Ok (map (fun r => get r c CNaN) (rows df)).
Proof. unfold getcol. by intros ->. Qed.

Lemma has_column_setcol (df : DataFrame) (c c' : str) (vals : list cell) :
  has_column (setcol df c' vals) c = has_column df c || bool_decide (c = c').
Proof.
  unfold has_column at 1 2. unfold setcol. simpl.
  destruct (has_column df c') eqn:Hc'; unfold has_column in Hc'.
  - apply bool_decide_eq_true in Hc'.
    repeat case_bool_decide; subst; simpl; done.
  - apply bool_decide_eq_false in Hc'.
    rewrite <- bool_decide_or. apply bool_decide_ext.
    rewrite elem_of_app, list_elem_of_singleton. done.
Qed.

Lemma find_first_col_setcol_id (df : DataFrame) (vals : list cell) (cands : list str) :
  py "_id" ∉ cands →
  find_first_col (setcol df (py "_id") vals) cands = find_first_col df cands.
Proof.
  induction cands as [|c cs IH]; [done|]. intros Hnotin. simpl.
  rewrite has_column_setcol.
  apply not_elem_of_cons in Hnotin as [Hne Hnotin].
  rewrite (bool_decide_eq_false_2 (c = py "_id")) by done.
  rewrite orb_false_r. rewrite IH by done. done.
Qed.

(** What the rows of a left join are made of: every merged row starts with
    the cells of a left row, every left row gives at least one merged row,
    and a left row without a match is padded with missing values. *)
Lemma joined_from_left (left right : DataFrame) (key : str) (l m : Series) :
  m ∈ joined left right key l →
  ∃ t, m = left_part right key l ++ t
       ∧ t.*1 = map (right_label left) (right_columns right key).
Proof.
  unfold joined. destruct (matches right key l) as [|m0 ms] eqn:Hms.
  - intros ->%list_elem_of_singleton. eexists. split; [done|].
    unfold right_missing. rewrite <- list_fmap_compose. done.
  - rewrite list_elem_of_In, in_map_iff. intros (m' & <- & _).
    eexists. split; [done|].
    unfold right_part. rewrite <- list_fmap_compose. done.
Qed.

Lemma merge_left_row_origin (left right : DataFrame) (key : str) (m : Series) :
  m ∈ rows (merge_left left right key) →
  ∃ l t, l ∈ rows left ∧ m = left_part right key l ++ t
         ∧ t.*1 = map (right_label left) (right_columns right key).
Proof.
  unfold merge_left. cbn [rows]. rewrite list_elem_of_In, in_flat_map.
  intros (l & Hl & Hm). apply list_elem_of_In in Hl, Hm.
  destruct (joined_from_left _ _ _ _ _ Hm) as (t & ? & ?). by exists l, t.
Qed.

Lemma joined_unmatched (left right : DataFrame) (key : str) (l : Series) :
  matches right key l = [] →
  joined left right key l = [left_part right key l ++ right_missing left right key].
Proof. unfold joined. by intros ->. Qed.

Lemma joined_nonempty (left right : DataFrame) (key : str) (l : Series) :
  (1 <= length (joined left right key l))%nat.
Proof.
  unfold joined. destruct (matches right key l); cbn [length map]; lia.
Qed.

Lemma flat_map_length_ge {A B} (f : A → list B) (l : list A) :
  (∀ a, 1 <= length (f a))%nat → (length l <= length (flat_map f l))%nat.
Proof.
  intros Hf. induction l as [|a l IH]; [done|].
  cbn [flat_map length]. rewrite length_app. specialize (Hf a). lia.
Qed.

Lemma merge_left_keeps_left_rows (left right : DataFrame) (key : str) :
  (length (rows left) <= length (rows (merge_left left right key)))%nat.
Proof.
  unfold merge_left. cbn [rows]. apply flat_map_length_ge, joined_nonempty.
Qed.

Lemma merge_left_no_right_rows (left : DataFrame) (cols : list str) (key : str) :
  rows (merge_left left (mkDF cols []) key)
  = map (fun l => left_part (mkDF cols []) key l ++ right_missing left (mkDF cols []) key)
        (rows left).
Proof.
  unfold merge_left. cbn [rows]. induction (rows left) as [|l ls IH]; [done|].
  cbn [flat_map map]. by rewrite IH.
Qed.

(** C8, as the code has it: when no identifier alias resolves in one of the
    two tables, revision 1.0 returns the normalised base table as it is,
    without raising, and revisions 1.1 and 1.2 raise the [KeyError] of the
    fallback header; there is no error of its own kind for this case. *)
Theorem C8_unresolved_identifier (df_ru df_ua : DataFrame) :
  Spec.unique_headers df_ru →
  Spec.unique_headers df_ua →
  Spec.id_unresolved df_ru ∨ Spec.id_unresolved df_ua →
  V1_0.merge_ru_ua df_ru df_ua = Ok (normalize_df df_ru)
  ∧ V1_1.merge_ru_ua df_ru df_ua = Raise (KeyError (py "код"))
  ∧ V1_2.merge_ru_ua df_ru df_ua = Raise (KeyError (py "код")).
Proof.
  intros _ _ Hun. unfold Spec.id_unresolved in Hun.
  assert (Hmiss : ∀ df, find_first_col df SRC_id = None →
                        getcol df (py "код") = Raise (KeyError (py "код"))).
  { intros df Hdf. apply getcol_missing.
    eapply find_first_col_None; [done|apply kod_in_SRC_id]. }
  split; [|split].
  - unfold V1_0.merge_ru_ua.
    destruct Hun as [-> | ->]; [done|].
    destruct (find_first_col (normalize_df df_ru) SRC_id) as [[|? ?]|]; done.
  - unfold V1_1.merge_ru_ua.
    destruct (find_first_col (normalize_df df_ru) SRC_id) as [c|] eqn:Hru.
    + destruct Hun as [?|Hua]; [done|]. rewrite Hua.
      rewrite (or_str_resolved _ _ _ Hru).
      apply find_first_col_Some in Hru as [_ Hc].
      rewrite (getcol_present _ _ Hc). simpl.
      rewrite (Hmiss _ Hua). done.
    + simpl. by rewrite (Hmiss _ Hru).
  - unfold V1_2.merge_ru_ua.
    destruct (find_first_col (normalize_df df_ru) SRC_id) as [c|] eqn:Hru.
    + destruct Hun as [?|Hua]; [done|]. rewrite Hua.
      rewrite (or_str_resolved _ _ _ Hru).
      apply find_first_col_Some in Hru as [_ Hc].
      rewrite (getcol_present _ _ Hc). simpl.
      rewrite (Hmiss _ Hua). done.
    + simpl. by rewrite (Hmiss _ Hru).
Qed.

End MergeFacts.

(** ** Frames as shared objects: what a run leaves behind *)

Section HeapFacts.
Import Pd Common Heap.
Context `{PyBuiltins}.

Lemma bindM_ok {A B} (m : M A) (k : A → M B) (σ σ' : store) (a : A) :
  m σ = (Ok a, σ') → bindM m k σ = k a σ'.
Proof. unfold bindM. by intros ->. Qed.

Lemma bindM_raise {A B} (m : M A) (k : A → M B) (σ σ' : store) (e : exn) :
  m σ = (Raise e, σ') → bindM m k σ = (Raise e, σ').
Proof. unfold bindM. by intros ->. Qed.

Lemma nth_old (σ τ : store) (a : addr) :
  (a < length σ)%nat → nth a (σ ++ τ) empty_frame = nth a σ empty_frame.
Proof. intros. by apply app_nth1. Qed.

Lemma nth_new (σ τ : store) (i : nat) :
  nth (length σ + i) (σ ++ τ) empty_frame = nth i τ empty_frame.
Proof. by rewrite app_nth2_plus. Qed.

Lemma insert_new (σ τ : store) (i : nat) (df : DataFrame) :
  <[length σ + i := df]> (σ ++ τ) = σ ++ <[i := df]> τ.
Proof. apply insert_app_r. Qed.

Lemma insert_last (τ : store) (x y : DataFrame) :
  <[length τ := x]> (τ ++ [y]) = τ ++ [x].
Proof. induction τ as [|z τ IH]; [done|]. simpl. by rewrite IH. Qed.

Lemma normalize_df_run (σ τ : store) (a : addr) :
  (a < length σ)%nat →
  Heap.normalize_df a (σ ++ τ)
  = (Ok (length σ + length τ)%nat, σ ++ (τ ++ [Common.normalize_df (nth a σ empty_frame)])).
Proof.
  intros Ha.
  unfold Heap.normalize_df, Heap.copy, bindM, read, new, write, ret.
  cbn [fst snd]. rewrite (nth_old σ τ a) by done.
  rewrite nth_middle, length_app, <- app_assoc, insert_new, insert_last.
  done.
Qed.

Lemma getcol_run (σ : store) (a : addr) (c : str) :
  Heap.getcol a c σ = (Pd.getcol (nth a σ empty_frame) c, σ).
Proof. done. Qed.

Lemma setcol_run (σ : store) (a : addr) (c : str) (vals : list cell) :
  Heap.setcol a c vals σ = (Ok tt, <[a := Pd.setcol (nth a σ empty_frame) c vals]> σ).
Proof. done. Qed.

Lemma find_first_col_run (σ : store) (a : addr) (cands : list str) :
  Heap.find_first_col a cands σ = (Ok (Common.find_first_col (nth a σ empty_frame) cands), σ).
Proof. done. Qed.

Lemma read_run (σ : store) (a : addr) : read a σ = (Ok (nth a σ empty_frame), σ).
Proof. done. Qed.

Lemma new_run (σ τ : store) (df : DataFrame) :
  new df (σ ++ τ) = (Ok (length σ + length τ)%nat, σ ++ (τ ++ [df])).
Proof. unfold new. by rewrite length_app, <- app_assoc. Qed.

Lemma getcol_run_bind {B} (σ : store) (a : addr) (c : str) (k : list cell → M B) :
  bindM (Heap.getcol a c) k σ
  = match Pd.getcol (nth a σ empty_frame) c with
    | Ok vals => k vals σ
    | Raise e => (Raise e, σ)
    end.
Proof. unfold bindM. by rewrite getcol_run. Qed.

Lemma setcol_run_bind {B} (σ : store) (a : addr) (c : str) (vals : list cell) (k : unit → M B) :
  bindM (Heap.setcol a c vals) k σ
  = k tt (<[a := Pd.setcol (nth a σ empty_frame) c vals]> σ).
Proof. done. Qed.

Lemma read_run_bind {B} (σ : store) (a : addr) (k : DataFrame → M B) :
  bindM (read a) k σ = k (nth a σ empty_frame) σ.
Proof. done. Qed.

Lemma lift_run_bind {A B} (σ : store) (r : result A) (k : A → M B) :
  bindM (lift r) k σ = match r with Ok x => k x σ | Raise e => (Raise e, σ) end.
Proof. done. Qed.

Lemma new_run_bind {B} (σ τ : store) (df : DataFrame) (k : addr → M B) :
  bindM (new df) k (σ ++ τ) = k (length σ + length τ)%nat (σ ++ (τ ++ [df])).
Proof. unfold bindM. by rewrite new_run. Qed.

Lemma lift_run {A} (σ : store) (r : result A) : lift r σ = (r, σ).
Proof. done. Qed.

(** The merge over the store computes the merge of the two frames it is
    given, leaves every frame that existed before untouched, and puts its
    working copies and its result behind them. *)
Lemma merge_run (σ : store) (a b : addr) :
  (a < length σ)%nat → (b < length σ)%nat →
  ∃ τ, Heap.merge_ru_ua a b σ
       = (match V1_1.merge_ru_ua (nth a σ empty_frame) (nth b σ empty_frame) with
          | Ok _ => Ok (length σ + 3)%nat
          | Raise e => Raise e
          end, σ ++ τ)
       ∧ ∀ m, V1_1.merge_ru_ua (nth a σ empty_frame) (nth b σ empty_frame) = Ok m →
              nth (length σ + 3) (σ ++ τ) empty_frame = m.
Proof.
  intros Ha Hb.
  replace (Heap.merge_ru_ua a b σ) with (Heap.merge_ru_ua a b (σ ++ []))
    by (by rewrite app_nil_r).
  unfold Heap.merge_ru_ua, V1_1.merge_ru_ua.
  set (Nru := Common.normalize_df (nth a σ empty_frame)).
  set (Nua := Common.normalize_df (nth b σ empty_frame)).
  erewrite bindM_ok by (by apply normalize_df_run).
  erewrite bindM_ok by (by apply normalize_df_run).
  fold Nru Nua. cbn [app length].
  do 4 (erewrite bindM_ok by (apply find_first_col_run); rewrite nth_new; cbn [nth]).
  set (col_id_ru := or_str (Common.find_first_col Nru SRC_id) (py "код")).
  set (col_id_ua := or_str (Common.find_first_col Nua SRC_id) (py "код")).
  set (col_name_ru := or_str (Common.find_first_col Nru SRC_name) (py "название")).
  set (col_name_ua := or_str (Common.find_first_col Nua SRC_name) (py "назва")).
  rewrite getcol_run_bind, nth_new. cbn [nth].
  destruct (Pd.getcol Nru col_id_ru) as [ids_ru|e]; cbn [mbind result_bind];
    [|eexists; split; [reflexivity|done]].
  rewrite setcol_run_bind, nth_new, insert_new. cbn [nth insert list_insert].
  set (Iru := Pd.setcol Nru (py "_id") (str_strip ids_ru)).
  rewrite getcol_run_bind, nth_new. cbn [nth].
  destruct (Pd.getcol Nua col_id_ua) as [ids_ua|e]; cbn [mbind result_bind];
    [|eexists; split; [reflexivity|done]].
  rewrite setcol_run_bind, nth_new, insert_new. cbn [nth insert list_insert].
  set (Iua := Pd.setcol Nua (py "_id") (str_strip ids_ua)).
  rewrite read_run_bind, nth_new. cbn [nth].
  rewrite lift_run_bind.
  destruct (select Iua [py "_id"; col_name_ua]) as [sub|e]; cbn [mbind result_bind];
    [|eexists; split; [reflexivity|done]].
  rewrite new_run_bind. cbn [app length].
  rewrite read_run_bind, nth_new. cbn [nth].
  rewrite read_run_bind, nth_new. cbn [nth].
  rewrite new_run_bind. cbn [app length].
  set (M0 := merge_left Iru (rename [(col_name_ua, py "Назва_позиції_укр")] sub) (py "_id")).
  rewrite getcol_run_bind, nth_new. cbn [nth].
  destruct (Pd.getcol M0 col_name_ru) as [names|e]; cbn [mbind result_bind];
    [|eexists; split; [reflexivity|done]].
  rewrite setcol_run_bind, nth_new, insert_new. cbn [nth insert list_insert].
  set (M1 := Pd.setcol M0 (py "Назва_позиції") (astype_str names)).
  rewrite getcol_run_bind, nth_new. cbn [nth].
  destruct (Pd.getcol M1 (py "_id")) as [ids|e]; cbn [mbind result_bind];
    [|eexists; split; [reflexivity|done]].
  rewrite setcol_run_bind, nth_new, insert_new. cbn [nth insert list_insert].
  unfold ret. eexists. split; [reflexivity|].
  intros m [= <-]. by rewrite nth_new.
Qed.

Lemma generate_run (desired_format : str) (σ : store) (a b : addr) :
  (a < length σ)%nat → (b < length σ)%nat →
  ∃ τ, Heap.generate desired_format a b σ
       = (V1_1.generate desired_format (nth a σ empty_frame) (nth b σ empty_frame),
          σ ++ τ).
Proof.
  intros Ha Hb. destruct (merge_run σ a b Ha Hb) as (τ & Hrun & Hm).
  exists τ. unfold Heap.generate, bindM. rewrite Hrun.
  unfold V1_1.generate, V1_1.generate_xlsx, V1_1.generate_yml.
  destruct (V1_1.merge_ru_ua (nth a σ empty_frame) (nth b σ empty_frame))
    as [m|e]; cbn [mbind result_bind mret result_ret].
  - unfold read. rewrite (Hm m eq_refl). by case_bool_decide.
  - by case_bool_decide.
Qed.

(** C10: generating twice from the same two frames of a session gives the
    same artifact (the same sheet, the same document text, or the same
    error), whatever the format: a run computes its output from the two
    frames alone and leaves them as they were. *)
Theorem C10_generate_twice (desired_format : str) (df_ru df_ua : addr) (σ : store) :
  (df_ru < length σ)%nat →
  (df_ua < length σ)%nat →
  let first := Heap.generate desired_format df_ru df_ua σ in
  let second := Heap.generate desired_format df_ru df_ua first.2 in
  second.1 = first.1
  ∧ first.1 = V1_1.generate desired_format (nth df_ru σ empty_frame)
                                           (nth df_ua σ empty_frame)
  ∧ nth df_ru first.2 empty_frame = nth df_ru σ empty_frame
  ∧ nth df_ua first.2 empty_frame = nth df_ua σ empty_frame.
Proof.
  intros Ha Hb first second. subst first second.
  destruct (generate_run desired_format σ df_ru df_ua Ha Hb) as (τ & ->).
  cbn [fst snd].
  destruct (generate_run desired_format (σ ++ τ) df_ru df_ua) as (τ' & ->).
  { rewrite length_app. lia. }
  { rewrite length_app. lia. }
  cbn [fst]. rewrite !nth_old by done. done.
Qed.

End HeapFacts.

(** ** The exporters on the worked inputs *)

Section Evaluations.
Import Pd Common Examples.
#[local] Existing Instance Ref.builtins.

(** C1: revisions 1.1 and 1.2 escape a text themselves and hand the result
    to the serializer, which escapes it again: the name [A & B <C>] is
    written as [A &amp;amp; B &amp;lt;C&amp;gt;], and the once-escaped text
    occurs nowhere in the document. Revision 1.0 leaves the escaping to
    the serializer and writes [A &amp; B &lt;C&gt;]. *)
Theorem C1_markup_escaped_twice :
  document_has (py "<name>A &amp;amp; B &amp;lt;C&amp;gt;</name>")
    (V1_1.generate_yml markup_ru markup_ua) = true
  ∧ document_has (py "A &amp; B &lt;C&gt;")
      (V1_1.generate_yml markup_ru markup_ua) = false
  ∧ document_has (py "<name>A &amp;amp; B &amp;lt;C&amp;gt;</name>")
      (V1_2.generate_yml [] markup_ru markup_ua) = true
  ∧ document_has (py "<name>A &amp; B &lt;C&gt;</name>")
      (V1_0.generate_yml markup_ru markup_ua) = true.
Proof. evaluate. Qed.

(** C2: the sheet of revision 1.1 has a row for the product whose
    identifier is blank (two rows for a merged table of two rows, the second
    with an empty identifier), while its tree leaves that product out;
    the sheet of revision 1.0 has the one row. *)
Theorem C2_blank_identifier_kept_in_sheet :
  sheet_rows (V1_1.merge_ru_ua blank_id_ru blank_id_ua) = Some 2%nat
  ∧ sheet_rows (V1_1.generate_xlsx blank_id_ru blank_id_ua) = Some 2%nat
  ∧ sheet_cell (V1_1.generate_xlsx blank_id_ru blank_id_ua) 1 (py "Код_товару")
    = Some (CStr [])
  ∧ sheet_cell (V1_1.generate_xlsx blank_id_ru blank_id_ua) 1 (py "Назва_позиції")
    = Some (text "Рушник")
  ∧ document_has (py "Рушник") (V1_1.generate_yml blank_id_ru blank_id_ua) = false
  ∧ sheet_rows (V1_2.generate_xlsx [] blank_id_ru blank_id_ua) = Some 2%nat
  ∧ sheet_rows (V1_0.generate_xlsx blank_id_ru blank_id_ua) = Some 1%nat.
Proof. evaluate. Qed.

(** C4: for a product that fills all 21 attribute columns the sheet of
    revision 1.1 gets a 21st group of attribute columns next to the 20
    declared ones (72 columns against the 69 of the schema), holding the
    last attribute; the sheet of revision 1.0 keeps its 15 groups. *)
Theorem C4_attribute_overflow :
  length V1_1.PROM_XLS_COLS = 69%nat
  ∧ option_map length (sheet_columns (V1_1.generate_xlsx full_attrs_ru full_attrs_ua))
    = Some 72%nat
  ∧ sheet_cell (V1_1.generate_xlsx full_attrs_ru full_attrs_ua) 0 (slot_name 21)
    = Some (text "Бонус")
  ∧ sheet_cell (V1_1.generate_xlsx full_attrs_ru full_attrs_ua) 0 (slot_value 21)
    = Some (text "x")
  ∧ sheet_columns (V1_0.generate_xlsx full_attrs_ru full_attrs_ua)
    = Some V1_0.PROM_XLS_COLS
  ∧ length V1_0.PROM_XLS_COLS = (13 + 3 * 15)%nat.
Proof. evaluate. Qed.

(** C5: a base product without a translation is written to the tree with
    the translated name [nan], in revision 1.1 as in revision 1.0; the
    translation without a base product is left out, and the sheet holds the
    missing value in the translated name. *)
Theorem C5_unmatched_translation_is_nan :
  document_has (py "<name_ua>nan</name_ua>")
    (V1_1.generate_yml unmatched_ru unmatched_ua) = true
  ∧ document_has (py "<name_ua>nan</name_ua>")
      (V1_0.generate_yml unmatched_ru unmatched_ua) = true
  ∧ document_has (py "Рушник") (V1_1.generate_yml unmatched_ru unmatched_ua) = false
  ∧ sheet_rows (V1_1.generate_xlsx unmatched_ru unmatched_ua) = Some 1%nat
  ∧ sheet_cell (V1_1.generate_xlsx unmatched_ru unmatched_ua) 0 (py "Назва_позиції_укр")
    = Some CNaN.
Proof. evaluate. Qed.

(** C6: revisions 1.1 and 1.2 write an identifier of thirty characters to
    the sheet in full; revision 1.0 writes its first 25 characters. *)
Theorem C6_identifier_not_truncated :
  length long_id = 30%nat
  ∧ sheet_cell (V1_2.generate_xlsx [] long_id_ru long_id_ua) 0 (py "Код_товару")
    = Some (CStr long_id)
  ∧ sheet_cell (V1_1.generate_xlsx long_id_ru long_id_ua) 0 (py "Код_товару")
    = Some (CStr long_id)
  ∧ sheet_cell (V1_0.generate_xlsx long_id_ru long_id_ua) 0 (py "Код_товару")
    = Some (text "1234567890123456789012345").
Proof. evaluate. Qed.

(** C3, the statement as given fails on revision 1.0: with an unparseable
    preferred price and a parseable later one, the later one is returned. *)
Lemma C3_counterexample_backfill :
  Spec.governing_value SRC_price two_prices = Some (text "abc")
  ∧ float_of_str (price_text (text "abc")) = None
  ∧ V1_0.pick_price two_prices = Some (py "5.0")
  ∧ ¬ Spec.first_value_governs V1_0.pick_price.
Proof.
  split; [evaluate|]. split; [evaluate|]. split; [evaluate|].
  intros Hg. specialize (Hg two_prices).
  assert (Hl : V1_0.pick_price two_prices = Some (py "5.0")) by evaluate.
  assert (Hr : match Spec.governing_value SRC_price two_prices with
               | Some v => float_of_str (price_text v)
               | None => None
               end = None) by evaluate.
  congruence.
Qed.

(** C8, the statement as given fails: without any identifier column
    revision 1.0 returns the normalised base table instead of raising, and
    the error of revision 1.1 is the [KeyError] that a missing name column
    raises as well. *)
Lemma C8_counterexample_no_abort :
  Spec.id_unresolved no_id_ru
  ∧ Spec.id_unresolved no_id_ua
  ∧ V1_0.merge_ru_ua no_id_ru no_id_ua = Ok (normalize_df no_id_ru)
  ∧ ¬ Spec.aborts (V1_0.merge_ru_ua no_id_ru no_id_ua)
  ∧ V1_1.merge_ru_ua no_id_ru no_id_ua = Raise (KeyError (py "код"))
  ∧ V1_1.merge_ru_ua no_name_ru no_name_ua = Raise (KeyError (py "название")).
Proof.
  assert (H10 : V1_0.merge_ru_ua no_id_ru no_id_ua = Ok (normalize_df no_id_ru))
    by evaluate.
  unfold Spec.id_unresolved.
  split; [evaluate|]. split; [evaluate|]. split; [exact H10|].
  split; [|evaluate].
  intros [e He]. rewrite H10 in He. discriminate.
Qed.

Lemma C8_unresolved_identifier_witness :
  Spec.unique_headers no_id_ru
  ∧ Spec.unique_headers no_id_ua
  ∧ (Spec.id_unresolved no_id_ru ∨ Spec.id_unresolved no_id_ua)
  ∧ V1_0.merge_ru_ua no_id_ru no_id_ua = Ok (normalize_df no_id_ru)
  ∧ V1_1.merge_ru_ua no_id_ru no_id_ua = Raise (KeyError (py "код"))
  ∧ V1_2.merge_ru_ua no_id_ru no_id_ua = Raise (KeyError (py "код")).
Proof.
  assert (Hru : Spec.unique_headers no_id_ru)
    by (unfold Spec.unique_headers; apply (bool_decide_unpack _); vm_compute; exact I).
  assert (Hua : Spec.unique_headers no_id_ua)
    by (unfold Spec.unique_headers; apply (bool_decide_unpack _); vm_compute; exact I).
  assert (Hun : Spec.id_unresolved no_id_ru ∨ Spec.id_unresolved no_id_ua)
    by (left; unfold Spec.id_unresolved; evaluate).
  split; [exact Hru|]. split; [exact Hua|]. split; [exact Hun|].
  exact (C8_unresolved_identifier no_id_ru no_id_ua Hru Hua Hun).
Defined.

Lemma C10_generate_twice_witness :
  (0 < length session_files)%nat
  ∧ (1 < length session_files)%nat
  ∧ (Heap.generate (py "yml") 0 1 (Heap.generate (py "yml") 0 1 session_files).2).1
    = (Heap.generate (py "yml") 0 1 session_files).1
  ∧ (Heap.generate (py "yml") 0 1 session_files).1
    = V1_1.generate (py "yml") unmatched_ru unmatched_ua
  ∧ nth 0 (Heap.generate (py "yml") 0 1 session_files).2 Heap.empty_frame = unmatched_ru
  ∧ nth 1 (Heap.generate (py "yml") 0 1 session_files).2 Heap.empty_frame = unmatched_ua.
Proof.
  assert (H0 : (0 < length session_files)%nat) by (simpl; lia).
  assert (H1 : (1 < length session_files)%nat) by (simpl; lia).
  split; [exact H0|]. split; [exact H1|].
  exact (C10_generate_twice (py "yml") 0 1 session_files H0 H1).
Defined.

(** C9: for a product priced 0 the price is extracted ([0.0]) and yet the
    sheet of every revision has an empty price cell and the tree of
    revision 1.0 has no price node; the tree of revision 1.1 has it. *)
Theorem C9_zero_price_dropped :
  V1_1.pick_price [(py "цена", CInt 0)] = Some (py "0.0")
  ∧ sheet_cell (V1_1.generate_xlsx free_ru free_ua) 0 (py "Ціна") = Some (CStr [])
  ∧ sheet_cell (V1_0.generate_xlsx free_ru free_ua) 0 (py "Ціна") = Some (CStr [])
  ∧ sheet_cell (V1_2.generate_xlsx [] free_ru free_ua) 0 (py "Ціна") = Some (CStr [])
  ∧ document_has (py "<price>") (V1_0.generate_yml free_ru free_ua) = false
  ∧ document_has (py "<price>0.0</price>") (V1_1.generate_yml free_ru free_ua) = true.
Proof. evaluate. Qed.

End Evaluations.

(** ** Column lookup, the extractors and the slots of the sheet *)

Section SlotFacts.
Import Pd Common.
Context `{PyBuiltins}.

Lemma replace_id (old : N) (new s : list N) :
  old ∉ s → Py.replace old new s = s.
Proof.
  unfold Py.replace. induction s as [|c s IH]; [done|].
  intros [Hc Hs]%not_elem_of_cons. cbn [flat_map].
  destruct (N.eqb_spec c old) as [Heq|_]; [done|]. by rewrite IH.
Qed.



(** X1: [find_first_col] returns the first candidate, in the order of the
    candidates, that is a column of the frame, and [None] exactly when no
    candidate is a column. *)
Theorem X1_find_first_col_first_match (df : DataFrame) (candidates : list str) :
  match find_first_col df candidates with
  | Some c => ∃ pre post, candidates = pre ++ c :: post
                          ∧ c ∈ columns df
                          ∧ ∀ c', c' ∈ pre → c' ∉ columns df
  | None => ∀ c, c ∈ candidates → c ∉ columns df
  end.
Proof.
  induction candidates as [|c cs IH]; cbn [find_first_col].
  - intros c Hc. by apply elem_of_nil in Hc.
  - unfold has_column. case_bool_decide as Hc.
    + exists [], cs. split; [done|]. split; [done|].
      intros c' Hc'. by apply elem_of_nil in Hc'.
    + destruct (find_first_col df cs) as [c0|].
      * destruct IH as (pre & post & -> & Hc0 & Hpre).
        exists (c :: pre), post. split; [done|]. split; [done|].
        intros c' [->|Hc']%elem_of_cons; auto.
      * intros c' [->|Hc']%elem_of_cons; auto.
Qed.

(** X3: whenever [pick_price] of revision 1.1 finds a price in a row,
    [pick_price] of revision 1.0 finds the same price there; the revisions
    differ only where revision 1.1 finds none. *)
Theorem X3_pick_price_revisions_agree (cols : list str) (row : Series) (p : pyfloat) :
  V1_1.pick_price_from cols row = Some p → V1_0.pick_price_from cols row = Some p.
Proof.
  induction cols as [|c cols IH]; [done|]. cbn [V1_1.pick_price_from V1_0.pick_price_from].
  destruct (notna_at row c) as [v|]; [|exact IH]. cbv zeta.
  destruct (float_of_str (price_text v)); [done|]. intros Hn. discriminate Hn.
Qed.

Lemma elem_of_take_or_full {A} (x : A) (n : nat) (l : list A) :
  x ∈ l → x ∈ take n l ∨ length (take n l) = n.
Proof.
  intros Hx. destruct (decide (length l <= n)%nat) as [Hle|Hgt].
  - left. by rewrite take_ge.
  - right. rewrite length_take. lia.
Qed.

(** X2: [build_image_list] loses no URL for another reason than the limit:
    a URL of a photo cell of the row is in the list, unless the list is
    full with ten URLs. *)
Theorem X2_build_image_list_complete (photos : list str) (row : Series) (url : str) :
  url ∈ urls photos row →
  url ∈ build_image_list photos row ∨ length (build_image_list photos row) = 10%nat.
Proof.
  intros Hu. unfold build_image_list. apply elem_of_take_or_full.
  by apply dict_fromkeys_inv.
Qed.



Lemma labels_record (it : Series) (cols : list str) :
  (map (fun c => (c, get it c CNaN)) cols).*1 = cols.
Proof. induction cols as [|c cols IH]; [done|]. cbn [map fmap list_fmap]. by rewrite IH. Qed.















Lemma slot_columns_elem (n j : nat) :
  (1 <= j <= n)%nat →
  slot_name j ∈ slot_columns n ∧ slot_unit j ∈ slot_columns n
  ∧ slot_value j ∈ slot_columns n.
Proof.
  intros Hj. unfold slot_columns. rewrite !list_elem_of_In, !in_flat_map.
  split; [|split]; exists j; (split; [apply in_seq; lia|]).
  - left. reflexivity.
  - right. left. reflexivity.
  - right. right. left. reflexivity.
Qed.





Local Opaque slot_name slot_unit slot_value.








Local Transparent slot_name slot_unit slot_value.

End SlotFacts.

(** ** The schema of the sheet *)

Section SchemaFacts.
Import Pd Common.
Context `{PyBuiltins}.
Local Opaque slot_name slot_unit slot_value.

Lemma setitem_labels (k : str) (v : cell) (r : Series) :
  k ∈ r.*1 → (setitem k v r).*1 = r.*1.
Proof.
  induction r as [|[k' v'] r IH]; [by intros ?%elem_of_nil|].
  cbn [fmap list_fmap fst setitem]. intros Hk. case_bool_decide as Hkk.
  - subst k'. reflexivity.
  - cbn [fmap list_fmap fst]. f_equal. apply IH.
    apply elem_of_cons in Hk as [Hk|Hk]; [congruence|done].
Qed.

Lemma assign_labels (kvs : list (str * cell)) (item : Series) :
  (∀ kv, kv ∈ kvs → kv.1 ∈ item.*1) → (assign item kvs).*1 = item.*1.
Proof.
  unfold assign. revert item. induction kvs as [|kv kvs IH]; intros item Hk; [done|].
  cbn [fold_left].
  assert (Hkv : (setitem kv.1 kv.2 item).*1 = item.*1)
    by (apply setitem_labels, Hk; left).
  rewrite IH; [done|]. intros kv' Hkv'. rewrite Hkv. apply Hk. by right.
Qed.

Lemma fill_slots_labels (ts : list (str * str * str)) (i : nat) (item : Series) :
  (∀ j, (i <= j < i + length ts)%nat →
        slot_name j ∈ item.*1 ∧ slot_unit j ∈ item.*1 ∧ slot_value j ∈ item.*1) →
  (fill_slots i ts item).*1 = item.*1.
Proof.
  revert i item. induction ts as [|[[nm unit] val] ts IH]; intros i item Hin; [done|].
  cbn [fill_slots length] in *.
  destruct (Hin i) as (Hn & Hu & Hv); [lia|].
  assert (H1 : (setitem (slot_name i) (CStr nm) item).*1 = item.*1)
    by (apply setitem_labels; exact Hn).
  assert (H2 : (setitem (slot_unit i) (CStr unit)
                  (setitem (slot_name i) (CStr nm) item)).*1 = item.*1)
    by (rewrite setitem_labels; [exact H1|rewrite H1; exact Hu]).
  assert (H3 : (setitem (slot_value i) (CStr val)
                 (setitem (slot_unit i) (CStr unit)
                   (setitem (slot_name i) (CStr nm) item))).*1 = item.*1)
    by (rewrite setitem_labels; [exact H2|rewrite H2; exact Hv]).
  rewrite IH; [exact H3|]. intros j Hj. rewrite H3. apply Hin. lia.
Qed.

Lemma blank_item_labels (cols : list str) : (blank_item cols).*1 = cols.
Proof.
  unfold blank_item. induction cols as [|c cols IH]; [done|].
  cbn [map fmap list_fmap fst]. f_equal. exact IH.
Qed.

(** Revisions 1.1 and 1.2: an item keeps to the declared keys unless the
    row has more than twenty attributes. *)
Lemma V1_1_item_labels (col_qty : str) (r : Series) :
  (length (triplets V1_1.SRC_params_primary r) <= 20)%nat →
  (V1_1.excel_item col_qty r).*1 = V1_1.PROM_XLS_COLS.
Proof.
  intros Hlen. unfold V1_1.excel_item.
  assert (Hbase : (assign (blank_item V1_1.PROM_XLS_COLS)
     [(py "Код_товару", get r (py "Код_товару") (CStr []));
      (py "Назва_позиції", get r (py "Назва_позиції") (CStr []));
      (py "Назва_позиції_укр", get r (py "Назва_позиції_укр") (CStr []));
      (py "Ціна", price_or_blank (V1_1.pick_price r));
      (py "Валюта", CStr CURRENCY);
      (py "Кількість", get r col_qty (CStr []));
      (py "Посилання_зображення",
       CStr (Py.join (py ", ") (V1_1.build_image_list r)))]).*1 = V1_1.PROM_XLS_COLS).
  { rewrite assign_labels; [apply blank_item_labels|].
    intros kv. rewrite blank_item_labels, !elem_of_cons, elem_of_nil.
    intros [->|[->|[->|[->|[->|[->|[->|[]]]]]]]]; cbn [fst];
      apply (bool_decide_unpack _); vm_compute; exact I. }
  rewrite fill_slots_labels; [exact Hbase|].
  intros j Hj. rewrite Hbase. unfold V1_1.PROM_XLS_COLS.
  destruct (slot_columns_elem 20 j) as (Hj1 & Hj2 & Hj3); [lia|].
  split; [|split]; apply elem_of_app; right; [exact Hj1|exact Hj2|exact Hj3].
Qed.

Lemma dict_add_present (d : list str) (keys : list str) :
  (∀ k, k ∈ keys → k ∈ d) → fold_left Py.dict_add keys d = d.
Proof.
  induction keys as [|k keys IH]; [done|]. intros Hk. cbn [fold_left].
  unfold Py.dict_add at 2. rewrite bool_decide_eq_true_2 by (apply Hk; left).
  apply IH. intros k' Hk'. apply Hk. by right.
Qed.

Lemma dict_add_fresh (d : list str) (keys : list str) :
  NoDup (d ++ keys) → fold_left Py.dict_add keys d = d ++ keys.
Proof.
  revert d. induction keys as [|k keys IH]; intros d Hnd.
  - by rewrite app_nil_r.
  - cbn [fold_left]. unfold Py.dict_add at 2.
    apply NoDup_app in Hnd as Hnd'. destruct Hnd' as (_ & Hdis & _).
    rewrite bool_decide_eq_false_2 by (intros Hk; apply (Hdis k Hk); left).
    rewrite IH; rewrite <- app_assoc; done.
Qed.

Lemma dict_fromkeys_repeated {A} (L : list str) (f : A → list str) (items : list A) :
  NoDup L → items ≠ [] → (∀ it, it ∈ items → f it = L) →
  Py.dict_fromkeys (flat_map f items) = L.
Proof.
  intros Hnd Hne Hf. destruct items as [|it items]; [done|].
  unfold Py.dict_fromkeys. cbn [flat_map]. rewrite fold_left_app.
  rewrite (Hf it) by left. rewrite (dict_add_fresh [] L) by done. cbn [app].
  apply dict_add_present. intros k. rewrite list_elem_of_In, in_flat_map.
  intros (it' & Hit' & Hk). rewrite (Hf it') in Hk by (right; by apply list_elem_of_In).
  by apply list_elem_of_In.
Qed.

Lemma V1_1_PROM_XLS_COLS_NoDup : NoDup V1_1.PROM_XLS_COLS.
Proof. apply (bool_decide_unpack _). vm_compute. exact I. Qed.

Lemma V1_1_sheet_within_schema (df : DataFrame) :
  rows df ≠ [] →
  (∀ r, r ∈ rows df → (length (triplets V1_1.SRC_params_primary r) <= 20)%nat) →
  columns (V1_1.to_prom_excel df) = V1_1.PROM_XLS_COLS
  ∧ ∀ out, out ∈ rows (V1_1.to_prom_excel df) → out.*1 = V1_1.PROM_XLS_COLS.
Proof.
  intros Hne Hlen.
  assert (Hcols : columns (V1_1.to_prom_excel df) = V1_1.PROM_XLS_COLS).
  { unfold V1_1.to_prom_excel, from_records, from_records_cols. cbn [columns].
    apply dict_fromkeys_repeated.
    - apply V1_1_PROM_XLS_COLS_NoDup.
    - unfold V1_1.excel_items. destruct (rows df); [done|]. discriminate.
    - intros it. unfold V1_1.excel_items. rewrite list_elem_of_In, in_map_iff.
      intros (r & <- & Hr). apply V1_1_item_labels, Hlen. by apply list_elem_of_In. }
  split; [exact Hcols|]. intros out.
  unfold V1_1.to_prom_excel, from_records in *. unfold from_records_cols at 1.
  cbn [rows]. rewrite list_elem_of_In, in_map_iff. intros (it & <- & _).
  rewrite labels_record. exact Hcols.
Qed.



(** X5: revision 1.1, [to_prom_excel]: as long as no row has more than
    twenty attributes, the sheet has exactly the declared columns and each
    of its rows exactly the declared cells; the sheet of a table without
    rows has no column at all. *)
Theorem X5_V1_1_sheet_schema (df : DataFrame) :
  (∀ r, r ∈ rows df → (length (triplets V1_1.SRC_params_primary r) <= 20)%nat) →
  columns (V1_1.to_prom_excel df)
  = match rows df with [] => [] | _ => V1_1.PROM_XLS_COLS end
  ∧ ∀ out, out ∈ rows (V1_1.to_prom_excel df) → out.*1 = V1_1.PROM_XLS_COLS.
Proof.
  intros Hlen. destruct (rows df) as [|r0 rs] eqn:Hrows.
  - unfold V1_1.to_prom_excel, V1_1.excel_items, from_records, from_records_cols.
    rewrite Hrows. cbn [map flat_map rows columns]. split; [reflexivity|].
    by intros out ?%elem_of_nil.
  - assert (Hne : rows df ≠ []) by (by rewrite Hrows).
    rewrite <- Hrows in Hlen. exact (V1_1_sheet_within_schema df Hne Hlen).
Qed.

Local Transparent slot_name slot_unit slot_value.

End SchemaFacts.

(** ** The texts and the offers of the tree *)

Section TreeFacts.
Import Pd Common.
Context `{PyBuiltins}.

Lemma elem_of_replace_inv (old c : N) (new s : list N) :
  c ∈ Py.replace old new s → c ∈ new ∨ (c ∈ s ∧ c ≠ old).
Proof.
  unfold Py.replace. rewrite list_elem_of_In, in_flat_map.
  intros (d & Hd & Hc). cbv beta in Hc. apply list_elem_of_In in Hd.
  destruct (N.eqb_spec d old) as [Heq|Hne].
  - left. by apply list_elem_of_In.
  - right. destruct Hc as [Hc|[]]. subst d. done.
Qed.

(** X7: the text that [xml_safe] returns holds neither [<] nor [>],
    whatever the cell. *)
Theorem X7_xml_safe_no_angle_brackets (v : cell) :
  (ch "<" ∉ V1_1.xml_safe v) ∧ (ch ">" ∉ V1_1.xml_safe v).
Proof.
  unfold V1_1.xml_safe. split.
  - intros [Hin|[Hin _]]%elem_of_replace_inv.
    + vm_compute in Hin. by repeat (apply elem_of_cons in Hin as [Hin|Hin]; [discriminate Hin|]);
        apply elem_of_nil in Hin.
    + apply elem_of_replace_inv in Hin as [Hin|[_ Hne]]; [|done].
      vm_compute in Hin. by repeat (apply elem_of_cons in Hin as [Hin|Hin]; [discriminate Hin|]);
        apply elem_of_nil in Hin.
  - intros [Hin|[_ Hne]]%elem_of_replace_inv; [|done].
    vm_compute in Hin. by repeat (apply elem_of_cons in Hin as [Hin|Hin]; [discriminate Hin|]);
        apply elem_of_nil in Hin.
Qed.

(** X8: [xml_safe] returns the text of a cell as it is exactly when that
    text holds none of [&], [<] and [>]. *)
Theorem X8_xml_safe_identity (v : cell) :
  V1_1.xml_safe v = py_str v ↔ ¬ Spec.has_markup (py_str v).
Proof.
  unfold V1_1.xml_safe, Spec.has_markup. split.
  - intros Heq Hm. apply (f_equal length) in Heq.
    pose proof (replace_length_le (ch "&") (py "&amp;") (py_str v) ltac:(vm_compute; lia)) as H1.
    pose proof (replace_length_le (ch "<") (py "&lt;")
                  (Py.replace (ch "&") (py "&amp;") (py_str v)) ltac:(vm_compute; lia)) as H2.
    pose proof (replace_length_le (ch ">") (py "&gt;")
                  (Py.replace (ch "<") (py "&lt;")
                     (Py.replace (ch "&") (py "&amp;") (py_str v))) ltac:(vm_compute; lia)) as H3.
    destruct Hm as [Ha|[Hl|Hg]].
    + pose proof (replace_length_lt (ch "&") (py "&amp;") (py_str v)
                    ltac:(vm_compute; lia) Ha). lia.
    + assert (Hl' : ch "<" ∈ Py.replace (ch "&") (py "&amp;") (py_str v))
        by (apply elem_of_replace_other; [intros Hc; discriminate Hc|exact Hl]).
      pose proof (replace_length_lt (ch "<") (py "&lt;") _ ltac:(vm_compute; lia) Hl'). lia.
    + assert (Hg' : ch ">" ∈ Py.replace (ch "<") (py "&lt;")
                      (Py.replace (ch "&") (py "&amp;") (py_str v))).
      { apply elem_of_replace_other; [intros Hc; discriminate Hc|].
        apply elem_of_replace_other; [intros Hc; discriminate Hc|exact Hg]. }
      pose proof (replace_length_lt (ch ">") (py "&gt;") _ ltac:(vm_compute; lia) Hg'). lia.
  - intros Hm.
    rewrite (replace_id (ch "&") (py "&amp;") (py_str v)) by tauto.
    rewrite (replace_id (ch "<") (py "&lt;") (py_str v)) by tauto.
    apply replace_id. tauto.
Qed.

Lemma V1_1_offers_count (df : DataFrame) :
  (length (V1_1.offers df)
   + length (List.filter (Spec.blank_identifier (py "Код_товару")) (rows df))
   = length (rows df))%nat.
Proof.
  unfold V1_1.offers. apply omap_length_filter. intros r. apply V1_1_offer_None.
Qed.

Lemma V1_0_offers_count (df : DataFrame) :
  (length (V1_0.offers df)
   + length (List.filter
               (Spec.blank_identifier (or_str (find_first_col df SRC_id) (py "код")))
               (rows df))
   = length (rows df))%nat.
Proof.
  unfold V1_0.offers. apply omap_length_filter. intros r. apply V1_0_offer_None.
Qed.

(** X6: [to_prom_yml] writes one offer for each row whose identifier is not
    blank, and none for the others: the offers and the rows with a blank
    identifier add up to the rows of the table, in revision 1.1 (where the
    identifier is read from [Код_товару]) and in revision 1.0 (where it is
    read from the resolved identifier column). *)
Theorem X6_offers_count (df : DataFrame) :
  (length (V1_1.offers df)
   + length (List.filter (Spec.blank_identifier (py "Код_товару")) (rows df))
   = length (rows df))%nat
  ∧ (length (V1_0.offers df)
     + length (List.filter
                 (Spec.blank_identifier (or_str (find_first_col df SRC_id) (py "код")))
                 (rows df))
     = length (rows df))%nat.
Proof. split; [apply V1_1_offers_count|apply V1_0_offers_count]. Qed.

End TreeFacts.

(** ** The outcome of the merge *)

Section MergeOutcome.
Import Pd Common Bot BotSpec.
Context `{PyBuiltins}.

Lemma length_rows_setcol (df : DataFrame) (c : str) (vals : list cell) :
  length vals = length (rows df) →
  length (rows (setcol df c vals)) = length (rows df).
Proof. intros Hl. unfold setcol. cbn [rows]. rewrite length_zip_with. lia. Qed.

Lemma getcol_inv (df : DataFrame) (c : str) (vals : list cell) :
  getcol df c = Ok vals → has_column df c = true ∧ length vals = length (rows df).
Proof.
  unfold getcol. destruct (has_column df c); [|done].
  intros [= <-]. by rewrite length_map.
Qed.

Lemma select_pair (df : DataFrame) (a b : str) :
  has_column df a = true →
  select df [a; b]
  = if has_column df b
    then Ok (mkDF [a; b] (map (fun r => map (fun c => (c, get r c CNaN)) [a; b]) (rows df)))
    else Raise (KeyError b).
Proof.
  intros Ha. unfold select. cbn [List.find]. rewrite Ha. cbn [negb].
  by destruct (has_column df b).
Qed.

Lemma columns_rename_pair (df : DataFrame) (kid cn new : str) :
  cn ≠ kid → columns df = [kid; cn] →
  columns (rename [(cn, new)] df) = [kid; new].
Proof.
  intros Hne Hc. unfold rename, relabel. cbn [columns]. rewrite Hc. cbn [map].
  unfold rename_label. cbn [List.find fst snd].
  rewrite (bool_decide_eq_false_2 (cn = kid)) by done.
  rewrite (bool_decide_eq_true_2 (cn = cn)) by done. reflexivity.
Qed.

Lemma right_columns_pair (right : DataFrame) (kid new : str) :
  new ≠ kid → columns right = [kid; new] → right_columns right kid = [new].
Proof.
  intros Hne Hc. unfold right_columns. rewrite Hc. cbn [List.filter].
  rewrite (bool_decide_eq_true_2 (kid = kid)) by done.
  rewrite (bool_decide_eq_false_2 (new = kid)) by done. reflexivity.
Qed.

(** A left label is in the merged frame when no right column bears it. *)
Lemma has_column_merge_left (left right : DataFrame) (key c : str) :
  c ∉ right_columns right key → has_column left c = true →
  has_column (merge_left left right key) c = true.
Proof.
  intros Hc Hl. unfold has_column in *. apply bool_decide_eq_true in Hl.
  apply bool_decide_eq_true. unfold merge_left. cbn [columns].
  apply elem_of_app. left. apply list_elem_of_fmap. exists c. split; [|done].
  unfold left_label. by rewrite bool_decide_eq_false_2.
Qed.

(** A label that is no left label, no suffixed right label and no right
    label is not in the merged frame. *)
Lemma has_column_merge_left_missing (left right : DataFrame) (key c new : str) :
  right_columns right key = [new] →
  has_column left c = false → c ≠ new → c ≠ new ++ py "_x" → c ≠ new ++ py "_y" →
  has_column (merge_left left right key) c = false.
Proof.
  intros Hr Hl Hn Hx Hy. unfold has_column in *. apply bool_decide_eq_false in Hl.
  apply bool_decide_eq_false. unfold merge_left. cbn [columns]. rewrite Hr.
  intros [Hin|Hin]%elem_of_app.
  - apply list_elem_of_fmap in Hin as (c' & Hc' & Hin). unfold left_label in Hc'.
    rewrite Hr in Hc'. case_bool_decide as Hd.
    + apply list_elem_of_singleton in Hd. subst c'. done.
    + by subst c'.
  - cbn [map] in Hin. apply list_elem_of_singleton in Hin. unfold right_label in Hin.
    by case_bool_decide.
Qed.

(** The body of [merge_ru_ua] of revisions 1.1 and 1.2, for any choice of
    labels: which step raises, and what the outcome is when none does. *)
Lemma merge_body_outcome (ru ua : DataFrame)
    (kid kname kname_ua kcode cid_ru cid_ua cn_ru cn_ua : str) :
  cn_ua ≠ kid → kname_ua ≠ kid → cn_ru ≠ kid → cn_ru ≠ kname_ua →
  cn_ru ≠ kname_ua ++ py "_x" → cn_ru ≠ kname_ua ++ py "_y" →
  match has_column ru cid_ru, has_column ua cid_ua,
        has_column ua cn_ua, has_column ru cn_ru with
  | false, _, _, _ =>
      (ids_ru ← getcol ru cid_ru;
       ids_ua ← getcol ua cid_ua;
       sub ← select (setcol ua kid (str_strip ids_ua)) [kid; cn_ua];
       names ← getcol (merge_left (setcol ru kid (str_strip ids_ru))
                         (rename [(cn_ua, kname_ua)] sub) kid) cn_ru;
       ids ← getcol (setcol (merge_left (setcol ru kid (str_strip ids_ru))
                               (rename [(cn_ua, kname_ua)] sub) kid)
                       kname (astype_str names)) kid;
       Ok (setcol (setcol (merge_left (setcol ru kid (str_strip ids_ru))
                             (rename [(cn_ua, kname_ua)] sub) kid)
                     kname (astype_str names)) kcode ids))
      = Raise (KeyError cid_ru)
  | true, false, _, _ =>
      (ids_ru ← getcol ru cid_ru;
       ids_ua ← getcol ua cid_ua;
       sub ← select (setcol ua kid (str_strip ids_ua)) [kid; cn_ua];
       names ← getcol (merge_left (setcol ru kid (str_strip ids_ru))
                         (rename [(cn_ua, kname_ua)] sub) kid) cn_ru;
       ids ← getcol (setcol (merge_left (setcol ru kid (str_strip ids_ru))
                               (rename [(cn_ua, kname_ua)] sub) kid)
                       kname (astype_str names)) kid;
       Ok (setcol (setcol (merge_left (setcol ru kid (str_strip ids_ru))
                             (rename [(cn_ua, kname_ua)] sub) kid)
                     kname (astype_str names)) kcode ids))
      = Raise (KeyError cid_ua)
  | true, true, false, _ =>
      (ids_ru ← getcol ru cid_ru;
       ids_ua ← getcol ua cid_ua;
       sub ← select (setcol ua kid (str_strip ids_ua)) [kid; cn_ua];
       names ← getcol (merge_left (setcol ru kid (str_strip ids_ru))
                         (rename [(cn_ua, kname_ua)] sub) kid) cn_ru;
       ids ← getcol (setcol (merge_left (setcol ru kid (str_strip ids_ru))
                               (rename [(cn_ua, kname_ua)] sub) kid)
                       kname (astype_str names)) kid;
       Ok (setcol (setcol (merge_left (setcol ru kid (str_strip ids_ru))
                             (rename [(cn_ua, kname_ua)] sub) kid)
                     kname (astype_str names)) kcode ids))
      = Raise (KeyError cn_ua)
  | true, true, true, false =>
      (ids_ru ← getcol ru cid_ru;
       ids_ua ← getcol ua cid_ua;
       sub ← select (setcol ua kid (str_strip ids_ua)) [kid; cn_ua];
       names ← getcol (merge_left (setcol ru kid (str_strip ids_ru))
                         (rename [(cn_ua, kname_ua)] sub) kid) cn_ru;
       ids ← getcol (setcol (merge_left (setcol ru kid (str_strip ids_ru))
                               (rename [(cn_ua, kname_ua)] sub) kid)
                       kname (astype_str names)) kid;
       Ok (setcol (setcol (merge_left (setcol ru kid (str_strip ids_ru))
                             (rename [(cn_ua, kname_ua)] sub) kid)
                     kname (astype_str names)) kcode ids))
      = Raise (KeyError cn_ru)
  | true, true, true, true =>
      ∃ merged,
        (ids_ru ← getcol ru cid_ru;
         ids_ua ← getcol ua cid_ua;
         sub ← select (setcol ua kid (str_strip ids_ua)) [kid; cn_ua];
         names ← getcol (merge_left (setcol ru kid (str_strip ids_ru))
                           (rename [(cn_ua, kname_ua)] sub) kid) cn_ru;
         ids ← getcol (setcol (merge_left (setcol ru kid (str_strip ids_ru))
                                 (rename [(cn_ua, kname_ua)] sub) kid)
                         kname (astype_str names)) kid;
         Ok (setcol (setcol (merge_left (setcol ru kid (str_strip ids_ru))
                               (rename [(cn_ua, kname_ua)] sub) kid)
                       kname (astype_str names)) kcode ids))
        = Ok merged
        ∧ (length (rows ru) <= length (rows merged))%nat
        ∧ has_column merged kcode = true
        ∧ has_column merged kname = true
  end.
Proof.
  intros Hua_kid Hnew_kid Hru_kid Hru_new Hru_x Hru_y.
  destruct (has_column ru cid_ru) eqn:H1.
  2:{ by rewrite (getcol_missing _ _ H1). }
  rewrite (getcol_present _ _ H1). cbn [mbind result_bind].
  destruct (has_column ua cid_ua) eqn:H2.
  2:{ by rewrite (getcol_missing _ _ H2). }
  rewrite (getcol_present _ _ H2). cbn [mbind result_bind].
  set (ids_ru := str_strip _). set (ids_ua := str_strip _).
  assert (Hkid_ua : has_column (setcol ua kid ids_ua) kid = true).
  { rewrite has_column_setcol. rewrite (bool_decide_eq_true_2 (kid = kid)) by done.
    apply orb_true_r. }
  rewrite (select_pair _ _ _ Hkid_ua).
  assert (Hcn : has_column (setcol ua kid ids_ua) cn_ua = has_column ua cn_ua).
  { rewrite has_column_setcol. rewrite (bool_decide_eq_false_2 (cn_ua = kid)) by done.
    apply orb_false_r. }
  rewrite Hcn.
  destruct (has_column ua cn_ua) eqn:H3; [|destruct (has_column ru cn_ru); reflexivity].
  cbn [mbind result_bind].
  set (sub := mkDF [kid; cn_ua] _).
  assert (Hright : right_columns (rename [(cn_ua, kname_ua)] sub) kid = [kname_ua]).
  { apply right_columns_pair; [done|]. by apply columns_rename_pair. }
  set (ua2 := rename _ sub) in *.
  set (ru1 := setcol ru kid ids_ru).
  assert (Hlen1 : length (rows ru1) = length (rows ru)).
  { apply length_rows_setcol. unfold ids_ru, str_strip. by rewrite !length_map. }
  assert (Hkid_m : has_column (merge_left ru1 ua2 kid) kid = true).
  { apply has_column_merge_left.
    - rewrite Hright. intros Hin%list_elem_of_singleton. congruence.
    - unfold ru1. rewrite has_column_setcol.
      rewrite (bool_decide_eq_true_2 (kid = kid)) by done. apply orb_true_r. }
  destruct (has_column ru cn_ru) eqn:H4.
  - assert (Hname : has_column (merge_left ru1 ua2 kid) cn_ru = true).
    { apply has_column_merge_left.
      - rewrite Hright. intros Hin%list_elem_of_singleton. congruence.
      - unfold ru1. rewrite has_column_setcol, H4. reflexivity. }
    rewrite (getcol_present _ _ Hname). cbn [mbind result_bind].
    set (names := astype_str _).
    assert (Hlen2 : length (rows (setcol (merge_left ru1 ua2 kid) kname names))
                    = length (rows (merge_left ru1 ua2 kid))).
    { apply length_rows_setcol. unfold names, astype_str. by rewrite !length_map. }
    assert (Hkid2 : has_column (setcol (merge_left ru1 ua2 kid) kname names) kid = true).
    { rewrite has_column_setcol, Hkid_m. reflexivity. }
    rewrite (getcol_present _ _ Hkid2). cbn [mbind result_bind].
    eexists. split; [reflexivity|]. split; [|split].
    + rewrite length_rows_setcol by (by rewrite length_map).
      rewrite Hlen2, <- Hlen1. apply merge_left_keeps_left_rows.
    + rewrite has_column_setcol. rewrite (bool_decide_eq_true_2 (kcode = kcode)) by done.
      apply orb_true_r.
    + rewrite !has_column_setcol. rewrite (bool_decide_eq_true_2 (kname = kname)) by done.
      rewrite orb_true_r. reflexivity.
  - assert (Hname : has_column (merge_left ru1 ua2 kid) cn_ru = false).
    { apply (has_column_merge_left_missing _ _ _ _ kname_ua); [done| |done..].
      unfold ru1. rewrite has_column_setcol, H4.
      by rewrite (bool_decide_eq_false_2 (cn_ru = kid)). }
    by rewrite (getcol_missing _ _ Hname).
Qed.

Lemma SRC_name_labels (c : str) :
  c ∈ SRC_name ∨ c = py "название" ∨ c = py "назва" →
  c ≠ [] ∧ c ≠ py "_id" ∧ c ≠ py "Назва_позиції_укр"
  ∧ c ≠ py "Назва_позиції_укр" ++ py "_x" ∧ c ≠ py "Назва_позиції_укр" ++ py "_y".
Proof.
  unfold SRC_name. rewrite !elem_of_cons, elem_of_nil.
  intros [ [-> | [-> | [-> | [] ] ] ] | [-> | ->] ];
    (split; [|split; [|split; [|split]]]);
    intros Heq; vm_compute in Heq; discriminate Heq.
Qed.

(** The header a lookup settles on, [find_first_col(df, candidates) or
    fallback] with the fallback among the candidates, is a column of the
    frame exactly when some candidate is. *)
Lemma resolved_column (df : DataFrame) (cands : list str) (fallback : str) :
  fallback ∈ cands → (∀ c, c ∈ cands → c ≠ []) →
  has_column df (or_str (find_first_col df cands) fallback)
  = match find_first_col df cands with Some _ => true | None => false end
  ∧ (or_str (find_first_col df cands) fallback ∈ cands).
Proof.
  intros Hfb Hne. destruct (find_first_col df cands) as [c|] eqn:Hf.
  - apply find_first_col_Some in Hf as [Hc Hh]. unfold or_str.
    rewrite bool_decide_eq_false_2 by (by apply Hne). done.
  - split; [|exact Hfb]. cbn [or_str]. by apply (find_first_col_None df cands).
Qed.

Lemma SRC_name_nonempty (c : str) : c ∈ SRC_name → c ≠ [].
Proof. intros Hc. apply SRC_name_labels. by left. Qed.

Lemma V1_1_merge_outcome (df_ru df_ua : DataFrame) :
  Spec.unique_headers df_ru →
  Spec.unique_headers df_ua →
  match find_first_col (normalize_df df_ru) SRC_id,
        find_first_col (normalize_df df_ua) SRC_id,
        find_first_col (normalize_df df_ua) SRC_name,
        find_first_col (normalize_df df_ru) SRC_name with
  | Some _, Some _, Some _, Some _ =>
      ∃ merged, V1_1.merge_ru_ua df_ru df_ua = Ok merged
                ∧ (length (rows df_ru) <= length (rows merged))%nat
                ∧ has_column merged (py "Код_товару") = true
                ∧ has_column merged (py "Назва_позиції") = true
  | Some _, Some _, Some _, None =>
      V1_1.merge_ru_ua df_ru df_ua = Raise (KeyError (py "название"))
  | Some _, Some _, None, _ =>
      V1_1.merge_ru_ua df_ru df_ua = Raise (KeyError (py "назва"))
  | _, _, _, _ =>
      V1_1.merge_ru_ua df_ru df_ua = Raise (KeyError (py "код"))
  end.
Proof.
  intros _ _.
  assert (Hrows : length (rows (normalize_df df_ru)) = length (rows df_ru))
    by (unfold normalize_df, relabel; cbn [rows]; apply length_map).
  rewrite <- Hrows. clear Hrows.
  unfold V1_1.merge_ru_ua. cbv zeta.
  generalize (normalize_df df_ru) (normalize_df df_ua). clear df_ru df_ua.
  intros ru ua.
  destruct (resolved_column ru SRC_id (py "код") kod_in_SRC_id SRC_id_nonempty)
    as [Hid_ru _].
  destruct (resolved_column ua SRC_id (py "код") kod_in_SRC_id SRC_id_nonempty)
    as [Hid_ua _].
  destruct (resolved_column ru SRC_name (py "название")
              ltac:(unfold SRC_name; do 2 right; left) SRC_name_nonempty)
    as [Hn_ru Hin_ru].
  destruct (resolved_column ua SRC_name (py "назва")
              ltac:(unfold SRC_name; right; left) SRC_name_nonempty)
    as [Hn_ua Hin_ua].
  apply (λ H, SRC_name_labels _ (or_introl H)) in Hin_ru as (_ & R1 & R2 & R3 & R4).
  apply (λ H, SRC_name_labels _ (or_introl H)) in Hin_ua as (_ & U1 & _).
  pose proof (merge_body_outcome ru ua (py "_id") (py "Назва_позиції")
                (py "Назва_позиції_укр") (py "Код_товару")
                (or_str (find_first_col ru SRC_id) (py "код"))
                (or_str (find_first_col ua SRC_id) (py "код"))
                (or_str (find_first_col ru SRC_name) (py "название"))
                (or_str (find_first_col ua SRC_name) (py "назва"))
                U1 ltac:(intros Heq; vm_compute in Heq; discriminate Heq)
                R1 R2 R3 R4) as Hb.
  rewrite Hid_ru, Hid_ua, Hn_ru, Hn_ua in Hb. clear - Hb. revert Hb.
  destruct (find_first_col ru SRC_id) as [c1|];
    [|destruct (find_first_col ua SRC_id), (find_first_col ua SRC_name),
               (find_first_col ru SRC_name); intros Hb; exact Hb].
  destruct (find_first_col ua SRC_id) as [c2|];
    [|destruct (find_first_col ua SRC_name), (find_first_col ru SRC_name);
      intros Hb; exact Hb].
  destruct (find_first_col ua SRC_name) as [c3|];
    [|destruct (find_first_col ru SRC_name); intros Hb; exact Hb].
  destruct (find_first_col ru SRC_name) as [c4|]; intros Hb; exact Hb.
Qed.


Lemma find_first_col_columns (df df' : DataFrame) (candidates : list str) :
  columns df = columns df' → find_first_col df candidates = find_first_col df' candidates.
Proof.
  intros Hc. induction candidates as [|c cs IH]; [done|]. cbn [find_first_col].
  unfold has_column. by rewrite Hc, IH.
Qed.

(** X10: two files that pass the check of [/validate] merge: of two tables
    with normal, distinct headers in which an identifier, a name and a
    price column resolve, [merge_ru_ua] of revision 1.1 returns a table,
    with at least the rows of the base table. *)
Theorem X10_validated_pair_merges (f_ru f_ua : DataFrame) :
  columns (normalize_df f_ru) = columns f_ru →
  columns (normalize_df f_ua) = columns f_ua →
  Spec.unique_headers f_ru →
  Spec.unique_headers f_ua →
  has_required f_ru →
  has_required f_ua →
  ∃ merged, V1_1.merge_ru_ua f_ru f_ua = Ok merged
            ∧ (length (rows f_ru) <= length (rows merged))%nat.
Proof.
  intros Nru Nua Uru Uua Rru Rua.
  pose proof (V1_1_merge_outcome f_ru f_ua Uru Uua) as Hm.
  rewrite !(find_first_col_columns _ _ _ Nru), !(find_first_col_columns _ _ _ Nua) in Hm.
  assert (Hid : (py "id", SRC_id) ∈ required_cols) by (unfold required_cols; left).
  assert (Hname : (py "name", SRC_name) ∈ required_cols)
    by (unfold required_cols; right; left).
  pose proof (Rru _ Hid) as H1. pose proof (Rua _ Hid) as H2.
  pose proof (Rua _ Hname) as H3. pose proof (Rru _ Hname) as H4.
  cbn [snd] in H1, H2, H3, H4. revert Hm.
  destruct (find_first_col f_ru SRC_id); [|done].
  destruct (find_first_col f_ua SRC_id); [|done].
  destruct (find_first_col f_ua SRC_name); [|done].
  destruct (find_first_col f_ru SRC_name); [|done].
  intros (merged & Hm & Hl & _). by exists merged.
Qed.

End MergeOutcome.

(** ** The merge in revisions 1.0 and 1.2 *)

Section MergeRevisions.
Import Pd Common.
Context `{PyBuiltins}.












Lemma or_str_blank_found (df : DataFrame) (cands : list str) (c : N) (s : list N) :
  or_str (find_first_col df cands) [] = c :: s → has_column df (c :: s) = true.
Proof.
  destruct (find_first_col df cands) as [c0|] eqn:Hf; cbn [or_str]; [|done].
  case_bool_decide; [done|]. intros ->. by apply find_first_col_Some in Hf as [_ ?].
Qed.

Lemma length_align (n : nat) (vals : list cell) : length (align n vals) = n.
Proof. unfold align. rewrite length_app, length_take, length_replicate. lia. Qed.

(** X21: [merge_ru_ua] of revision 1.2 is that of revision 1.1 with two
    columns more: it raises what revision 1.1 raises, and where revision
    1.1 returns a table it returns that table with the columns [Опис] and
    [Опис_укр] set, each over all the rows; a missing description column
    is no error. *)
Theorem X21_V1_2_merge_extends (df_ru df_ua : DataFrame) :
  Spec.unique_headers df_ru →
  Spec.unique_headers df_ua →
  match V1_1.merge_ru_ua df_ru df_ua with
  | Ok merged =>
      ∃ d_ru d_ua,
        V1_2.merge_ru_ua df_ru df_ua
        = Ok (setcol (setcol merged (py "Опис") d_ru) (py "Опис_укр") d_ua)
        ∧ length d_ru = length (rows merged)
        ∧ length d_ua = length (rows merged)
  | Raise e => V1_2.merge_ru_ua df_ru df_ua = Raise e
  end.
Proof.
  intros _ _. unfold V1_1.merge_ru_ua, V1_2.merge_ru_ua. cbv zeta.
  generalize (normalize_df df_ru) (normalize_df df_ua). clear df_ru df_ua.
  intros ru ua.
  destruct (getcol ru (or_str (find_first_col ru SRC_id) (py "код"))) as [ids_ru|e];
    [|reflexivity].
  cbn [mbind result_bind].
  destruct (getcol ua (or_str (find_first_col ua SRC_id) (py "код"))) as [ids_ua|e];
    [|reflexivity].
  cbn [mbind result_bind].
  set (ru1 := setcol ru (py "_id") (str_strip ids_ru)).
  set (ua1 := setcol ua (py "_id") (str_strip ids_ua)).
  destruct (select ua1 [py "_id"; or_str (find_first_col ua SRC_name) (py "назва")])
    as [sub|e]; [|reflexivity].
  cbn [mbind result_bind].
  set (m0 := merge_left ru1 _ (py "_id")).
  destruct (getcol m0 (or_str (find_first_col ru SRC_name) (py "название")))
    as [names|e]; [|reflexivity].
  cbn [mbind result_bind].
  set (m1 := setcol m0 (py "Назва_позиції") (astype_str names)).
  destruct (getcol m1 (py "_id")) as [ids|e]; [|reflexivity].
  cbn [mbind result_bind].
  set (merged := setcol m1 (py "Код_товару") ids).
  set (n := length (rows merged)).
  destruct (or_str (find_first_col ru1 SRC_description) []) as [|c s] eqn:Hru.
  - cbn [mbind result_bind].
    destruct (or_str (find_first_col ua1 SRC_description) []) as [|c' s'] eqn:Hua.
    + eexists _, _. split; [reflexivity|].
      unfold n. by rewrite ?length_replicate, ?length_align.
    + rewrite (getcol_present _ _ (or_str_blank_found _ _ _ _ Hua)).
      cbn [mbind result_bind]. eexists _, _. split; [reflexivity|].
      unfold n. by rewrite ?length_replicate, ?length_align.
  - rewrite (getcol_present _ _ (or_str_blank_found _ _ _ _ Hru)).
    cbn [mbind result_bind].
    destruct (or_str (find_first_col ua1 SRC_description) []) as [|c' s'] eqn:Hua.
    + eexists _, _. split; [reflexivity|].
      unfold n. by rewrite ?length_replicate, ?length_align.
    + rewrite (getcol_present _ _ (or_str_blank_found _ _ _ _ Hua)).
      cbn [mbind result_bind]. eexists _, _. split; [reflexivity|].
      unfold n. by rewrite ?length_replicate, ?length_align.
Qed.

End MergeRevisions.

(** ** The bot: sessions *)

Section SessionFacts.
Import Pd Common Bot BotSpec.
Context `{PyBuiltins} `{BotBuiltins}.

Lemma session_get_set_eq (uid : Z) (s : Session) (ss : list (Z * Session)) :
  session_get uid (session_set uid s ss) = Some s.
Proof.
  induction ss as [|[u s'] ss IH]; cbn [session_set session_get].
  - by rewrite bool_decide_eq_true_2.
  - case_bool_decide as Hu; cbn [session_get].
    + by rewrite bool_decide_eq_true_2.
    + by rewrite bool_decide_eq_false_2.
Qed.

Lemma session_get_set_ne (uid uid' : Z) (s : Session) (ss : list (Z * Session)) :
  uid' ≠ uid → session_get uid' (session_set uid s ss) = session_get uid' ss.
Proof.
  intros Hne. induction ss as [|[u s'] ss IH]; cbn [session_set session_get].
  - by rewrite bool_decide_eq_false_2.
  - case_bool_decide as Hu; cbn [session_get].
    + subst u. by rewrite !bool_decide_eq_false_2.
    + by rewrite IH.
Qed.

(** [_ensure_session] hands out the session of the user, a fresh empty one
    when there was none, and touches nothing else. *)
Lemma ensure_session_spec (uid : Z) (st : state) (sess : Session) (st' : state) :
  _ensure_session uid st = (sess, st') →
  session_get uid (sessions st') = Some sess
  ∧ (∀ uid', uid' ≠ uid → session_get uid' (sessions st') = session_get uid' (sessions st))
  ∧ log_file st' = log_file st
  ∧ files sess = files_of uid st
  ∧ desired_format sess = format_of uid st.
Proof.
  unfold _ensure_session, files_of, format_of.
  destruct (session_get uid (sessions st)) as [s|] eqn:Hs; intros [= <- <-].
  - done.
  - cbn [update_session sessions log_file files desired_format].
    split; [apply session_get_set_eq|]. split; [|done].
    intros uid' Hne. by apply session_get_set_ne.
Qed.

Lemma update_session_spec (uid : Z) (s : Session) (st : state) :
  session_get uid (sessions (update_session uid s st)) = Some s
  ∧ (∀ uid', uid' ≠ uid →
       session_get uid' (sessions (update_session uid s st)) = session_get uid' (sessions st))
  ∧ log_file (update_session uid s st) = log_file st.
Proof.
  unfold update_session. cbn [sessions log_file].
  split; [apply session_get_set_eq|]. split; [|done].
  intros uid' Hne. by apply session_get_set_ne.
Qed.

(** X11: whatever a user sends, the sessions of the other users stay as
    they are. *)
Theorem X11_other_sessions_untouched (u : update) (st : state) (uid' : Z) :
  uid' ≠ sender u →
  session_get uid' (sessions (after (handle u st))) = session_get uid' (sessions st).
Proof.
  intros Hne. destruct u as [uid|uid|uid|uid|uid|uid|uid data|uid doc];
    cbn [handle sender] in *.
  - unfold start. destruct (_ensure_session uid st) as [sess st1] eqn:He.
    apply ensure_session_spec in He as (_ & Ho & _). cbn [after].
    destruct (update_session_spec uid (mkSession (desired_format sess) []) st1)
      as (_ & Hu & _).
    by rewrite Hu, Ho.
  - unfold clear_files. destruct (_ensure_session uid st) as [sess st1] eqn:He.
    apply ensure_session_spec in He as (_ & Ho & _). cbn [after].
    destruct (update_session_spec uid (mkSession (desired_format sess) []) st1)
      as (_ & Hu & _).
    by rewrite Hu, Ho.
  - unfold validate. destruct (_ensure_session uid st) as [sess st1] eqn:He.
    apply ensure_session_spec in He as (_ & Ho & _).
    destruct (missing_cols (files sess)); cbn [after]; by apply Ho.
  - unfold onlyphoto. destruct (_ensure_session uid st) as [sess st1] eqn:He.
    apply ensure_session_spec in He as (_ & Ho & _).
    destruct (files sess); [cbn [after]; by apply Ho|].
    destruct (select _ _); cbn [after]; by apply Ho.
  - unfold infoaboutparsing. destruct (_ensure_session uid st) as [sess st1] eqn:He.
    apply ensure_session_spec in He as (_ & Ho & _). cbn [after]. by apply Ho.
  - unfold showlog. by destruct (log_file st).
  - destruct (Py.startswith data (py "fmt:")); [|reflexivity].
    unfold pick_format. destruct (split_once (ch ":") data !! 1%nat) as [fmt|]; [|reflexivity].
    destruct (_ensure_session uid st) as [sess st1] eqn:He.
    apply ensure_session_spec in He as (_ & Ho & _). cbn [after].
    destruct (update_session_spec uid (mkSession (Some fmt) []) st1) as (_ & Hu & _).
    by rewrite Hu, Ho.
  - unfold receive_file. destruct (_ensure_session uid st) as [sess st1] eqn:He.
    apply ensure_session_spec in He as (_ & Ho & _).
    destruct (no_format sess); [cbn [after]; by apply Ho|].
    destruct doc as [df|e]; [|cbn [after log_error sessions]; by apply Ho].
    cbv zeta.
    destruct (update_session_spec uid
                (mkSession (desired_format sess) (files sess ++ [normalize_df df])) st1)
      as (_ & Hu & _).
    destruct (files sess ++ [normalize_df df]) as [|f1 [|f2 fs]];
      [cbn [after]; by rewrite Hu, Ho..|].
    destruct (V1_1.merge_ru_ua f1 f2) as [merged|e].
    + cbn [after].
      destruct (update_session_spec uid (mkSession (desired_format sess) [])
                  (update_session uid (mkSession (desired_format sess) (f1 :: f2 :: fs)) st1))
        as (_ & Hu' & _).
      by rewrite Hu', Hu, Ho.
    + cbn [after log_error sessions]. by rewrite Hu, Ho.
Qed.












End SessionFacts.

(** ** The bot: uploads *)

Section UploadFacts.
Import Pd Common Bot BotSpec.
Context `{PyBuiltins} `{BotBuiltins}.


Lemma ensure_views (uid : Z) (st : state) (sess : Session) (st' : state) :
  _ensure_session uid st = (sess, st') →
  ∀ uid', files_of uid' st' = files_of uid' st ∧ format_of uid' st' = format_of uid' st.
Proof.
  intros He uid'. apply ensure_session_spec in He as (Hown & Hother & _ & Hf & Hd).
  destruct (decide (uid' = uid)) as [->|Hne].
  - unfold files_of at 1, format_of at 1. rewrite Hown. done.
  - unfold files_of, format_of. by rewrite (Hother _ Hne).
Qed.

Lemma update_views (uid : Z) (s : Session) (st : state) :
  files_of uid (update_session uid s st) = files s
  ∧ format_of uid (update_session uid s st) = desired_format s.
Proof.
  destruct (update_session_spec uid s st) as (Hown & _ & _).
  unfold files_of, format_of. by rewrite Hown.
Qed.

Lemma no_format_false (sess : Session) :
  no_format sess = false ↔ ∃ fmt, desired_format sess = Some fmt ∧ fmt ≠ [].
Proof.
  unfold no_format. destruct (desired_format sess) as [[|c fmt]|]; split;
    try done; try (intros (fmt' & [= <-] & Hne); done).
  intros _. by eexists.
Qed.




(** X15: an upload that cannot be read, or that comes before a format is
    chosen, changes the files and the format of no user and hands nothing
    over. *)
Theorem X15_upload_refused (st : state) (uid : Z) (doc : upload) (uid' : Z) :
  format_of uid st = None ∨ format_of uid st = Some [] ∨ (∃ e, doc = Unreadable e) →
  files_of uid' (after (receive_file uid doc st)) = files_of uid' st
  ∧ format_of uid' (after (receive_file uid doc st)) = format_of uid' st
  ∧ delivers (replies (receive_file uid doc st)) = false.
Proof.
  intros Hcase. unfold receive_file.
  destruct (_ensure_session uid st) as [sess st1] eqn:He.
  pose proof (ensure_views _ _ _ _ He uid') as [Hv1 Hv2].
  apply ensure_session_spec in He as (_ & _ & _ & _ & Hd).
  destruct (no_format sess) eqn:Hfmt; [done|].
  apply no_format_false in Hfmt as (fmt & Hs & Hne). rewrite Hs in Hd.
  destruct Hcase as [Hc|[Hc|[e ->]]]; [congruence..|].
  cbn [after replies delivers existsb is_document orb].
  unfold files_of, format_of, log_error. cbn [sessions]. done.
Qed.

(** The line that an unreadable upload leaves in the log. *)
Lemma upload_unreadable_logged (st : state) (uid : Z) (e : str) (fmt : str) :
  format_of uid st = Some fmt → fmt ≠ [] →
  log_file (after (receive_file uid (Unreadable e) st))
  = Some (match log_file st with Some old => old | None => [] end
          ++ (py "Ошибка чтения Excel для " ++ Py.str_of_Z uid ++ py ": " ++ e) ++ [10%N])
  ∧ replies (receive_file uid (Unreadable e) st)
    = [Answer (py "❌ Ошибка чтения Excel: " ++ e)].
Proof.
  intros Hf Hne. unfold receive_file.
  destruct (_ensure_session uid st) as [sess st1] eqn:He.
  apply ensure_session_spec in He as (_ & _ & Hlog & _ & Hd).
  assert (Hn : no_format sess = false)
    by (apply no_format_false; exists fmt; split; [congruence|done]).
  rewrite Hn. cbn [after replies]. unfold log_error. cbn [log_file]. by rewrite Hlog.
Qed.

Lemma last_chars_app (n : nat) (old line : str) :
  (length line <= n)%nat → ∃ pre, last_chars n (old ++ line) = pre ++ line.
Proof.
  intros Hl. unfold last_chars. rewrite length_app.
  exists (drop (length old + length line - n) old).
  rewrite drop_app.
  replace (length old + length line - n - length old)%nat with 0%nat by lia.
  reflexivity.
Qed.

(** X16: after an upload that could not be read, [/showlog] shows a text
    that ends with the line that [log_error] wrote for it, naming the user
    and the error (the line being shorter than the 2000 characters
    shown). *)
Theorem X16_unreadable_upload_in_log (st : state) (uid : Z) (e : str) (fmt : str) :
  format_of uid st = Some fmt → fmt ≠ [] →
  (length (py "Ошибка чтения Excel для " ++ Py.str_of_Z uid ++ py ": " ++ e) < 2000)%nat →
  ∃ pre,
    replies (showlog (after (receive_file uid (Unreadable e) st)))
    = [Answer (py "📝 Лог:" ++ [10%N] ++ pre
               ++ (py "Ошибка чтения Excel для " ++ Py.str_of_Z uid ++ py ": " ++ e)
               ++ [10%N])].
Proof.
  intros Hf Hne Hlen.
  destruct (upload_unreadable_logged st uid e fmt Hf Hne) as [Hlog _].
  unfold showlog. rewrite Hlog.
  destruct (last_chars_app 2000
              (match log_file st with Some old => old | None => [] end)
              ((py "Ошибка чтения Excel для " ++ Py.str_of_Z uid ++ py ": " ++ e) ++ [10%N]))
    as [pre Hpre].
  { rewrite length_app. cbn [length]. lia. }
  exists pre. cbn [replies]. rewrite Hpre. reflexivity.
Qed.








End UploadFacts.

(** ** The bot: the commands on the files of a session *)

Section CommandFacts.
Import Pd Common Bot BotSpec.
Context `{PyBuiltins} `{BotBuiltins}.

Lemma SRC_price_nonempty (c : str) : c ∈ SRC_price → c ≠ [].
Proof.
  unfold SRC_price. rewrite !elem_of_cons, elem_of_nil.
  intros [->|[->|[->|[->|[]]]]]; intros Heq; vm_compute in Heq; discriminate Heq.
Qed.

Lemma required_cols_nonempty (col : str * list str) (c : str) :
  col ∈ required_cols → c ∈ col.2 → c ≠ [].
Proof.
  unfold required_cols. rewrite !elem_of_cons, elem_of_nil.
  intros [->|[->|[->|[]]]]; cbn [snd].
  - apply SRC_id_nonempty.
  - apply SRC_name_nonempty.
  - apply SRC_price_nonempty.
Qed.

Lemma unresolved_false (df : DataFrame) (col : str * list str) :
  col ∈ required_cols →
  unresolved df col.2 = false ↔ find_first_col df col.2 ≠ None.
Proof.
  intros Hcol. unfold unresolved.
  destruct (find_first_col df col.2) as [[|c s]|] eqn:Hf; split; try done.
  apply find_first_col_Some in Hf as [Hc _].
  by apply (required_cols_nonempty col []) in Hc.
Qed.

Lemma missing_cols_nil (fs : list DataFrame) :
  missing_cols fs = [] ↔ ∀ f, f ∈ fs → has_required f.
Proof.
  unfold missing_cols, has_required. induction fs as [|f fs IH].
  - split; [|done]. by intros _ f ?%elem_of_nil.
  - cbn [flat_map]. split.
    + intros [Hf Hfs]%app_eq_nil f' Hin.
      apply elem_of_cons in Hin as [Heq|Hin]; [subst f'|by apply IH].
      rename f into f'. intros col Hcol. apply unresolved_false; [done|].
      destruct (unresolved f' col.2) eqn:Hu; [|done]. exfalso.
      assert (Hin : col.1 ∈ flat_map
                (λ col, if unresolved f' col.2 then [col.1] else []) required_cols).
      { apply list_elem_of_In, in_flat_map. exists col.
        split; [by apply list_elem_of_In|]. rewrite Hu. by left. }
      rewrite Hf in Hin. by apply elem_of_nil in Hin.
    + intros Hall.
      rewrite (proj2 IH) by (intros f' Hf'; apply Hall; by right).
      rewrite app_nil_r.
      assert (Hf : ∀ col, col ∈ required_cols → unresolved f col.2 = false).
      { intros col Hcol. apply unresolved_false; [done|]. apply (Hall f); [left|done]. }
      clear -Hf. induction required_cols as [|col cols IHc]; [done|].
      cbn [flat_map]. rewrite (Hf col) by left. cbn [app].
      apply IHc. intros col' Hcol'. apply Hf. by right.
Qed.

(** X18: [/validate] answers that every column is there exactly when each
    file of the session has an identifier, a name and a price column under
    some alias; with no file in the session it always does. *)
Theorem X18_validate_ok_iff (st : state) (uid : Z) :
  replies (validate uid st) = [Answer (py "✅ Все необходимые колонки присутствуют.")]
  ↔ ∀ f, f ∈ files_of uid st → has_required f.
Proof.
  unfold validate. destruct (_ensure_session uid st) as [sess st1] eqn:He.
  apply ensure_session_spec in He as (_ & _ & _ & Hf & _). rewrite <- Hf.
  rewrite <- missing_cols_nil.
  destruct (missing_cols (files sess)) as [|m ms]; cbn [replies]; split; done.
Qed.





End CommandFacts.

(** ** The bot of revision 1.0 *)

Section Bot10Facts.
Import Pd Common Bot BotSpec.
Context `{PyBuiltins} `{BotBuiltins}.

Lemma well_kept_10_empty (fmt : option str) : well_kept_10 (mkSession fmt []).
Proof. split; [intros df_ru df_ua Hf; discriminate Hf|done]. Qed.

Lemma ensure_invariant_10 (uid : Z) (st : state) (sess : Session) (st' : state) :
  invariant_10 st → _ensure_session uid st = (sess, st') →
  well_kept_10 sess ∧ invariant_10 st'.
Proof.
  intros Hinv. unfold _ensure_session.
  destruct (session_get uid (sessions st)) as [s|] eqn:Hs; intros [= <- <-].
  - split; [by apply (Hinv uid)|done].
  - split; [apply well_kept_10_empty|]. intros uid' s'.
    destruct (update_session_spec uid (mkSession None []) st) as (Hown & Hother & _).
    destruct (decide (uid' = uid)) as [->|Hne].
    + rewrite Hown. intros [= <-]. apply well_kept_10_empty.
    + rewrite (Hother _ Hne). apply Hinv.
Qed.

Lemma update_invariant_10 (uid : Z) (s : Session) (st : state) :
  invariant_10 st → well_kept_10 s → invariant_10 (update_session uid s st).
Proof.
  intros Hinv Hs uid' s'.
  destruct (update_session_spec uid s st) as (Hown & Hother & _).
  destruct (decide (uid' = uid)) as [->|Hne].
  - rewrite Hown. by intros [= <-].
  - rewrite (Hother _ Hne). apply Hinv.
Qed.

Lemma update_twice_invariant_10 (uid : Z) (s0 s : Session) (st : state) :
  invariant_10 st → well_kept_10 s →
  invariant_10 (update_session uid s (update_session uid s0 st)).
Proof.
  intros Hinv Hs uid' s'.
  destruct (update_session_spec uid s (update_session uid s0 st)) as (Hown & Hother & _).
  destruct (update_session_spec uid s0 st) as (_ & Hother0 & _).
  destruct (decide (uid' = uid)) as [->|Hne].
  - rewrite Hown. by intros [= <-].
  - rewrite (Hother _ Hne), (Hother0 _ Hne). apply Hinv.
Qed.

Lemma handle_invariant_10 (u : Bot10.update) (st : state) :
  invariant_10 st → invariant_10 (after (Bot10.handle u st)).
Proof.
  intros Hinv. destruct u as [uid|uid data|uid doc]; cbn [Bot10.handle].
  - unfold start. destruct (_ensure_session uid st) as [sess st1] eqn:He.
    apply (ensure_invariant_10 _ _ _ _ Hinv) in He as [_ Hinv1]. cbn [after].
    apply update_invariant_10; [done|apply well_kept_10_empty].
  - destruct (Py.startswith data (py "fmt:")); [|exact Hinv].
    unfold pick_format. destruct (split_once (ch ":") data !! 1%nat) as [fmt|]; [|exact Hinv].
    destruct (_ensure_session uid st) as [sess st1] eqn:He.
    apply (ensure_invariant_10 _ _ _ _ Hinv) in He as [_ Hinv1]. cbn [after].
    apply update_invariant_10; [done|apply well_kept_10_empty].
  - unfold Bot10.receive_file. destruct (_ensure_session uid st) as [sess st1] eqn:He.
    apply (ensure_invariant_10 _ _ _ _ Hinv) in He as [Hsess Hinv1].
    destruct (no_format sess) eqn:Hfmt; [exact Hinv1|].
    destruct doc as [df|e]; [|exact Hinv1].
    cbv zeta.
    destruct (files sess ++ [normalize_df df]) as [|f1 [|f2 [|f3 fs]]] eqn:Hfs.
    + cbn [after]. apply update_invariant_10; [done|]. apply well_kept_10_empty.
    + cbn [after]. apply update_invariant_10; [done|].
      split; [intros ? ? Hf; discriminate Hf|]. intros _. exact Hfmt.
    + destruct (V1_0.merge_ru_ua f1 f2) as [merged|e] eqn:Hm.
      * cbn [after]. apply update_twice_invariant_10; [done|apply well_kept_10_empty].
      * cbn [after]. apply update_invariant_10; [done|].
        split; [|intros _; exact Hfmt].
        cbn [files]. intros ? ? [= <- <-]. by exists e.
    + cbn [after]. apply update_invariant_10; [done|].
      split; [intros ? ? Hf; discriminate Hf|]. intros _. exact Hfmt.
Qed.

Lemma run_cons_10 (u : Bot10.update) (us : list Bot10.update) (st : state) :
  Bot10.run (u :: us) st
  = ((Bot10.run us (after (Bot10.handle u st))).1,
     replies (Bot10.handle u st) ++ (Bot10.run us (after (Bot10.handle u st))).2).
Proof. cbn [Bot10.run]. by destruct (Bot10.run us (after (Bot10.handle u st))). Qed.

Lemma run_invariant_10 (us : list Bot10.update) (st : state) :
  invariant_10 st → invariant_10 (Bot10.run us st).1.
Proof.
  revert st. induction us as [|u us IH]; intros st Hinv; [exact Hinv|].
  rewrite run_cons_10. cbn [fst]. apply IH. by apply handle_invariant_10.
Qed.

Lemma reachable_invariant_10 (st : state) : reachable_10 st → invariant_10 st.
Proof.
  intros (us & log & ->). apply run_invariant_10. intros uid sess Hs. discriminate Hs.
Qed.


(** X23: revision 1.0, [receive_file]: two files that do not merge leave the
    user without any answer, then and ever after. The readable upload that
    completes the pair ends in the exception of the merge, with both files
    kept, and each later readable upload in the [ValueError] of the
    unpacking, the session growing by the file. *)
Theorem X23_upload_unanswered_10 (st : state) (uid : Z) (df : DataFrame) :
  reachable_10 st →
  match files_of uid st with
  | [] => True
  | [f1] =>
      ∀ e, V1_0.merge_ru_ua f1 (normalize_df df) = Raise e →
           replies (Bot10.receive_file uid (Readable df) st) = []
           ∧ escaped (Bot10.receive_file uid (Readable df) st) = Some (Pipeline e)
           ∧ files_of uid (after (Bot10.receive_file uid (Readable df) st))
             = [f1; normalize_df df]
  | fs =>
      replies (Bot10.receive_file uid (Readable df) st) = []
      ∧ escaped (Bot10.receive_file uid (Readable df) st) = Some ValueError
      ∧ files_of uid (after (Bot10.receive_file uid (Readable df) st))
        = fs ++ [normalize_df df]
  end.
Proof.
  intros Hinv%reachable_invariant_10. unfold Bot10.receive_file.
  destruct (_ensure_session uid st) as [sess st1] eqn:He.
  pose proof (ensure_invariant_10 _ _ _ _ Hinv He) as [(_ & Hfmt) _].
  apply ensure_session_spec in He as (_ & _ & _ & Hf & Hd).
  rewrite <- Hf. clear Hf Hd Hinv.
  destruct (files sess) as [|g1 [|g2 gs]] eqn:Hfs; [done| |].
  - intros e. rewrite (Hfmt ltac:(done)). cbv zeta. cbn [app]. intros ->.
    cbn [replies escaped after].
    split; [reflexivity|]. split; [reflexivity|]. apply update_views.
  - rewrite (Hfmt ltac:(done)). cbv zeta. cbn [app].
    destruct (gs ++ [normalize_df df]) as [|g3 gs'] eqn:Hgs.
    { by destruct gs. }
    cbn [replies escaped after].
    split; [reflexivity|]. split; [reflexivity|]. apply update_views.
Qed.

End Bot10Facts.

(** ** The properties above on worked inputs *)

Section RefFacts.




End RefFacts.

Section MoreEvaluations.
Import Pd Common Bot BotSpec Examples MoreExamples Conversations.
#[local] Existing Instance Ref.builtins.
#[local] Existing Instance BotRef.builtins.

Lemma X2_build_image_list_complete_witness :
  py "c.jpg" ∈ urls V1_1.SRC_photos photo_row
  ∧ (py "c.jpg" ∈ build_image_list V1_1.SRC_photos photo_row
     ∨ length (build_image_list V1_1.SRC_photos photo_row) = 10%nat).
Proof.
  assert (Hu : py "c.jpg" ∈ urls V1_1.SRC_photos photo_row)
    by (apply (bool_decide_unpack _); vm_compute; exact I).
  split; [exact Hu|].
  exact (X2_build_image_list_complete V1_1.SRC_photos photo_row (py "c.jpg") Hu).
Defined.

Lemma X3_pick_price_revisions_agree_witness :
  V1_1.pick_price_from SRC_price comma_price = Some (py "12.5")
  ∧ V1_0.pick_price_from SRC_price comma_price = Some (py "12.5").
Proof.
  assert (Hp : V1_1.pick_price_from SRC_price comma_price = Some (py "12.5")) by evaluate.
  split; [exact Hp|].
  exact (X3_pick_price_revisions_agree SRC_price comma_price (py "12.5") Hp).
Defined.


Lemma X5_V1_1_sheet_schema_witness :
  (∀ r, r ∈ rows unmatched_merged →
        (length (triplets V1_1.SRC_params_primary r) <= 20)%nat)
  ∧ columns (V1_1.to_prom_excel unmatched_merged)
    = match rows unmatched_merged with [] => [] | _ => V1_1.PROM_XLS_COLS end
  ∧ ∀ out, out ∈ rows (V1_1.to_prom_excel unmatched_merged) →
           out.*1 = V1_1.PROM_XLS_COLS.
Proof.
  assert (Hlen : ∀ r, r ∈ rows unmatched_merged →
                      (length (triplets V1_1.SRC_params_primary r) <= 20)%nat).
  { apply Forall_forall. apply (bool_decide_unpack _). vm_compute. exact I. }
  split; [exact Hlen|].
  exact (X5_V1_1_sheet_schema unmatched_merged Hlen).
Defined.


Lemma X10_validated_pair_merges_witness :
  columns (normalize_df priced_ru) = columns priced_ru
  ∧ columns (normalize_df priced_ua) = columns priced_ua
  ∧ Spec.unique_headers priced_ru
  ∧ Spec.unique_headers priced_ua
  ∧ has_required priced_ru
  ∧ has_required priced_ua
  ∧ ∃ merged, V1_1.merge_ru_ua priced_ru priced_ua = Ok merged
              ∧ (length (rows priced_ru) <= length (rows merged))%nat.
Proof.
  assert (Nru : columns (normalize_df priced_ru) = columns priced_ru) by evaluate.
  assert (Nua : columns (normalize_df priced_ua) = columns priced_ua) by evaluate.
  assert (Uru : Spec.unique_headers priced_ru)
    by (unfold Spec.unique_headers; apply (bool_decide_unpack _); vm_compute; exact I).
  assert (Uua : Spec.unique_headers priced_ua)
    by (unfold Spec.unique_headers; apply (bool_decide_unpack _); vm_compute; exact I).
  assert (Rru : has_required priced_ru).
  { intros col Hcol. unfold required_cols in Hcol.
    rewrite !elem_of_cons, elem_of_nil in Hcol.
    destruct Hcol as [->|[->|[->|[]]]]; cbn [snd];
      intros Heq; vm_compute in Heq; discriminate Heq. }
  assert (Rua : has_required priced_ua).
  { intros col Hcol. unfold required_cols in Hcol.
    rewrite !elem_of_cons, elem_of_nil in Hcol.
    destruct Hcol as [->|[->|[->|[]]]]; cbn [snd];
      intros Heq; vm_compute in Heq; discriminate Heq. }
  split; [exact Nru|]. split; [exact Nua|]. split; [exact Uru|]. split; [exact Uua|].
  split; [exact Rru|]. split; [exact Rua|].
  exact (X10_validated_pair_merges priced_ru priced_ua Nru Nua Uru Uua Rru Rua).
Defined.

Lemma X11_other_sessions_untouched_witness :
  other_user ≠ sender (Upload user (Readable unmatched_ua))
  ∧ session_get other_user
      (sessions (after (handle (Upload user (Readable unmatched_ua)) waiting)))
    = session_get other_user (sessions waiting).
Proof.
  assert (Hne : other_user ≠ sender (Upload user (Readable unmatched_ua)))
    by (intros Heq; vm_compute in Heq; discriminate Heq).
  split; [exact Hne|].
  exact (X11_other_sessions_untouched (Upload user (Readable unmatched_ua)) waiting other_user Hne).
Defined.




Lemma X15_upload_refused_witness :
  (format_of user (created None) = None ∨ format_of user (created None) = Some []
   ∨ ∃ e, Readable unmatched_ru = Unreadable e)
  ∧ files_of other_user (after (receive_file user (Readable unmatched_ru) (created None)))
    = files_of other_user (created None)
  ∧ format_of other_user (after (receive_file user (Readable unmatched_ru) (created None)))
    = format_of other_user (created None)
  ∧ delivers (replies (receive_file user (Readable unmatched_ru) (created None))) = false.
Proof.
  assert (Hc : format_of user (created None) = None ∨ format_of user (created None) = Some []
               ∨ ∃ e, Readable unmatched_ru = Unreadable e) by (left; reflexivity).
  split; [exact Hc|].
  exact (X15_upload_refused (created None) user (Readable unmatched_ru) other_user Hc).
Defined.

Lemma X16_unreadable_upload_in_log_witness :
  format_of user waiting = Some (py "xlsx")
  ∧ py "xlsx" ≠ []
  ∧ (length (py "Ошибка чтения Excel для " ++ Py.str_of_Z user ++ py ": "
             ++ py "File is not a zip file") < 2000)%nat
  ∧ ∃ pre,
      replies (showlog (after (receive_file user (Unreadable (py "File is not a zip file"))
                                            waiting)))
      = [Answer (py "📝 Лог:" ++ [10%N] ++ pre
                 ++ (py "Ошибка чтения Excel для " ++ Py.str_of_Z user ++ py ": "
                     ++ py "File is not a zip file")
                 ++ [10%N])].
Proof.
  assert (Hf : format_of user waiting = Some (py "xlsx")) by evaluate.
  assert (Hne : py "xlsx" ≠ []) by (intros Heq; vm_compute in Heq; discriminate Heq).
  assert (Hl : (length (py "Ошибка чтения Excel для " ++ Py.str_of_Z user ++ py ": "
                        ++ py "File is not a zip file") < 2000)%nat)
    by (vm_compute; lia).
  split; [exact Hf|]. split; [exact Hne|]. split; [exact Hl|].
  exact (X16_unreadable_upload_in_log waiting user (py "File is not a zip file") (py "xlsx")
           Hf Hne Hl).
Defined.




Lemma X21_V1_2_merge_extends_witness :
  Spec.unique_headers unmatched_ru
  ∧ Spec.unique_headers unmatched_ua
  ∧ ∃ merged d_ru d_ua,
      V1_1.merge_ru_ua unmatched_ru unmatched_ua = Ok merged
      ∧ V1_2.merge_ru_ua unmatched_ru unmatched_ua
        = Ok (setcol (setcol merged (py "Опис") d_ru) (py "Опис_укр") d_ua).
Proof.
  assert (Hru : Spec.unique_headers unmatched_ru)
    by (unfold Spec.unique_headers; apply (bool_decide_unpack _); vm_compute; exact I).
  assert (Hua : Spec.unique_headers unmatched_ua)
    by (unfold Spec.unique_headers; apply (bool_decide_unpack _); vm_compute; exact I).
  split; [exact Hru|]. split; [exact Hua|].
  pose proof (X21_V1_2_merge_extends unmatched_ru unmatched_ua Hru Hua) as Hp.
  assert (Hok : sheet_rows (V1_1.merge_ru_ua unmatched_ru unmatched_ua) = Some 1%nat)
    by evaluate.
  destruct (V1_1.merge_ru_ua unmatched_ru unmatched_ua) as [merged|e];
    [|discriminate Hok].
  destruct Hp as (d_ru & d_ua & Hp & _). exists merged, d_ru, d_ua.
  split; [reflexivity|exact Hp].
Defined.

Lemma X23_upload_unanswered_10_witness :
  reachable_10 blocked_10
  ∧ replies (Bot10.receive_file user (Readable unmatched_ru) blocked_10) = []
  ∧ escaped (Bot10.receive_file user (Readable unmatched_ru) blocked_10)
    = Some ValueError.
Proof.
  assert (Hr : reachable_10 blocked_10).
  { exists [Bot10.Callback user (py "fmt:yml"); Bot10.Upload user (Readable no_name_ru);
            Bot10.Upload user (Readable no_name_ua)], None. reflexivity. }
  split; [exact Hr|].
  pose proof (X23_upload_unanswered_10 blocked_10 user unmatched_ru Hr) as Hp.
  assert (Hl : length (files_of user blocked_10) = 2%nat) by evaluate.
  revert Hp Hl.
  destruct (files_of user blocked_10) as [|f1 [|f2 fs]];
    intros Hp Hl; [discriminate Hl..|].
  destruct Hp as (Hrep & Hesc & _). split; [exact Hrep|exact Hesc].
Defined.

End MoreEvaluations.
